(** * Perpetua-Report: record classification and metric aggregation

    A shallow embedding of the reusable logic of the reporting scripts
    ([scripts/1_process_campaign_data.py], [scripts/2_asin_level_analysis.py],
    [scripts/10_dashboard_from_campaign_report.py],
    [scripts/11_combined_reports_dashboard.py]): the reference loader, the
    campaign classifier, the numeric cleaning loop and the aggregator.

    Modelling conventions
    - a cell that pandas holds as NaN / None is [None]; a text cell is
      [Some s] with [s] the value of [str(cell)];
    - text is a [string] of bytes.  The character classes of the two regular
      expressions ([B], [A-Z], [0-9], [NT|SD|PN]) are ASCII, so on UTF-8 text
      a match starts and ends where it does on code points; [\d] and
      [str.strip] are modelled on their ASCII range;
    - Python [set] is [gset string], Python [dict] is [gmap string string];
    - numbers held in a cleaned numeric column are rationals ([Q]); the
      result of an unguarded pandas division is a [float64] value: a
      rational, one of the two infinities, or NaN.  Rounding error of
      float64 arithmetic and wrap-around of int64 sums are not modelled: a
      sum in [Q] is the sum the program computes where the program's
      additions are exact, which is what [whole_numbers] asks of a column,
      and statements about equal sums carry it as a hypothesis.  A cleaned
      cell that holds an infinity is outside the rows modelled here;
    - a [Date] cell is the day [pd.to_datetime(..., errors='coerce')] gives,
      [None] for NaT. *)

From Stdlib Require Import QArith Qabs Qround ZArith String Ascii List Bool Lia.
From stdpp Require Import base gmap strings list.

(** ** Text: [str.strip] and the two [re.search] patterns *)

Module Text.

Definition code (c : ascii) : nat := nat_of_ascii c.

(** [A-Z] *)
Definition is_upper (c : ascii) : bool :=
  (65 <=? code c)%nat && (code c <=? 90)%nat.

(** [\d] on ASCII text *)
Definition is_digit (c : ascii) : bool :=
  (48 <=? code c)%nat && (code c <=? 57)%nat.

(** [A-Z0-9] *)
Definition is_upper_alnum (c : ascii) : bool := is_upper c || is_digit c.

(** ASCII characters for which [str.isspace] holds:
    TAB, LF, VT, FF, CR, FS, GS, RS, US and SPACE. *)
Definition is_space (c : ascii) : bool :=
  ((9 <=? code c)%nat && (code c <=? 13)%nat)
  || ((28 <=? code c)%nat && (code c <=? 32)%nat).

Fixpoint lstrip (s : string) : string :=
  match s with
  | String c s' => if is_space c then lstrip s' else s
  | EmptyString => EmptyString
  end.

Fixpoint rstrip (s : string) : string :=
  match s with
  | String c s' =>
      match rstrip s' with
      | EmptyString => if is_space c then EmptyString else String c EmptyString
      | t => String c t
      end
  | EmptyString => EmptyString
  end.

(** [s.strip()] *)
Definition strip (s : string) : string := rstrip (lstrip s).

(** [[A-Z0-9]{n}] anchored at the head of [s]: the [n] characters matched. *)
Fixpoint match_upper_alnum (n : nat) (s : string) : option string :=
  match n with
  | O => Some EmptyString
  | S n' =>
      match s with
      | String c s' =>
          if is_upper_alnum c
          then option_map (String c) (match_upper_alnum n' s')
          else None
      | EmptyString => None
      end
  end.

(** [B[A-Z0-9]{9}] anchored at the head of [s]. *)
Definition match_asin (s : string) : option string :=
  match s with
  | String c s' =>
      if Ascii.eqb c "B"
      then option_map (String c) (match_upper_alnum 9 s')
      else None
  | EmptyString => None
  end.

(** Greedy [\d*] at the head of [s]: the digits and what follows them. *)
Fixpoint span_digits (s : string) : string * string :=
  match s with
  | String c s' =>
      if is_digit c
      then let (ds, rest) := span_digits s' in (String c ds, rest)
      else (EmptyString, s)
  | EmptyString => (EmptyString, EmptyString)
  end.

(** [(NT|SD|PN)] *)
Definition is_sku_prefix (a b : ascii) : bool :=
  (Ascii.eqb a "N" && Ascii.eqb b "T")
  || (Ascii.eqb a "S" && Ascii.eqb b "D")
  || (Ascii.eqb a "P" && Ascii.eqb b "N").

(** [(NT|SD|PN)\d+[A-Z]?] anchored at the head of [s].  The three parts
    match disjoint character sets, so the greedy match is the only one. *)
Definition match_sku (s : string) : option string :=
  match s with
  | String a (String b s') =>
      if is_sku_prefix a b then
        match span_digits s' with
        | (EmptyString, _) => None
        | (ds, rest) =>
            let tail :=
              match rest with
              | String c _ => if is_upper c then String c EmptyString else EmptyString
              | EmptyString => EmptyString
              end in
            Some (String a (String b (ds +:+ tail)))
        end
      else None
  | _ => None
  end.

(** [re.search(p, s)]: the match at the leftmost position that has one;
    [group(0)] of it.  [here] is the pattern anchored at a position. *)
Fixpoint search (here : string -> option string) (s : string) : option string :=
  match here s with
  | Some w => Some w
  | None =>
      match s with
      | String _ s' => search here s'
      | EmptyString => None
      end
  end.

(** [re.search(r'B[A-Z0-9]{9}', s)] *)
Definition search_asin (s : string) : option string := search match_asin s.

(** [re.search(r'(NT|SD|PN)\d+[A-Z]?', s)] *)
Definition search_sku (s : string) : option string := search match_sku s.

(** Truth value of [x] in [if x:] for [x] a [str] or [None]. *)
Definition truthy (x : option string) : bool :=
  match x with
  | Some s => negb (String.eqb s EmptyString)
  | None => false
  end.

(** [c not in s] *)
Fixpoint free_of (c : ascii) (s : string) : bool :=
  match s with
  | String a s' => negb (Ascii.eqb a c) && free_of c s'
  | EmptyString => true
  end.

(** [p not in s] for a two-character [p]: no position of [s] starts
    with the characters [a], [b]. *)
Fixpoint free_of_pair (a b : ascii) (s : string) : bool :=
  match s with
  | String x s' =>
      match s' with
      | String y _ => negb (Ascii.eqb x a && Ascii.eqb y b)
      | EmptyString => true
      end && free_of_pair a b s'
  | EmptyString => true
  end.

(** A word the ASIN pattern matches in full: [B] and nine of [A-Z0-9]. *)
Definition asin_shaped (w : string) : bool :=
  match match_asin w with
  | Some m => String.eqb m w
  | None => false
  end.

End Text.

(** ** Cohorts and reference sheets *)

Inductive advertising_type : Set := Perpetua | NonPerpetua | Unknown.

Definition advertising_type_eqb (a b : advertising_type) : bool :=
  match a, b with
  | Perpetua, Perpetua | NonPerpetua, NonPerpetua | Unknown, Unknown => true
  | _, _ => false
  end.

(** A row of a sheet of [ASIN list - perpetua.xlsx]: the [SKU] cell and the
    [ASIN] cell (column [ASIN] of sheet [perpetua list], column
    [ASIN (Informational only)] of sheet [All ASIns]). *)
Record sheet_row : Set := { SKU_cell : option string; ASIN_cell : option string }.

(** [set(df[col].dropna().str.strip())] *)
Definition stripped_set (col : sheet_row -> option string) (df : list sheet_row)
  : gset string :=
  list_to_set (Text.strip <$> omap col df).

(** ** Numbers as pandas holds them *)

Module Pandas.

Local Open Scope Q_scope.

(** A float64 value: a finite number, an infinity or NaN. *)
Inductive float64 : Set := Fin (q : Q) | PosInf | NegInf | NaN.

(** [a < b] on finite numbers *)
Definition Qlt_bool (a b : Q) : bool := negb (Qle_bool b a).

(** [a / b] on two finite float64 values ([Series / Series], or two numpy
    scalars): a zero divisor gives an infinity, or NaN for [0 / 0]. *)
Definition div (a b : Q) : float64 :=
  if Qeq_bool b 0 then
    if Qlt_bool 0 a then PosInf
    else if Qlt_bool a 0 then NegInf
    else NaN
  else Fin (a / b).

(** [x / y] on float64 values *)
Definition fdiv (x y : float64) : float64 :=
  match x, y with
  | NaN, _ | _, NaN => NaN
  | Fin a, Fin b => div a b
  | Fin _, (PosInf | NegInf) => Fin 0
  | PosInf, Fin b => if Qlt_bool b 0 then NegInf else PosInf
  | NegInf, Fin b => if Qlt_bool b 0 then PosInf else NegInf
  | (PosInf | NegInf), (PosInf | NegInf) => NaN
  end.

(** [x + y] on float64 values *)
Definition fadd (x y : float64) : float64 :=
  match x, y with
  | NaN, _ | _, NaN => NaN
  | Fin a, Fin b => Fin (a + b)
  | PosInf, NegInf | NegInf, PosInf => NaN
  | PosInf, _ | _, PosInf => PosInf
  | NegInf, _ | _, NegInf => NegInf
  end.

(** [.replace(0, np.nan)] on a cell of a numeric column *)
Definition replace_zero_nan (q : Q) : float64 :=
  if Qeq_bool q 0 then NaN else Fin q.

(** [.replace(0, 1)] on a cell of a numeric column *)
Definition replace_zero_one (q : Q) : Q :=
  if Qeq_bool q 0 then 1 else q.

(** [.replace([np.inf, -np.inf], np.nan)] *)
Definition replace_inf_nan (x : float64) : float64 :=
  match x with
  | PosInf | NegInf => NaN
  | _ => x
  end.

(** [.fillna(v)] *)
Definition fillna (v : Q) (x : float64) : float64 :=
  match x with
  | NaN => Fin v
  | _ => x
  end.

(** [np.rint]: the nearest integer, ties to the even one. *)
Definition rint (q : Q) : Z :=
  let f := Qfloor q in
  match Qcompare (q - inject_Z f) (1 # 2) with
  | Lt => f
  | Gt => (f + 1)%Z
  | Eq => if Z.even f then f else (f + 1)%Z
  end.

(** [.round(decimals)] on a finite cell: [rint(x * 10**d) / 10**d], with
    the product taken in [Q].  numpy rounds the product to binary64 before
    [rint], so the two agree where the product is exact (whole numbers, and
    cells away from a tie by more than the rounding of the product). *)
Definition round (decimals : nat) (q : Q) : Q :=
  let scale := inject_Z (10 ^ Z.of_nat decimals)%Z in
  inject_Z (rint (q * scale)) / scale.

(** [.round(decimals)] on a float64 cell *)
Definition fround (decimals : nat) (x : float64) : float64 :=
  match x with
  | Fin q => Fin (round decimals q)
  | _ => x
  end.

(** [Series.sum()] of a numeric column without missing cells, as the exact
    sum of the cells: the value the program computes when its additions are
    exact (see [whole_numbers]). *)
Definition sum (col : list Q) : Q := foldr Qplus 0 col.

(** [Series.nunique()]: the number of distinct cells that are not missing *)
Definition nunique (col : list (option string)) : nat :=
  size (list_to_set (omap (fun c => c) col) : gset string).

(** [pd.isna] on a float64 cell *)
Definition isna (x : float64) : bool :=
  match x with
  | NaN => true
  | _ => false
  end.

(** [Series.mean()]: NaN cells are skipped; NaN when none is left. *)
Definition mean (col : list float64) : float64 :=
  let present := filter (fun x => isna x = false) col in
  match present with
  | [] => NaN
  | _ => fdiv (foldr fadd (Fin 0) present) (Fin (inject_Z (Z.of_nat (length present))))
  end.

(** [s.replace(c, '')] for a one-character [c] *)
Fixpoint remove (c : ascii) (s : string) : string :=
  match s with
  | String a s' => if Ascii.eqb a c then remove c s' else String a (remove c s')
  | EmptyString => EmptyString
  end.

(** [.astype(str)] on a cell of an object column: a missing cell reads "nan". *)
Definition astype_str (cell : option string) : string :=
  match cell with
  | Some s => s
  | None => "nan"%string
  end.

(** A column as read from a file: dtype [object] (text cells, some
    missing) or a numeric dtype. *)
Inductive column : Set :=
| Object (cells : list (option string))
| Numeric (cells : list float64).

(** The float64 cell [x] holds the finite number [v]. *)
Definition is_value (x : float64) (v : Q) : Prop :=
  match x with
  | Fin q => q == v
  | _ => False
  end.

(** A number with at most two decimal places *)
Definition two_decimals (q : Q) : Prop := exists z : Z, q == inject_Z z / 100.

End Pandas.

(** ** Report rows

    One line of the campaign report or of the advertised-products report,
    after the numeric cleaning loop: the label, the columns the tagging step
    adds, the summed columns, and the text of the three ratio columns the
    report may carry.  The summed columns hold finite numbers: a row in
    which the cleaning loop left an infinity (a cell that reads 'inf') has
    no [record]. *)

Record record : Set := {
  Date : option Z;
  Campaign_Name : option string;
  Advertised_ASIN : option string;
  ASIN : option string;
  SKU : option string;
  Advertising_Type : advertising_type;
  Spend : Q;
  Sales : Q;          (* '7 Day Total Sales ' *)
  Orders : Q;         (* '7 Day Total Orders (#)' *)
  Clicks : Q;
  Impressions : Q;
  Cost_Per_Click : Q;              (* 'Cost Per Click (CPC)' *)
  Reported_ACOS : option string;   (* 'Total Advertising Cost of Sales (ACOS) ' *)
  Reported_ROAS : option string;   (* 'Total Return on Advertising Spend (ROAS)' *)
  Reported_CTR : option string     (* 'Click-Thru Rate (CTR)' *)
}.

(** [df[df['Advertising_Type'] == t]] *)
Definition of_type (t : advertising_type) (df : list record) : list record :=
  filter (fun r => advertising_type_eqb (Advertising_Type r) t = true) df.

(** [df[df['Advertising_Type'].isin(['Perpetua', 'Non-Perpetua'])]] *)
Definition known_only (df : list record) : list record :=
  filter (fun r => advertising_type_eqb (Advertising_Type r) Unknown = false) df.

(** The cells [f r] of the rows are whole numbers whose absolute values add
    up to less than [2^46].  binary64 holds every whole number below [2^53]
    and int64 every whole number below [2^63], so every sum of such cells,
    taken in any order, and its product with 100 in [.round(2)], is computed
    without rounding and without wrap-around: on such a column the sums of
    the program are the sums in [Q]. *)
Definition whole_numbers (f : record -> Q) (rows : list record) : Prop :=
  (forall r, r ∈ rows -> exists z : Z, f r == inject_Z z)
  /\ (Pandas.sum ((fun r => Qabs (f r)) <$> rows) < inject_Z (2 ^ 46))%Q.

(** The five summed columns hold whole numbers. *)
Definition whole_number_columns (rows : list record) : Prop :=
  whole_numbers Spend rows /\ whole_numbers Sales rows
  /\ whole_numbers Orders rows /\ whole_numbers Clicks rows
  /\ whole_numbers Impressions rows.

(** ** scripts/1_process_campaign_data.py *)

Module Script1.
Import Pandas.
Local Open Scope Q_scope.

Section Run.
(** Sheets [perpetua list] and [All ASIns] of the ASIN workbook. *)
Variables (perpetua_df all_asins_df : list sheet_row).

Definition perpetua_asins : gset string := stripped_set ASIN_cell perpetua_df.
Definition all_asins : gset string := stripped_set ASIN_cell all_asins_df.
Definition non_perpetua_asins : gset string := all_asins ∖ perpetua_asins.

Definition extract_asin (campaign_name : option string) : option string :=
  match campaign_name with
  | None => None
  | Some s => Text.search_asin s
  end.

Definition classify_campaign (asin : option string) : advertising_type :=
  match asin with
  | None => Unknown
  | Some a =>
      if bool_decide (a ∈ perpetua_asins) then Perpetua
      else if bool_decide (a ∈ non_perpetua_asins) then NonPerpetua
      else Unknown
  end.

(** [campaigns['ASIN']] and [campaigns['Advertising_Type']] of one row *)
Definition tag (r : record) : record :=
  let asin := extract_asin (Campaign_Name r) in
  {| Date := Date r; Campaign_Name := Campaign_Name r;
     Advertised_ASIN := Advertised_ASIN r;
     ASIN := asin; SKU := SKU r;
     Advertising_Type := classify_campaign asin;
     Spend := Spend r; Sales := Sales r; Orders := Orders r;
     Clicks := Clicks r; Impressions := Impressions r;
     Cost_Per_Click := Cost_Per_Click r;
     Reported_ACOS := Reported_ACOS r; Reported_ROAS := Reported_ROAS r;
     Reported_CTR := Reported_CTR r |}.

(** The campaign report. *)
Variable campaigns : list record.

Definition known_campaigns : list record := known_only (tag <$> campaigns).

(** [pd.to_numeric(text, errors='coerce')] on one text cell: NaN where
    the text is not a number. *)
Variable to_numeric : string -> float64.

(** The cleaning loop over [numeric_cols], on one column. *)
Definition clean (col : column) : list float64 :=
  fillna 0 <$>
    match col with
    | Object cells =>
        (fun c => to_numeric
                    (remove "," (remove "%" (remove "$" (astype_str c)))))
          <$> cells
    | Numeric cells => cells
    end.

(** Whether the report carries the three ratio columns. *)
Variables (has_ACOS has_ROAS has_CTR : bool).

Definition to_numeric_cell (cell : option string) : float64 :=
  match cell with
  | Some s => to_numeric s
  | None => NaN
  end.

(** [known_campaigns['ACOS']] of one row *)
Definition row_ACOS (x : record) : float64 :=
  if has_ACOS
  then fdiv (to_numeric (remove "%" (astype_str (Reported_ACOS x)))) (Fin 100)
  else Fin (if Qlt_bool 0 (Sales x) then Spend x / Sales x else 0).

(** [known_campaigns['ROAS']] of one row *)
Definition row_ROAS (x : record) : float64 :=
  if has_ROAS
  then fillna 0 (to_numeric_cell (Reported_ROAS x))
  else Fin (if Qlt_bool 0 (Spend x) then Sales x / Spend x else 0).

(** [known_campaigns['CTR']] of one row *)
Definition row_CTR (x : record) : float64 :=
  if has_CTR
  then fdiv (to_numeric (remove "%" (astype_str (Reported_CTR x)))) (Fin 100)
  else Fin (if Qlt_bool 0 (Impressions x) then Clicks x / Impressions x else 0).

(** A row of the [comparison] table. *)
Record comparison_row : Set := {
  Total_Spend : Q;
  Total_Sales : Q;
  Total_Orders : Q;
  Total_Impressions : Q;
  Total_Clicks : Q;
  Campaign_Records : nat;
  mean_ACOS : float64;
  mean_ROAS : float64;
  mean_CPC : float64;
  mean_CTR : float64;
  Avg_CPC : float64;
  Conversion_Rate : float64
}.

(** The row of one group of
    [known_campaigns.groupby('Advertising_Type')]. *)
Definition comparison_of (group : list record) : comparison_row :=
  let total_spend := round 2 (sum (Spend <$> group)) in
  let total_orders := round 2 (sum (Orders <$> group)) in
  let total_clicks := round 2 (sum (Clicks <$> group)) in
  {| Total_Spend := total_spend;
     Total_Sales := round 2 (sum (Sales <$> group));
     Total_Orders := total_orders;
     Total_Impressions := round 2 (sum (Impressions <$> group));
     Total_Clicks := total_clicks;
     Campaign_Records := length (omap Campaign_Name group);
     mean_ACOS := fround 4 (mean (row_ACOS <$> group));
     mean_ROAS := fround 4 (mean (row_ROAS <$> group));
     mean_CPC := fround 4 (mean ((fun x => Fin (Cost_Per_Click x)) <$> group));
     mean_CTR := fround 4 (mean (row_CTR <$> group));
     Avg_CPC := div total_spend total_clicks;
     Conversion_Rate := div total_orders total_clicks |}.

(** [comparison.loc[t]]; a cohort without rows has no entry. *)
Definition comparison (t : advertising_type) : option comparison_row :=
  match of_type t known_campaigns with
  | [] => None
  | group => Some (comparison_of group)
  end.

End Run.
End Script1.

(** ** scripts/2_asin_level_analysis.py *)

Module Script2.
Section Run.
Variables (perpetua_df all_asins_df : list sheet_row).

Definition perpetua_asins : gset string := stripped_set ASIN_cell perpetua_df.
Definition all_asins : gset string := stripped_set ASIN_cell all_asins_df.
Definition non_perpetua_asins : gset string := all_asins ∖ perpetua_asins.

Definition classify_asin (asin : option string) : advertising_type :=
  match asin with
  | None => Unknown
  | Some a =>
      let asin := Text.strip a in
      if bool_decide (asin ∈ perpetua_asins) then Perpetua
      else if bool_decide (asin ∈ non_perpetua_asins) then NonPerpetua
      else Unknown
  end.
End Run.
End Script2.

(** ** scripts/10_dashboard_from_campaign_report.py *)

Module Script10.
Import Pandas.
Local Open Scope Q_scope.

Record metrics : Set := {
  Total_Spend : Q;
  Total_Sales : Q;
  Total_Orders : Q;
  Total_Clicks : Q;
  Total_Impressions : Q;
  Unique_Campaigns : nat;
  Unique_ASINs : nat;
  ROAS : Q;
  ACOS : Q;
  CPC : Q;
  CTR : Q;
  CVR : Q;
  CPA : Q;
  CPM : Q;
  AOV : Q
}.

Definition calc_metrics (subset : list record) : metrics :=
  let total_spend := sum (Spend <$> subset) in
  let total_sales := sum (Sales <$> subset) in
  let total_orders := sum (Orders <$> subset) in
  let total_clicks := sum (Clicks <$> subset) in
  let total_impressions := sum (Impressions <$> subset) in
  let unique_campaigns := nunique (Campaign_Name <$> subset) in
  let unique_asins := nunique (ASIN <$> subset) in
  {| Total_Spend := total_spend;
     Total_Sales := total_sales;
     Total_Orders := total_orders;
     Total_Clicks := total_clicks;
     Total_Impressions := total_impressions;
     Unique_Campaigns := unique_campaigns;
     Unique_ASINs := unique_asins;
     ROAS := if Qlt_bool 0 total_spend then total_sales / total_spend else 0;
     ACOS := if Qlt_bool 0 total_sales then total_spend / total_sales else 0;
     CPC := if Qlt_bool 0 total_clicks then total_spend / total_clicks else 0;
     CTR := if Qlt_bool 0 total_impressions
            then total_clicks / total_impressions else 0;
     CVR := if Qlt_bool 0 total_clicks then total_orders / total_clicks else 0;
     CPA := if Qlt_bool 0 total_orders then total_spend / total_orders else 0;
     CPM := if Qlt_bool 0 total_impressions
            then (total_spend / total_impressions) * 1000 else 0;
     AOV := if Qlt_bool 0 total_orders then total_sales / total_orders else 0 |}.

Section Run.
Variables (perpetua_df all_asins_df : list sheet_row).

Definition perpetua_asins : gset string := stripped_set ASIN_cell perpetua_df.
Definition perpetua_skus : gset string := stripped_set SKU_cell perpetua_df.
Definition all_asins : gset string := stripped_set ASIN_cell all_asins_df.
Definition non_perpetua_asins : gset string := all_asins ∖ perpetua_asins.

(** The body of both loops that fill [sku_to_asin]. *)
Definition add_row (sku_to_asin : gmap string string) (row : sheet_row)
  : gmap string string :=
  match SKU_cell row, ASIN_cell row with
  | Some sku, Some asin => <[Text.strip sku := Text.strip asin]> sku_to_asin
  | _, _ => sku_to_asin
  end.

Definition sku_to_asin : gmap string string :=
  foldl add_row (foldl add_row ∅ perpetua_df) all_asins_df.

Definition extract_identifiers (campaign_name : option string)
  : option string * option string :=
  match campaign_name with
  | None => (None, None)
  | Some s => (Text.search_asin s, Text.search_sku s)
  end.

Definition classify_campaign (campaign_name : option string)
  : advertising_type * option string * option string :=
  let '(asin, sku) := extract_identifiers campaign_name in
  let try_sku :=
    match (if Text.truthy sku then sku else None) with
    | Some s =>
        if bool_decide (s ∈ perpetua_skus) then (Perpetua, sku_to_asin !! s, sku)
        else
          match sku_to_asin !! s with
          | Some mapped_asin =>
              if bool_decide (mapped_asin ∈ non_perpetua_asins)
              then (NonPerpetua, Some mapped_asin, sku)
              else (Unknown, asin, sku)
          | None => (Unknown, asin, sku)
          end
    | None => (Unknown, asin, sku)
    end in
  match (if Text.truthy asin then asin else None) with
  | Some a =>
      if bool_decide (a ∈ perpetua_asins) then (Perpetua, asin, sku)
      else if bool_decide (a ∈ non_perpetua_asins) then (NonPerpetua, asin, sku)
      else try_sku
  | None => try_sku
  end.

(** One row of [campaigns] after the classification is applied. *)
Definition tag (r : record) : record :=
  let '(t, asin, sku) := classify_campaign (Campaign_Name r) in
  {| Date := Date r; Campaign_Name := Campaign_Name r;
     Advertised_ASIN := Advertised_ASIN r;
     ASIN := asin; SKU := sku; Advertising_Type := t;
     Spend := Spend r; Sales := Sales r; Orders := Orders r;
     Clicks := Clicks r; Impressions := Impressions r;
     Cost_Per_Click := Cost_Per_Click r;
     Reported_ACOS := Reported_ACOS r; Reported_ROAS := Reported_ROAS r;
     Reported_CTR := Reported_CTR r |}.

Variable campaigns : list record.

(** [known]: the classified rows with a date. *)
Definition known : list record :=
  filter (fun r => is_Some (Date r)) (known_only (tag <$> campaigns)).

Definition perpetua : metrics := calc_metrics (of_type Perpetua known).
Definition non_perpetua : metrics := calc_metrics (of_type NonPerpetua known).

End Run.
End Script10.

(** ** scripts/11_combined_reports_dashboard.py *)

Module Script11.
Import Pandas.
Local Open Scope Q_scope.

Record metrics : Set := {
  Data_Source : string;
  Unique_Campaigns : nat;
  Unique_ASINs : nat;
  Total_Spend : Q;
  Total_Sales : Q;
  Total_Orders : Q;
  Total_Clicks : Q;
  Total_Impressions : Q;
  ROAS : Q;
  ACOS : Q;
  CPC : Q;
  CTR : Q;
  CVR : Q;
  CPA : Q;
  CPM : Q;
  AOV : Q;
  Spend_Per_ASIN : Q;
  Sales_Per_ASIN : Q
}.

(** [calc_all_metrics(subset)]; [columns] is [subset.columns]. *)
Definition calc_all_metrics (columns : gset string) (subset : list record)
  : metrics :=
  let ts := sum (Spend <$> subset) in
  let sales := sum (Sales <$> subset) in
  let orders := sum (Orders <$> subset) in
  let clicks := sum (Clicks <$> subset) in
  let impr := sum (Impressions <$> subset) in
  let campaigns :=
    if bool_decide ("Campaign Name"%string ∈ columns)
    then nunique (Campaign_Name <$> subset) else 0%nat in
  let asins :=
    if bool_decide ("ASIN"%string ∈ columns)
    then nunique (ASIN <$> subset)
    else nunique (Advertised_ASIN <$> subset) in
  let asins_f := inject_Z (Z.of_nat asins) in
  {| Data_Source := "Campaign Report + Advertised Products (Combined)";
     Unique_Campaigns := campaigns;
     Unique_ASINs := asins;
     Total_Spend := ts;
     Total_Sales := sales;
     Total_Orders := orders;
     Total_Clicks := clicks;
     Total_Impressions := impr;
     ROAS := if Qlt_bool 0 ts then sales / ts else 0;
     ACOS := if Qlt_bool 0 sales then ts / sales else 0;
     CPC := if Qlt_bool 0 clicks then ts / clicks else 0;
     CTR := if Qlt_bool 0 impr then clicks / impr else 0;
     CVR := if Qlt_bool 0 clicks then orders / clicks else 0;
     CPA := if Qlt_bool 0 orders then ts / orders else 0;
     CPM := if Qlt_bool 0 impr then (ts / impr) * 1000 else 0;
     AOV := if Qlt_bool 0 orders then sales / orders else 0;
     Spend_Per_ASIN := if (0 <? asins)%nat then ts / asins_f else 0;
     Sales_Per_ASIN := if (0 <? asins)%nat then sales / asins_f else 0 |}.

(** A derived column of [daily]:
    [num / den.replace(0, np.nan)], then
    [.replace([np.inf, -np.inf], np.nan).fillna(0)] over the frame. *)
Definition daily_ratio (num den : Q) : float64 :=
  fillna 0 (replace_inf_nan (fdiv (Fin num) (replace_zero_nan den))).

(** [drop_duplicates(subset=['Date', 'Campaign Name', 'Advertised ASIN'],
    keep='first')]; [seen] holds the keys of the rows already kept. *)
Definition dedup_key (r : record) : option Z * option string * option string :=
  (Date r, Campaign_Name r, Advertised_ASIN r).

Fixpoint drop_duplicates_from
  (seen : list (option Z * option string * option string)) (df : list record)
  : list record :=
  match df with
  | [] => []
  | r :: df' =>
      if bool_decide (dedup_key r ∈ seen)
      then drop_duplicates_from seen df'
      else r :: drop_duplicates_from (dedup_key r :: seen) df'
  end.

Definition drop_duplicates : list record -> list record :=
  drop_duplicates_from [].

Section Run.
(** Sheets [perpetua list] and [All ASIns] of the ASIN workbook. *)
Variables (perpetua_list all_asins_list : list sheet_row).

Definition perpetua_asins : gset string := stripped_set ASIN_cell perpetua_list.
Definition perpetua_skus : gset string := stripped_set SKU_cell perpetua_list.
Definition all_asins : gset string := stripped_set ASIN_cell all_asins_list.
Definition non_perpetua_asins : gset string := all_asins ∖ perpetua_asins.

(** The two dictionaries, [(sku_to_asin, asin_to_sku)], through the
    loop over [perpetua_list] ... *)
Definition add_perpetua_row
  (maps : gmap string string * gmap string string) (row : sheet_row)
  : gmap string string * gmap string string :=
  let '(sku_to_asin, asin_to_sku) := maps in
  match SKU_cell row, ASIN_cell row with
  | Some s, Some a =>
      let sku := Text.strip s in
      let asin := Text.strip a in
      (<[sku := asin]> sku_to_asin, <[asin := sku]> asin_to_sku)
  | _, _ => maps
  end.

(** ... and through the loop over [all_asins_list]. *)
Definition add_all_asins_row
  (maps : gmap string string * gmap string string) (row : sheet_row)
  : gmap string string * gmap string string :=
  let '(sku_to_asin, asin_to_sku) := maps in
  match SKU_cell row, ASIN_cell row with
  | Some s, Some a =>
      let sku := Text.strip s in
      let asin := Text.strip a in
      (if bool_decide (sku ∈ dom sku_to_asin)
       then sku_to_asin else <[sku := asin]> sku_to_asin,
       if bool_decide (asin ∈ dom asin_to_sku)
       then asin_to_sku else <[asin := sku]> asin_to_sku)
  | _, _ => maps
  end.

Definition mappings : gmap string string * gmap string string :=
  foldl add_all_asins_row (foldl add_perpetua_row (∅, ∅) perpetua_list)
    all_asins_list.

Definition sku_to_asin : gmap string string := fst mappings.
Definition asin_to_sku : gmap string string := snd mappings.

Definition extract_and_classify (campaign_name : option string)
  : option string * option string * advertising_type :=
  match campaign_name with
  | None => (None, None, Unknown)
  | Some name =>
      let asin := Text.search_asin name in
      let sku := Text.search_sku name in
      let by_sku :=
        match (if Text.truthy sku then sku else None) with
        | Some s =>
            match sku_to_asin !! s with
            | Some mapped_asin =>
                if bool_decide (mapped_asin ∈ perpetua_asins)
                then (Some mapped_asin, sku, Perpetua)
                else if bool_decide (mapped_asin ∈ non_perpetua_asins)
                then (Some mapped_asin, sku, NonPerpetua)
                else (asin, sku, Unknown)
            | None => (asin, sku, Unknown)
            end
        | None => (asin, sku, Unknown)
        end in
      match (if Text.truthy asin then asin else None) with
      | Some a =>
          if bool_decide (a ∈ perpetua_asins) then (asin, sku, Perpetua)
          else if bool_decide (a ∈ non_perpetua_asins)
          then (asin, sku, NonPerpetua)
          else by_sku
      | None => by_sku
      end
  end.

(** One row of [campaigns] after tagging. *)
Definition tag_campaign (r : record) : record :=
  let '(asin, sku, t) := extract_and_classify (Campaign_Name r) in
  {| Date := Date r; Campaign_Name := Campaign_Name r;
     Advertised_ASIN := Advertised_ASIN r;
     ASIN := asin; SKU := sku; Advertising_Type := t;
     Spend := Spend r; Sales := Sales r; Orders := Orders r;
     Clicks := Clicks r; Impressions := Impressions r;
     Cost_Per_Click := Cost_Per_Click r;
     Reported_ACOS := Reported_ACOS r; Reported_ROAS := Reported_ROAS r;
     Reported_CTR := Reported_CTR r |}.

(** One row of [ad_products] after tagging. *)
Definition tag_ad_product (r : record) : record :=
  let t :=
    match Advertised_ASIN r with
    | Some x =>
        if bool_decide (Text.strip x ∈ perpetua_asins) then Perpetua
        else if bool_decide (Text.strip x ∈ non_perpetua_asins)
        then NonPerpetua
        else Unknown
    | None => Unknown
    end in
  {| Date := Date r; Campaign_Name := Campaign_Name r;
     Advertised_ASIN := Advertised_ASIN r;
     ASIN := ASIN r; SKU := SKU r; Advertising_Type := t;
     Spend := Spend r; Sales := Sales r; Orders := Orders r;
     Clicks := Clicks r; Impressions := Impressions r;
     Cost_Per_Click := Cost_Per_Click r;
     Reported_ACOS := Reported_ACOS r; Reported_ROAS := Reported_ROAS r;
     Reported_CTR := Reported_CTR r |}.

(** The two reports and the names of their columns. *)
Variables (campaigns ad_products : list record).
Variables (campaign_columns ad_product_columns : gset string).

Definition campaigns_known : list record :=
  known_only (tag_campaign <$> campaigns).
Definition ad_products_known : list record :=
  known_only (tag_ad_product <$> ad_products).

(** [pd.to_numeric(text, errors='coerce')] on one text cell. *)
Variable to_numeric : string -> float64.

(** The cleaning loop, on one column of either frame. *)
Definition clean (col : column) : list float64 :=
  fillna 0 <$>
    match col with
    | Object cells =>
        (fun c => to_numeric (remove "," (remove "$" (astype_str c))))
          <$> cells
    | Numeric cells => cells
    end.

Definition combined : list record :=
  drop_duplicates
    (filter (fun r => is_Some (Date r)) (campaigns_known ++ ad_products_known)).

Definition combined_columns : gset string :=
  (campaign_columns ∪ {[ "ASIN"; "SKU"; "Advertising_Type" ]})
  ∪ (ad_product_columns ∪ {[ "Advertising_Type" ]}).

Definition perpetua : metrics :=
  calc_all_metrics combined_columns (of_type Perpetua combined).
Definition non_perpetua : metrics :=
  calc_all_metrics combined_columns (of_type NonPerpetua combined).

End Run.

(** The row that carries the totals of [m]: what the summing step reads
    when it is run again on its own output, one row per group. *)
Definition totals_row (t : advertising_type) (m : metrics) : record :=
  {| Date := None; Campaign_Name := None; Advertised_ASIN := None;
     ASIN := None; SKU := None; Advertising_Type := t;
     Spend := Total_Spend m; Sales := Total_Sales m;
     Orders := Total_Orders m; Clicks := Total_Clicks m;
     Impressions := Total_Impressions m;
     Cost_Per_Click := 0;
     Reported_ACOS := None; Reported_ROAS := None; Reported_CTR := None |}.

(** [m'] reports the five totals and the eight ratios of [m]. *)
Definition same_totals_and_ratios (m' m : metrics) : Prop :=
  Total_Spend m' == Total_Spend m
  /\ Total_Sales m' == Total_Sales m
  /\ Total_Orders m' == Total_Orders m
  /\ Total_Clicks m' == Total_Clicks m
  /\ Total_Impressions m' == Total_Impressions m
  /\ ROAS m' == ROAS m
  /\ ACOS m' == ACOS m
  /\ CPC m' == CPC m
  /\ CTR m' == CTR m
  /\ CVR m' == CVR m
  /\ CPA m' == CPA m
  /\ CPM m' == CPM m
  /\ AOV m' == AOV m.

End Script11.

(** ** The derived columns of the other dashboards *)

(** scripts/5_generate_enhanced_dashboard.py and
    scripts/6_generate_interactive_dashboard.py:
    [num / den.replace(0, 1)]. *)
Module Script5.
Definition ratio (num den : Q) : Pandas.float64 :=
  Pandas.div num (Pandas.replace_zero_one den).
End Script5.

(** scripts/7_generate_comprehensive_saas_dashboard.py:
    [num / den.replace(0, np.nan)], then
    [.replace([np.inf, -np.inf], np.nan)] over the frame. *)
Module Script7.
Definition ratio (num den : Q) : Pandas.float64 :=
  Pandas.replace_inf_nan
    (Pandas.fdiv (Pandas.Fin num) (Pandas.replace_zero_nan den)).
End Script7.

(** ** Sample inputs *)

Module Examples.
Import Pandas.
Local Open Scope Q_scope.

(** A report row with the given label and summed columns, dated day 0,
    with no ratio columns. *)
Definition row (name : string) (spend sales orders clicks impressions : Q)
  : record :=
  {| Date := Some 0%Z; Campaign_Name := Some name; Advertised_ASIN := None;
     ASIN := None; SKU := None; Advertising_Type := Unknown;
     Spend := spend; Sales := sales; Orders := orders;
     Clicks := clicks; Impressions := impressions;
     Cost_Per_Click := 0;
     Reported_ACOS := None; Reported_ROAS := None; Reported_CTR := None |}.

(** A reference sheet row. *)
Definition ref (sku asin : string) : sheet_row :=
  {| SKU_cell := Some sku; ASIN_cell := Some asin |}.

(** The value of a string of decimal digits, and their number. *)
Fixpoint read_digits (s : string) (acc : Z) (n : nat) : option (Z * nat) :=
  match s with
  | String c s' =>
      if Text.is_digit c
      then read_digits s' (10 * acc + Z.of_nat (Text.code c - 48))%Z (S n)
      else None
  | EmptyString => Some (acc, n)
  end.

Fixpoint split_at_dot (s : string) : string * option string :=
  match s with
  | String c s' =>
      if Ascii.eqb c "."
      then (EmptyString, Some s')
      else let (a, b) := split_at_dot s' in (String c a, b)
  | EmptyString => (EmptyString, None)
  end.

(** A stand-in for [pd.to_numeric(text, errors='coerce')] on one cell: it
    reads plain decimal numerals (an optional minus sign, digits, an
    optional fraction) and answers NaN on any other text. *)
Definition to_numeric (s : string) : float64 :=
  let '(negative, body) :=
    match s with
    | String "-" t => (true, t)
    | _ => (false, s)
    end in
  let signed (q : Q) := if negative then - q else q in
  let (int_part, frac_part) := split_at_dot body in
  match read_digits int_part 0 0, frac_part with
  | Some (i, S _), None => Fin (signed (inject_Z i))
  | Some (i, ni), Some f =>
      match read_digits f 0 0 with
      | Some (fv, nf) =>
          if (ni + nf =? 0)%nat then NaN
          else Fin (signed (inject_Z i + inject_Z fv / inject_Z (10 ^ Z.of_nat nf)%Z))
      | None => NaN
      end
  | _, _ => NaN
  end.

End Examples.

From Stdlib Require Import Lqa.

(** ** The rest of the loader, the pipeline and the dashboards *)

(** What a sheet row contributes to the dictionaries: the stripped
    [(sku, asin)] of a row with [pd.notna(row['SKU'])] and
    [pd.notna(row['ASIN'])], nothing otherwise. *)
Definition sheet_pair (row : sheet_row) : option (string * string) :=
  match SKU_cell row, ASIN_cell row with
  | Some s, Some a => Some (Text.strip s, Text.strip a)
  | _, _ => None
  end.

(** The same with the ASIN as the key, for [asin_to_sku]. *)
Definition sheet_pair_by_asin (row : sheet_row) : option (string * string) :=
  match sheet_pair row with
  | Some (s, a) => Some (a, s)
  | None => None
  end.

(** The value of the first row of [rows] that contributes the key [k];
    [pair] reads the contribution of a row. *)
Fixpoint first_entry (pair : sheet_row -> option (string * string))
  (k : string) (rows : list sheet_row) : option string :=
  match rows with
  | [] => None
  | row :: rows' =>
      match pair row with
      | Some (k', v) =>
          if String.eqb k' k then Some v else first_entry pair k rows'
      | None => first_entry pair k rows'
      end
  end.

(** The value of the last row of [rows] that contributes the key [k]. *)
Definition last_entry (pair : sheet_row -> option (string * string))
  (k : string) (rows : list sheet_row) : option string :=
  first_entry pair k (rev rows).

(** Every character of [s] is in the class [p]. *)
Fixpoint all_of (p : ascii -> bool) (s : string) : bool :=
  match s with
  | String c s' => p c && all_of p s'
  | EmptyString => true
  end.

(** [s] starts with a character of the class [p]. *)
Definition head_in (p : ascii -> bool) (s : string) : bool :=
  match s with
  | String c _ => p c
  | EmptyString => false
  end.

(** The label is ASCII text.  On such a label [\d] of a Python [str]
    pattern matches the ten ASCII digits and nothing else. *)
Definition ascii_text (s : string) : bool :=
  all_of (fun c => (Text.code c <? 128)%nat) s.

(** *** The percent columns in the sibling scripts *)

(** scripts/2_asin_level_analysis.py, lines 93-102: [known['ACOS']]. *)
Module Script2Cleaning.
Import Pandas.
Local Open Scope Q_scope.

Section Run.
Variable to_numeric : string -> float64.
Variable has_ACOS : bool.

Definition row_ACOS (x : record) : float64 :=
  if has_ACOS
  then fdiv (fillna 0 (to_numeric (remove "%" (astype_str (Reported_ACOS x)))))
         (Fin 100)
  else Fin (if Qlt_bool 0 (Sales x) then Spend x / Sales x else 0).

End Run.
End Script2Cleaning.

(** scripts/10_dashboard_from_campaign_report.py, lines 147-152: the loop
    over the two percentage columns, on one column. *)
Module Script10Cleaning.
Import Pandas.
Local Open Scope Q_scope.

Section Run.
Variable to_numeric : string -> float64.

Definition percent_column (col : column) : list float64 :=
  (fun v => fdiv (fillna 0 v) (Fin 100)) <$>
    match col with
    | Object cells =>
        (fun c => to_numeric (remove "%" (astype_str c))) <$> cells
    | Numeric cells => cells
    end.

End Run.
End Script10Cleaning.

(** *** The metric table of the dashboard
    (scripts/11_combined_reports_dashboard.py, lines 334-428; the cells of a
    metric row are computed the same way in
    scripts/10_dashboard_from_campaign_report.py, lines 402-430) *)

Module Dashboard.
Import Pandas.
Local Open Scope Q_scope.

(** The text of the Winner cell: ['Perpetua ✓'] or ['Non-Perpetua ✓']. *)
Inductive winner_text : Set := Perpetua_wins | NonPerpetua_wins.

(** The cells of one metric row: columns D to H of the sheet. *)
Record cells : Set := {
  p_val : Q;
  np_val : Q;
  diff : Q;
  pct : option Q;                 (* '% Diff', when it is written *)
  winner : option winner_text     (* 'Winner', when it is written *)
}.

(** The body of the loop for a metric row with values [p_val], [np_val]. *)
Definition metric_cells (lower_better : option bool) (p_val np_val : Q) : cells :=
  let diff := p_val - np_val in
  match lower_better with
  | Some lower_better =>
      if negb (Qeq_bool np_val 0) then
        let pct := (p_val - np_val) / np_val in
        let winner :=
          if lower_better
          then if Qlt_bool p_val np_val then Perpetua_wins else NonPerpetua_wins
          else if Qlt_bool np_val p_val then Perpetua_wins else NonPerpetua_wins in
        {| p_val := p_val; np_val := np_val; diff := diff;
           pct := Some pct; winner := Some winner |}
      else {| p_val := p_val; np_val := np_val; diff := diff;
              pct := None; winner := None |}
  | None => {| p_val := p_val; np_val := np_val; diff := diff;
               pct := None; winner := None |}
  end.







End Dashboard.

(** *** float64 arithmetic beyond division and addition *)

Module Float64.
Import Pandas.
Local Open Scope Q_scope.

(** [-x] *)
Definition fneg (x : float64) : float64 :=
  match x with
  | Fin q => Fin (- q)
  | PosInf => NegInf
  | NegInf => PosInf
  | NaN => NaN
  end.

(** [x - y] *)
Definition fsub (x y : float64) : float64 := fadd x (fneg y).

(** [x * y] *)
Definition fmul (x y : float64) : float64 :=
  match x, y with
  | NaN, _ | _, NaN => NaN
  | Fin a, Fin b => Fin (a * b)
  | (PosInf | NegInf), Fin b =>
      if Qeq_bool b 0 then NaN
      else if Qlt_bool 0 b then x else fneg x
  | Fin a, (PosInf | NegInf) =>
      if Qeq_bool a 0 then NaN
      else if Qlt_bool 0 a then y else fneg y
  | PosInf, PosInf | NegInf, NegInf => PosInf
  | PosInf, NegInf | NegInf, PosInf => NegInf
  end.

(** [x > 0]: false for NaN *)
Definition gt0 (x : float64) : bool :=
  match x with
  | Fin q => Qlt_bool 0 q
  | PosInf => true
  | NegInf | NaN => false
  end.

End Float64.

(** *** scripts/1_process_campaign_data.py, lines 214-228: the
    percentage improvements of the two rows of [comparison] *)

Module Script1Summary.
Import Pandas Float64.
Local Open Scope Q_scope.

Record improvements : Set := {
  ACOS_Improvement : float64;
  ROAS_Improvement : float64;
  CPC_Improvement : float64;
  Conversion_Improvement : float64
}.

Definition improvements_of (perpetua non_perpetua : Script1.comparison_row)
  : improvements :=
  {| ACOS_Improvement :=
       if gt0 (Script1.mean_ACOS non_perpetua)
       then fmul (fdiv (fsub (Script1.mean_ACOS non_perpetua)
                          (Script1.mean_ACOS perpetua))
                    (Script1.mean_ACOS non_perpetua)) (Fin 100)
       else Fin 0;
     ROAS_Improvement :=
       if gt0 (Script1.mean_ROAS non_perpetua)
       then fmul (fdiv (fsub (Script1.mean_ROAS perpetua)
                          (Script1.mean_ROAS non_perpetua))
                    (Script1.mean_ROAS non_perpetua)) (Fin 100)
       else Fin 0;
     CPC_Improvement :=
       if gt0 (Script1.Avg_CPC non_perpetua)
       then fmul (fdiv (fsub (Script1.Avg_CPC non_perpetua)
                          (Script1.Avg_CPC perpetua))
                    (Script1.Avg_CPC non_perpetua)) (Fin 100)
       else Fin 0;
     Conversion_Improvement :=
       if gt0 (Script1.Conversion_Rate non_perpetua)
       then fmul (fdiv (fsub (Script1.Conversion_Rate perpetua)
                          (Script1.Conversion_Rate non_perpetua))
                    (Script1.Conversion_Rate non_perpetua)) (Fin 100)
       else Fin 0 |}.

(** The mark printed beside a percentage: [True] for the check mark. *)
Definition symbol (pct : float64) : bool := gt0 pct.

End Script1Summary.

(** *** The [daily] frame
    (scripts/11_combined_reports_dashboard.py, lines 214-229;
    scripts/10_dashboard_from_campaign_report.py, lines 224-239) *)

Module Daily.
Import Pandas.
Local Open Scope Q_scope.

Record daily_row : Set := {
  Spend_sum : Q;
  Sales_sum : Q;
  Orders_sum : Q;
  Clicks_sum : Q;
  Impressions_sum : Q;
  ROAS : float64;
  ACOS : float64;
  CPC : float64;
  CTR : float64;
  CVR : float64
}.

(** The rows of the group [(date, t)] of
    [df.groupby(['Date', 'Advertising_Type'])]. *)
Definition group (df : list record) (date : Z) (t : advertising_type)
  : list record :=
  filter (fun r => Date r = Some date) (of_type t df).

Definition daily_of (g : list record) : daily_row :=
  let spend := sum (Spend <$> g) in
  let sales := sum (Sales <$> g) in
  let orders := sum (Orders <$> g) in
  let clicks := sum (Clicks <$> g) in
  let impressions := sum (Impressions <$> g) in
  {| Spend_sum := spend; Sales_sum := sales; Orders_sum := orders;
     Clicks_sum := clicks; Impressions_sum := impressions;
     ROAS := Script11.daily_ratio sales spend;
     ACOS := Script11.daily_ratio spend sales;
     CPC := Script11.daily_ratio spend clicks;
     CTR := Script11.daily_ratio clicks impressions;
     CVR := Script11.daily_ratio orders clicks |}.

(** The row of [daily] for [(date, t)]; a group without rows has none. *)
Definition daily (df : list record) (date : Z) (t : advertising_type)
  : option daily_row :=
  match group df date t with
  | [] => None
  | g => Some (daily_of g)
  end.

(** [df['Date'].unique()], the dates in order of first appearance
    ([all_dates] is this list, sorted). *)
Fixpoint unique_from (seen : list Z) (dates : list Z) : list Z :=
  match dates with
  | [] => []
  | d :: dates' =>
      if bool_decide (d ∈ seen) then unique_from seen dates'
      else d :: unique_from (d :: seen) dates'
  end.

Definition unique_dates (df : list record) : list Z :=
  unique_from [] (omap Date df).

End Daily.

(** *** scripts/refresh_reports.py *)

Module Refresh.

(** How [subprocess.run] ends: with a return code, with
    [subprocess.TimeoutExpired], or with another exception. *)
Inductive run_result : Set :=
| Returned (returncode : Z)
| TimeoutExpired
| Raised.

(** What the loop prints for a script. *)
Inductive report : Set :=
| NotFound
| Completed
| Failed (returncode : Z)
| TimedOut
| Error.

Definition scripts_to_run : list (string * string) :=
  [ ("1_process_campaign_data.py",
     "Processing campaign data and tagging Perpetua vs Non-Perpetua");
    ("2_asin_level_analysis.py", "Running ASIN-level performance analysis");
    ("3_generate_performance_report.py",
     "Generating performance reports and visualizations");
    ("4_generate_excel_dashboard.py", "Creating Excel dashboard") ].

Section Run.
(** The file system and whatever else the scripts read and write. *)
Variable world : Type.
(** [script_path.exists()] *)
Variable script_exists : world -> string -> bool.
(** [subprocess.run([sys.executable, script_path], ..., timeout=300)] *)
Variable run : world -> string -> run_result * world.

Record state : Type := {
  now : world;
  failed_scripts : list string;
  printed : list (string * report)
}.

(** One pass of the loop. *)
Definition step (st : state) (entry : string * string) : state :=
  let '(script, description) := entry in
  if negb (script_exists (now st) script) then
    {| now := now st;
       failed_scripts := failed_scripts st ++ [script];
       printed := printed st ++ [(script, NotFound)] |}
  else
    match run (now st) script with
    | (Returned returncode, w) =>
        if (returncode =? 0)%Z then
          {| now := w; failed_scripts := failed_scripts st;
             printed := printed st ++ [(script, Completed)] |}
        else
          {| now := w; failed_scripts := failed_scripts st ++ [script];
             printed := printed st ++ [(script, Failed returncode)] |}
    | (TimeoutExpired, w) =>
        {| now := w; failed_scripts := failed_scripts st ++ [script];
           printed := printed st ++ [(script, TimedOut)] |}
    | (Raised, w) =>
        {| now := w; failed_scripts := failed_scripts st ++ [script];
           printed := printed st ++ [(script, Error)] |}
    end.

Definition run_all (scripts : list (string * string)) (w : world) : state :=
  foldl step {| now := w; failed_scripts := []; printed := [] |} scripts.

(** The exit status of the process: [sys.exit(1)] when a script failed. *)
Definition exit_status (st : state) : Z :=
  match failed_scripts st with
  | [] => 0%Z
  | _ => 1%Z
  end.

Definition refresh (w : world) : state := run_all scripts_to_run w.

End Run.

Arguments now {world} _.
Arguments failed_scripts {world} _.
Arguments printed {world} _.
Arguments exit_status {world} _.

(** The report of a script that ran and returned 0. *)
Definition completed (r : report) : bool :=
  match r with
  | Completed => true
  | _ => false
  end.

End Refresh.

(** * Properties *)

(** ** The two patterns *)

Lemma match_upper_alnum_length n s w :
  Text.match_upper_alnum n s = Some w -> String.length w = n.
Proof.
  revert s w. induction n as [|n IH]; intros s w; simpl.
  - intros [= <-]. reflexivity.
  - destruct s as [|c s']; [discriminate|].
    destruct (Text.is_upper_alnum c); [|discriminate].
    destruct (Text.match_upper_alnum n s') as [v|] eqn:E; [|discriminate].
    intros [= <-]. simpl. f_equal. eauto.
Qed.

Lemma match_asin_length s w :
  Text.match_asin s = Some w -> String.length w = 10%nat.
Proof.
  unfold Text.match_asin.
  destruct s as [|c s']; [discriminate|].
  destruct (Ascii.eqb c "B"); [|discriminate].
  destruct (Text.match_upper_alnum 9 s') as [v|] eqn:E; [|discriminate].
  intros [= <-]. cbn [String.length]. f_equal.
  eapply match_upper_alnum_length, E.
Qed.

Lemma match_sku_nonempty s w : Text.match_sku s = Some w -> w <> EmptyString.
Proof.
  destruct s as [|a [|b s']]; simpl; try discriminate.
  destruct (Text.is_sku_prefix a b); [|discriminate].
  destruct (Text.span_digits s') as [[|d ds] rest]; [discriminate|].
  intros [= <-]. discriminate.
Qed.

(** [re.search] returns what the anchored pattern matched at some position. *)
Lemma search_here here s w :
  Text.search here s = Some w -> exists t, here t = Some w.
Proof.
  induction s as [|c s' IH]; simpl.
  - destruct (here EmptyString) eqn:E; [|discriminate].
    intros [= <-]. eauto.
  - destruct (here (String c s')) eqn:E.
    + intros [= <-]. eauto.
    + exact IH.
Qed.

Lemma truthy_nonempty w : w <> EmptyString -> Text.truthy (Some w) = true.
Proof. destruct w; [congruence | reflexivity]. Qed.

Lemma search_asin_truthy s w :
  Text.search_asin s = Some w -> Text.truthy (Some w) = true.
Proof.
  intros H. apply search_here in H as [t Ht].
  apply match_asin_length in Ht. apply truthy_nonempty.
  intros ->. discriminate.
Qed.

Lemma search_sku_truthy s w :
  Text.search_sku s = Some w -> Text.truthy (Some w) = true.
Proof.
  intros H. apply search_here in H as [t Ht].
  apply truthy_nonempty. eapply match_sku_nonempty, Ht.
Qed.

(** What an [if x:] test leaves of an extracted identifier. *)
Lemma truthy_search_asin s :
  (if Text.truthy (Text.search_asin s) then Text.search_asin s else None)
  = Text.search_asin s.
Proof.
  destruct (Text.search_asin s) as [w|] eqn:E; [|reflexivity].
  now rewrite (search_asin_truthy _ _ E).
Qed.

Lemma truthy_search_sku s :
  (if Text.truthy (Text.search_sku s) then Text.search_sku s else None)
  = Text.search_sku s.
Proof.
  destruct (Text.search_sku s) as [w|] eqn:E; [|reflexivity].
  now rewrite (search_sku_truthy _ _ E).
Qed.

(** The anchored ASIN pattern reads ten characters and ignores the rest. *)
Lemma match_upper_alnum_app n w post :
  Text.match_upper_alnum n w = Some w ->
  Text.match_upper_alnum n (w +:+ post) = Some w.
Proof.
  revert w. induction n as [|n IH]; intros w; simpl.
  - intros [= <-]. reflexivity.
  - destruct w as [|c w']; [discriminate|]. simpl.
    destruct (Text.is_upper_alnum c); [|discriminate].
    destruct (Text.match_upper_alnum n w') as [v|] eqn:E; [|discriminate].
    simpl. intros [= ->]. now rewrite (IH _ E).
Qed.

Lemma asin_shaped_match w post :
  Text.asin_shaped w = true -> Text.match_asin (w +:+ post) = Some w.
Proof.
  unfold Text.asin_shaped.
  destruct (Text.match_asin w) as [m|] eqn:E; [|discriminate].
  intros Hm. apply String.eqb_eq in Hm. subst m.
  unfold Text.match_asin in *.
  destruct w as [|c w']; [discriminate|].
  change (String c w' +:+ post) with (String c (w' +:+ post)).
  cbv beta iota.
  destruct (Ascii.eqb c "B"); [|discriminate].
  destruct (Text.match_upper_alnum 9 w') as [v|] eqn:E'; [|discriminate].
  cbn [option_map] in E. assert (v = w') as -> by congruence.
  now rewrite (match_upper_alnum_app _ _ post E').
Qed.

Lemma search_asin_skips pre s :
  Text.free_of "B" pre = true -> Text.search_asin (pre +:+ s) = Text.search_asin s.
Proof.
  unfold Text.search_asin.
  induction pre as [|a pre IH]; simpl; [reflexivity|].
  intros H. apply andb_true_iff in H as [Ha Hpre].
  destruct (Ascii.eqb a "B"); [discriminate|]. auto.
Qed.

Lemma search_asin_finds pre w post :
  Text.free_of "B" pre = true -> Text.asin_shaped w = true ->
  Text.search_asin (pre +:+ w +:+ post) = Some w.
Proof.
  intros Hpre Hw. rewrite (search_asin_skips _ _ Hpre).
  unfold Text.search_asin.
  pose proof (asin_shaped_match w post Hw) as Hm.
  destruct (w +:+ post); simpl in *; now rewrite Hm.
Qed.

(** ** [str.strip] *)

Lemma lstrip_head s :
  match Text.lstrip s with
  | String c _ => Text.is_space c = false
  | EmptyString => True
  end.
Proof.
  induction s as [|c s IH]; cbn [Text.lstrip]; [exact I|].
  destruct (Text.is_space c) eqn:E; [exact IH | exact E].
Qed.

Lemma rstrip_head c t :
  Text.is_space c = false -> exists t', Text.rstrip (String c t) = String c t'.
Proof.
  intros E. cbn [Text.rstrip]. destruct (Text.rstrip t); [rewrite E|]; eauto.
Qed.

Lemma rstrip_idempotent s : Text.rstrip (Text.rstrip s) = Text.rstrip s.
Proof.
  induction s as [|c s IH]; [reflexivity|]. cbn [Text.rstrip].
  destruct (Text.rstrip s) as [|d r] eqn:E.
  - destruct (Text.is_space c) eqn:Ec; [reflexivity|].
    cbn [Text.rstrip]. now rewrite Ec.
  - change (Text.rstrip (String c (String d r)))
      with (match Text.rstrip (String d r) with
            | EmptyString =>
                if Text.is_space c then EmptyString else String c EmptyString
            | t => String c t
            end).
    now rewrite IH.
Qed.

(** Stripping a stripped text changes nothing. *)
Lemma strip_idempotent s : Text.strip (Text.strip s) = Text.strip s.
Proof.
  unfold Text.strip. pose proof (lstrip_head s) as H.
  destruct (Text.lstrip s) as [|c t]; [reflexivity|].
  destruct (rstrip_head c t H) as [t' E]. rewrite E.
  cbn [Text.lstrip]. rewrite H, <- E.
  apply rstrip_idempotent.
Qed.

Lemma stripped_set_strip col df (a : string) :
  a ∈ stripped_set col df -> Text.strip a = a.
Proof.
  unfold stripped_set. rewrite elem_of_list_to_set.
  intros H. apply list_elem_of_fmap in H as (x & -> & _).
  apply strip_idempotent.
Qed.

(** ** Reference sets *)

Lemma difference_partition (universe managed : gset string) :
  universe ∖ managed = universe ∖ managed
  /\ (forall x : string, x ∈ universe ∖ managed <-> x ∈ universe /\ x ∉ managed)
  /\ (forall x : string, ~ (x ∈ managed /\ x ∈ universe ∖ managed)).
Proof.
  split; [reflexivity|]. split.
  - intros x. apply elem_of_difference.
  - intros x [Hm Hn]. apply elem_of_difference in Hn as [_ Hn]. exact (Hn Hm).
Qed.

(** C3: in each script that builds them (scripts 1, 2, 10 and 11) the
    non-managed set is the universe set minus the managed set; an identifier
    is in it exactly when it is in the universe and not managed, and no
    identifier is in the managed and in the non-managed set at once. *)
Theorem non_perpetua_is_difference (perpetua_df all_asins_df : list sheet_row) :
  let sets :=
    [ (Script1.perpetua_asins perpetua_df, Script1.all_asins all_asins_df,
       Script1.non_perpetua_asins perpetua_df all_asins_df);
      (Script2.perpetua_asins perpetua_df, Script2.all_asins all_asins_df,
       Script2.non_perpetua_asins perpetua_df all_asins_df);
      (Script10.perpetua_asins perpetua_df, Script10.all_asins all_asins_df,
       Script10.non_perpetua_asins perpetua_df all_asins_df);
      (Script11.perpetua_asins perpetua_df, Script11.all_asins all_asins_df,
       Script11.non_perpetua_asins perpetua_df all_asins_df) ] in
  Forall (fun '(managed, universe, non_managed) =>
            non_managed = universe ∖ managed
            /\ (forall x : string,
                   x ∈ non_managed <-> x ∈ universe /\ x ∉ managed)
            /\ (forall x : string, ~ (x ∈ managed /\ x ∈ non_managed)))
         sets.
Proof.
  cbv zeta.
  repeat (apply Forall_cons; split; [apply difference_partition|]).
  apply Forall_nil. exact I.
Qed.

(** ** Classification *)

Lemma script11_managed_label perpetua_list all_asins_list name a :
  Text.search_asin name = Some a -> a ∈ Script11.perpetua_asins perpetua_list ->
  Script11.extract_and_classify perpetua_list all_asins_list (Some name)
  = (Some a, Text.search_sku name, Perpetua).
Proof.
  intros Hn Ha. unfold Script11.extract_and_classify.
  rewrite truthy_search_asin, Hn. now rewrite bool_decide_eq_true_2.
Qed.

Lemma script11_non_managed_label perpetua_list all_asins_list name a :
  Text.search_asin name = Some a ->
  a ∈ Script11.non_perpetua_asins perpetua_list all_asins_list ->
  Script11.extract_and_classify perpetua_list all_asins_list (Some name)
  = (Some a, Text.search_sku name, NonPerpetua).
Proof.
  intros Hn Ha. unfold Script11.extract_and_classify.
  rewrite truthy_search_asin, Hn.
  rewrite bool_decide_eq_false_2.
  - now rewrite bool_decide_eq_true_2.
  - intros Hp. unfold Script11.non_perpetua_asins in Ha.
    apply elem_of_difference in Ha as [_ Ha]. exact (Ha Hp).
Qed.

Lemma script10_managed_label perpetua_df all_asins_df name a :
  Text.search_asin name = Some a -> a ∈ Script10.perpetua_asins perpetua_df ->
  Script10.classify_campaign perpetua_df all_asins_df (Some name)
  = (Perpetua, Some a, Text.search_sku name).
Proof.
  intros Hn Ha. unfold Script10.classify_campaign, Script10.extract_identifiers.
  rewrite truthy_search_asin, Hn. now rewrite bool_decide_eq_true_2.
Qed.

Lemma script10_non_managed_label perpetua_df all_asins_df name a :
  Text.search_asin name = Some a ->
  a ∈ Script10.non_perpetua_asins perpetua_df all_asins_df ->
  Script10.classify_campaign perpetua_df all_asins_df (Some name)
  = (NonPerpetua, Some a, Text.search_sku name).
Proof.
  intros Hn Ha. unfold Script10.classify_campaign, Script10.extract_identifiers.
  rewrite truthy_search_asin, Hn.
  rewrite bool_decide_eq_false_2.
  - now rewrite bool_decide_eq_true_2.
  - intros Hp. unfold Script10.non_perpetua_asins in Ha.
    apply elem_of_difference in Ha as [_ Ha]. exact (Ha Hp).
Qed.


(** C2: an identifier of the managed set is classified Managed: by the
    classifiers of scripts 1 and 2 and by the advertised-products tagging of
    script 11 applied to it, and by the classifiers of scripts 1, 10 and 11
    applied to a label from which it is extracted, whatever alias the label
    carries and whatever the alias map holds for it. *)
Theorem managed_identifier_is_managed
  (perpetua_df all_asins_df : list sheet_row) (a : string) :
  a ∈ Script1.perpetua_asins perpetua_df ->
  Script1.classify_campaign perpetua_df all_asins_df (Some a) = Perpetua
  /\ Script2.classify_asin perpetua_df all_asins_df (Some a) = Perpetua
  /\ (forall r : record,
         Advertised_ASIN r = Some a ->
         Advertising_Type (Script11.tag_ad_product perpetua_df all_asins_df r)
         = Perpetua)
  /\ forall label : string,
       Text.search_asin label = Some a ->
       Script1.classify_campaign perpetua_df all_asins_df
         (Script1.extract_asin (Some label)) = Perpetua
       /\ Script10.classify_campaign perpetua_df all_asins_df (Some label)
          = (Perpetua, Some a, Text.search_sku label)
       /\ Script11.extract_and_classify perpetua_df all_asins_df (Some label)
          = (Some a, Text.search_sku label, Perpetua).
Proof.
  intros Ha.
  assert (Script1.classify_campaign perpetua_df all_asins_df (Some a) = Perpetua)
    as H1.
  { unfold Script1.classify_campaign. now rewrite bool_decide_eq_true_2. }
  pose proof (stripped_set_strip _ _ _ Ha) as Hstrip.
  split; [exact H1|]. split; [|split].
  - unfold Script2.classify_asin. rewrite Hstrip.
    unfold Script2.perpetua_asins. now rewrite bool_decide_eq_true_2.
  - intros r Hr. unfold Script11.tag_ad_product.
    cbn [Advertising_Type]. rewrite Hr, Hstrip.
    unfold Script11.perpetua_asins. now rewrite bool_decide_eq_true_2.
  - intros label Hl. repeat split.
    + cbn [Script1.extract_asin]. now rewrite Hl.
    + now apply script10_managed_label.
    + now apply script11_managed_label.
Qed.

Lemma managed_identifier_is_managed_witness :
  let perpetua_df := [ {| SKU_cell := Some "NT100A"; ASIN_cell := Some "B000000001" |} ] in
  let all_asins_df := [ {| SKU_cell := Some "NT100A"; ASIN_cell := Some "B000000002" |} ] in
  Script10.classify_campaign perpetua_df all_asins_df
    (Some "SP | B000000001 | NT100A | auto")
  = (Perpetua, Some "B000000001", Some "NT100A").
Proof.
  intros perpetua_df all_asins_df.
  refine (proj1 (proj2 (proj2 (proj2 (proj2
    (managed_identifier_is_managed perpetua_df all_asins_df "B000000001" _)))
    "SP | B000000001 | NT100A | auto" _))).
  - apply (bool_decide_unpack _). vm_compute. exact I.
  - vm_compute. reflexivity.
Defined.

(** C5: script 11's classifier settles a label on the extracted identifier
    first (managed set, then non-managed set); only when the identifier is
    absent or in neither set does it look the alias up in the alias map and
    test what it resolves to against the same two sets; anything else is
    Unknown, and a label from which neither pattern extracts anything gives
    (None, None, Unknown). *)
Theorem extract_and_classify_order
  (perpetua_list all_asins_list : list sheet_row) (campaign_name : option string) :
  let managed := Script11.perpetua_asins perpetua_list in
  let non_managed := Script11.non_perpetua_asins perpetua_list all_asins_list in
  let alias_map := Script11.sku_to_asin perpetua_list all_asins_list in
  let asin := campaign_name ≫= Text.search_asin in
  let sku := campaign_name ≫= Text.search_sku in
  let result :=
    Script11.extract_and_classify perpetua_list all_asins_list campaign_name in
  let unresolved :=
    asin = None \/ (exists a, asin = Some a /\ (a ∉ managed) /\ (a ∉ non_managed)) in
  (forall a, asin = Some a -> a ∈ managed -> result = (Some a, sku, Perpetua))
  /\ (forall a, asin = Some a -> a ∉ managed -> a ∈ non_managed ->
      result = (Some a, sku, NonPerpetua))
  /\ (forall s m, unresolved -> sku = Some s -> alias_map !! s = Some m ->
      m ∈ managed -> result = (Some m, sku, Perpetua))
  /\ (forall s m, unresolved -> sku = Some s -> alias_map !! s = Some m ->
      m ∉ managed -> m ∈ non_managed -> result = (Some m, sku, NonPerpetua))
  /\ (unresolved ->
      sku = None
      \/ (exists s, sku = Some s
          /\ (alias_map !! s = None
              \/ (exists m, alias_map !! s = Some m
                            /\ (m ∉ managed) /\ (m ∉ non_managed)))) ->
      result = (asin, sku, Unknown))
  /\ (asin = None -> sku = None -> result = (None, None, Unknown)).
Proof.
  cbv zeta. unfold Script11.extract_and_classify.
  destruct campaign_name as [name|]; cbn [mbind option_bind].
  2:{ repeat split; try discriminate; try reflexivity.
      all: intros s m _ [=]. }
  rewrite truthy_search_asin, truthy_search_sku.
  set (managed := Script11.perpetua_asins perpetua_list).
  set (non_managed := Script11.non_perpetua_asins perpetua_list all_asins_list).
  set (alias_map := Script11.sku_to_asin perpetua_list all_asins_list).
  destruct (Text.search_asin name) as [a|] eqn:Ea;
    destruct (Text.search_sku name) as [s|] eqn:Es;
    repeat split; intros;
    repeat match goal with
      | H : _ \/ _ |- _ => destruct H
      | H : exists _, _ |- _ => destruct H
      | H : _ /\ _ |- _ => destruct H
      | H : Some _ = Some _ |- _ => injection H as ?; subst
      | H : Some _ = None |- _ => discriminate H
      | H : None = Some _ |- _ => discriminate H
      | H : alias_map !! _ = _ |- _ => rewrite H
      end;
    repeat case_bool_decide; try reflexivity; try contradiction.
Qed.

Lemma extract_and_classify_order_witness :
  let perpetua_list :=
    [ {| SKU_cell := Some "NT100A"; ASIN_cell := Some "B000000001" |} ] in
  let all_asins_list :=
    [ {| SKU_cell := Some "SD7"; ASIN_cell := Some "B000000002" |} ] in
  Script11.extract_and_classify perpetua_list all_asins_list
    (Some "SP | NT100A | B000000009 | auto")
  = (Some "B000000001", Some "NT100A", Perpetua).
Proof.
  intros perpetua_list all_asins_list.
  refine (proj1 (proj2 (proj2
    (extract_and_classify_order perpetua_list all_asins_list
       (Some "SP | NT100A | B000000009 | auto"))))
    "NT100A" "B000000001" _ _ _ _).
  - right. exists "B000000009". repeat split.
    + apply (bool_decide_eq_false_1 _). vm_compute. reflexivity.
    + apply (bool_decide_eq_false_1 _). vm_compute. reflexivity.
  - vm_compute. reflexivity.
  - vm_compute. reflexivity.
  - apply (bool_decide_unpack _). vm_compute. exact I.
Defined.

(** C10: the identifier pattern takes [B] and any nine characters of
    [A-Z0-9], with no [0] required after the [B]: whatever such word comes
    first in a label is the extracted identifier.  The label
    "Summer BESTSELLER promo" holds no "B0" at all, yet BESTSELLER is
    extracted from it, and each classifier then goes on to test BESTSELLER
    against the reference sets. *)
Theorem asin_pattern_accepts_any_B_word :
  (forall pre w post : string,
      Text.free_of "B" pre = true -> Text.asin_shaped w = true ->
      let label := pre +:+ w +:+ post in
      Script1.extract_asin (Some label) = Some w
      /\ fst (Script10.extract_identifiers (Some label)) = Some w
      /\ Text.search_asin label = Some w)
  /\ let label := "Summer BESTSELLER promo" in
     let word := "BESTSELLER" in
     Text.free_of_pair "B" "0" label = true
     /\ Text.asin_shaped word = true
     /\ Script1.extract_asin (Some label) = Some word
     /\ Script10.extract_identifiers (Some label) = (Some word, None)
     /\ forall perpetua_df all_asins_df : list sheet_row,
          Script1.classify_campaign perpetua_df all_asins_df
            (Script1.extract_asin (Some label))
          = (if bool_decide (word ∈ Script1.perpetua_asins perpetua_df)
             then Perpetua
             else if bool_decide
                       (word ∈ Script1.non_perpetua_asins perpetua_df all_asins_df)
             then NonPerpetua else Unknown)
          /\ Script10.classify_campaign perpetua_df all_asins_df (Some label)
             = (if bool_decide (word ∈ Script10.perpetua_asins perpetua_df)
                then (Perpetua, Some word, None)
                else if bool_decide
                          (word ∈ Script10.non_perpetua_asins perpetua_df all_asins_df)
                then (NonPerpetua, Some word, None)
                else (Unknown, Some word, None))
          /\ Script11.extract_and_classify perpetua_df all_asins_df (Some label)
             = (if bool_decide (word ∈ Script11.perpetua_asins perpetua_df)
                then (Some word, None, Perpetua)
                else if bool_decide
                          (word ∈ Script11.non_perpetua_asins perpetua_df all_asins_df)
                then (Some word, None, NonPerpetua)
                else (Some word, None, Unknown)).
Proof.
  split.
  - intros pre w post Hpre Hw label.
    pose proof (search_asin_finds pre w post Hpre Hw) as H.
    unfold Script10.extract_identifiers, Script1.extract_asin. auto.
  - cbv zeta.
    assert (Text.search_asin "Summer BESTSELLER promo" = Some "BESTSELLER")
      as Ha by (vm_compute; reflexivity).
    assert (Text.search_sku "Summer BESTSELLER promo" = None)
      as Hs by (vm_compute; reflexivity).
    split; [vm_compute; reflexivity|]. split; [vm_compute; reflexivity|].
    split; [exact Ha|]. split.
    { unfold Script10.extract_identifiers. now rewrite Ha, Hs. }
    intros perpetua_df all_asins_df. split; [|split].
    + unfold Script1.extract_asin. rewrite Ha. reflexivity.
    + unfold Script10.classify_campaign, Script10.extract_identifiers.
      rewrite Ha, Hs. cbn [Text.truthy]. 
      change (negb (String.eqb "BESTSELLER" EmptyString)) with true.
      cbv iota. reflexivity.
    + unfold Script11.extract_and_classify. rewrite Ha, Hs.
      cbn [Text.truthy].
      change (negb (String.eqb "BESTSELLER" EmptyString)) with true.
      cbv iota. reflexivity.
Qed.

Lemma asin_pattern_accepts_any_B_word_witness :
  Text.search_asin ("SP auto " +:+ "BRANDNAME1" +:+ " exact") = Some "BRANDNAME1".
Proof.
  refine (proj2 (proj2
    (proj1 asin_pattern_accepts_any_B_word "SP auto " "BRANDNAME1" " exact" _ _))).
  - vm_compute. reflexivity.
  - vm_compute. reflexivity.
Defined.

(** ** The alias map *)

(** Script 11: the loop over the universe sheet leaves every entry of
    [sku_to_asin] as it finds it. *)
Lemma add_all_asins_row_keeps maps row (s a : string) :
  fst maps !! s = Some a ->
  fst (Script11.add_all_asins_row maps row) !! s = Some a.
Proof.
  destruct maps as [sku_to_asin asin_to_sku].
  unfold Script11.add_all_asins_row. cbn [fst].
  destruct (SKU_cell row) as [sku|], (ASIN_cell row) as [asin|];
    cbn [fst]; try easy.
  intros Hs. case_bool_decide as Hdom; [exact Hs|].
  rewrite lookup_insert_ne; [exact Hs|].
  intros Heq. apply Hdom, elem_of_dom. rewrite Heq. eauto.
Qed.

Lemma universe_loop_keeps rows maps (s a : string) :
  fst maps !! s = Some a ->
  fst (foldl Script11.add_all_asins_row maps rows) !! s = Some a.
Proof.
  revert maps. induction rows as [|row rows IH]; intros maps Hs; [exact Hs|].
  cbn [foldl]. apply IH, add_all_asins_row_keeps, Hs.
Qed.

(** Script 11: what the loop over the managed sheet maps an alias to is
    what the finished table maps it to. *)
Lemma script11_managed_entry_kept perpetua_list all_asins_list (s a : string) :
  fst (foldl Script11.add_perpetua_row (∅, ∅) perpetua_list) !! s = Some a ->
  Script11.sku_to_asin perpetua_list all_asins_list !! s = Some a.
Proof.
  unfold Script11.sku_to_asin, Script11.mappings. apply universe_loop_keeps.
Qed.

(** Script 11: the last managed row that names an alias decides its entry. *)
Lemma script11_last_managed_row_wins rows sku asin all_asins_list :
  Script11.sku_to_asin
    (rows ++ [ {| SKU_cell := Some sku; ASIN_cell := Some asin |} ]) all_asins_list
  !! Text.strip sku = Some (Text.strip asin).
Proof.
  apply script11_managed_entry_kept.
  rewrite foldl_app. cbn [foldl].
  destruct (foldl Script11.add_perpetua_row (∅, ∅) rows) as [m1 m2].
  cbn. apply lookup_insert_eq.
Qed.

(** C4: on the managed sheet [NT100A -> B000000001] and the universe sheet
    [NT100A -> B000000002], script 10's table ends with the universe entry,
    where script 11's keeps the managed one. *)
Theorem script10_universe_row_overwrites :
  let perpetua_df :=
    [ {| SKU_cell := Some "NT100A"; ASIN_cell := Some "B000000001" |} ] in
  let all_asins_df :=
    [ {| SKU_cell := Some "NT100A"; ASIN_cell := Some "B000000002" |} ] in
  Script10.sku_to_asin perpetua_df all_asins_df !! "NT100A" = Some "B000000002"
  /\ Script11.sku_to_asin perpetua_df all_asins_df !! "NT100A" = Some "B000000001".
Proof. split; vm_compute; reflexivity. Qed.

(** ** Arithmetic of the aggregator *)

Local Open Scope Q_scope.

Lemma Qlt_bool_iff (a b : Q) : Pandas.Qlt_bool a b = true <-> a < b.
Proof.
  unfold Pandas.Qlt_bool. rewrite negb_true_iff.
  destruct (Qle_bool b a) eqn:E.
  - apply Qle_bool_iff in E. split; [discriminate|].
    intros H. exfalso. exact (Qlt_not_le _ _ H E).
  - split; [|reflexivity]. intros _. apply Qnot_le_lt.
    intros H. apply Qle_bool_iff in H. congruence.
Qed.

Lemma Qlt_bool_compat (a a' b b' : Q) :
  a == a' -> b == b' -> Pandas.Qlt_bool a b = Pandas.Qlt_bool a' b'.
Proof.
  intros Ha Hb.
  destruct (Pandas.Qlt_bool a b) eqn:E, (Pandas.Qlt_bool a' b') eqn:E';
    try reflexivity.
  - apply Qlt_bool_iff in E. rewrite Ha, Hb in E.
    apply Qlt_bool_iff in E. congruence.
  - apply Qlt_bool_iff in E'. rewrite <- Ha, <- Hb in E'.
    apply Qlt_bool_iff in E'. congruence.
Qed.

Lemma Qlt_bool_zero (q : Q) : q == 0 -> Pandas.Qlt_bool 0 q = false.
Proof.
  intros H. rewrite (Qlt_bool_compat 0 0 q 0 (Qeq_refl 0) H). reflexivity.
Qed.

(** The guarded quotient [num / den if den > 0 else 0] depends on the
    values of [num] and [den] only. *)
Lemma guarded_quotient_compat (num num' den den' : Q) :
  num == num' -> den == den' ->
  (if Pandas.Qlt_bool 0 den then num / den else 0)
  == (if Pandas.Qlt_bool 0 den' then num' / den' else 0).
Proof.
  intros Hn Hd. rewrite (Qlt_bool_compat 0 0 den den' (Qeq_refl 0) Hd).
  destruct (Pandas.Qlt_bool 0 den'); [|reflexivity].
  now rewrite Hn, Hd.
Qed.

Lemma guarded_quotient_zero (num den : Q) :
  den == 0 -> (if Pandas.Qlt_bool 0 den then num / den else 0) = 0.
Proof. intros H. now rewrite (Qlt_bool_zero _ H). Qed.

Lemma sum_cons (x : Q) (col : list Q) :
  Pandas.sum (x :: col) = x + Pandas.sum col.
Proof. reflexivity. Qed.

Lemma sum_singleton (x : Q) : Pandas.sum [x] == x.
Proof. unfold Pandas.sum. cbn. ring. Qed.

(** Grouping by cohort splits a column sum into the two cohort sums. *)
Lemma sum_of_types (f : record -> Q) (df : list record) :
  Pandas.sum (f <$> of_type Perpetua df)
  + Pandas.sum (f <$> of_type NonPerpetua df)
  == Pandas.sum (f <$> known_only df).
Proof.
  unfold of_type, known_only.
  induction df as [|r df IH]; [reflexivity|].
  rewrite !filter_cons.
  destruct (Advertising_Type r); cbn [advertising_type_eqb];
    repeat case_decide; try congruence;
    rewrite ?fmap_cons, ?sum_cons; rewrite <- IH; ring.
Qed.

Lemma known_only_idempotent (df : list record) :
  known_only (known_only df) = known_only df.
Proof.
  unfold known_only. induction df as [|r df IH]; [reflexivity|].
  rewrite filter_cons. case_decide as H; [|exact IH].
  rewrite filter_cons. case_decide; [|contradiction]. now rewrite IH.
Qed.

(** *** Rounding to two decimals *)

Lemma rint_integer (q : Q) (z : Z) : q == inject_Z z -> Pandas.rint q = z.
Proof.
  intros H. unfold Pandas.rint.
  assert (Qfloor q = z) as -> by (rewrite H; apply Qfloor_Z).
  assert (Qcompare (q - inject_Z z) (1 # 2) = Lt) as ->; [|reflexivity].
  rewrite H. apply Qlt_alt.
  assert (inject_Z z - inject_Z z == 0) as -> by ring. reflexivity.
Qed.



(** ** Zero denominators *)

(** Script 11's [calc_all_metrics]: each guarded ratio is 0 on a zero
    denominator. *)
Lemma calc_all_metrics_zero_denominators (columns : gset string)
  (subset : list record) :
  let m := Script11.calc_all_metrics columns subset in
  (Script11.Total_Spend m == 0 -> Script11.ROAS m = 0)
  /\ (Script11.Total_Sales m == 0 -> Script11.ACOS m = 0)
  /\ (Script11.Total_Clicks m == 0 -> Script11.CPC m = 0 /\ Script11.CVR m = 0)
  /\ (Script11.Total_Impressions m == 0 ->
      Script11.CTR m = 0 /\ Script11.CPM m = 0)
  /\ (Script11.Total_Orders m == 0 -> Script11.CPA m = 0 /\ Script11.AOV m = 0)
  /\ (Script11.Unique_ASINs m = 0%nat ->
      Script11.Spend_Per_ASIN m = 0 /\ Script11.Sales_Per_ASIN m = 0).
Proof.
  cbv zeta. unfold Script11.calc_all_metrics.
  cbn [Script11.Total_Spend Script11.Total_Sales Script11.Total_Clicks
       Script11.Total_Impressions Script11.Total_Orders Script11.Unique_ASINs
       Script11.ROAS Script11.ACOS Script11.CPC Script11.CVR Script11.CTR
       Script11.CPM Script11.CPA Script11.AOV Script11.Spend_Per_ASIN
       Script11.Sales_Per_ASIN].
  repeat match goal with
    | |- _ /\ _ => split
    | |- _ -> _ => intros H
    end;
    try (now rewrite (Qlt_bool_zero _ H)); now rewrite H.
Qed.

(** Script 10's [calc_metrics]: the same guards. *)
Lemma calc_metrics_zero_denominators (subset : list record) :
  let m := Script10.calc_metrics subset in
  (Script10.Total_Spend m == 0 -> Script10.ROAS m = 0)
  /\ (Script10.Total_Sales m == 0 -> Script10.ACOS m = 0)
  /\ (Script10.Total_Clicks m == 0 -> Script10.CPC m = 0 /\ Script10.CVR m = 0)
  /\ (Script10.Total_Impressions m == 0 ->
      Script10.CTR m = 0 /\ Script10.CPM m = 0)
  /\ (Script10.Total_Orders m == 0 -> Script10.CPA m = 0 /\ Script10.AOV m = 0).
Proof.
  cbv zeta. unfold Script10.calc_metrics.
  cbn [Script10.Total_Spend Script10.Total_Sales Script10.Total_Clicks
       Script10.Total_Impressions Script10.Total_Orders
       Script10.ROAS Script10.ACOS Script10.CPC Script10.CVR Script10.CTR
       Script10.CPM Script10.CPA Script10.AOV].
  repeat match goal with
    | |- _ /\ _ => split
    | |- _ -> _ => intros H
    end;
    now rewrite (Qlt_bool_zero _ H).
Qed.

(** The derived columns of [daily]: 0 on a zero denominator, and never an
    infinity or NaN. *)
Lemma daily_ratio_zero_denominator (num den : Q) :
  den == 0 -> Script11.daily_ratio num den = Pandas.Fin 0.
Proof.
  intros H. unfold Script11.daily_ratio, Pandas.replace_zero_nan.
  apply Qeq_bool_iff in H. now rewrite H.
Qed.

Lemma daily_ratio_finite (num den : Q) :
  exists q : Q, Script11.daily_ratio num den = Pandas.Fin q.
Proof.
  unfold Script11.daily_ratio, Pandas.replace_zero_nan.
  destruct (Qeq_bool den 0) eqn:E; [now exists 0|].
  cbn [Pandas.fdiv]. unfold Pandas.div. rewrite E. cbn. eauto.
Qed.

(** Scripts 5 and 6 divide by 1 in place of 0 and report the numerator;
    script 7 reports NaN. *)
Lemma script5_ratio_zero_denominator (num den : Q) :
  den == 0 -> Script5.ratio num den = Pandas.Fin (num / 1).
Proof.
  intros H. unfold Script5.ratio, Pandas.replace_zero_one.
  apply Qeq_bool_iff in H. now rewrite H.
Qed.

Lemma script7_ratio_zero_denominator (num den : Q) :
  den == 0 -> Script7.ratio num den = Pandas.NaN.
Proof.
  intros H. unfold Script7.ratio, Pandas.replace_zero_nan.
  apply Qeq_bool_iff in H. now rewrite H.
Qed.

(** C1: script 1 divides the rounded cohort totals without a guard.  A
    managed cohort whose only campaign has impressions but no click, no
    order and no spend gets Avg_CPC = NaN and Conversion_Rate = NaN (0 / 0);
    a non-managed cohort with spend 5 and no click gets Avg_CPC = +infinity.
    On the same two groups the guarded ratios of script 11 are 0. *)
Theorem script1_unguarded_ratios :
  let perpetua_df := [ Examples.ref "NT1" "B000000001" ] in
  let all_asins_df :=
    [ Examples.ref "NT1" "B000000001"; Examples.ref "NT2" "B000000002" ] in
  let campaigns :=
    [ Examples.row "SP | B000000001 | auto" 0 0 0 0 120;
      Examples.row "SP | B000000002 | auto" 5 0 0 0 300 ] in
  let comparison :=
    Script1.comparison perpetua_df all_asins_df campaigns
      Examples.to_numeric false false false in
  let known := Script1.known_campaigns perpetua_df all_asins_df campaigns in
  (exists managed non_managed : Script1.comparison_row,
      comparison Perpetua = Some managed
      /\ comparison NonPerpetua = Some non_managed
      /\ Script1.Total_Clicks managed == 0
      /\ Script1.Avg_CPC managed = Pandas.NaN
      /\ Script1.Conversion_Rate managed = Pandas.NaN
      /\ Script1.Total_Clicks non_managed == 0
      /\ Script1.Avg_CPC non_managed = Pandas.PosInf
      /\ Script1.Conversion_Rate non_managed = Pandas.NaN)
  /\ Script11.CPC (Script11.calc_all_metrics ∅ (of_type Perpetua known)) = 0
  /\ Script11.CVR (Script11.calc_all_metrics ∅ (of_type Perpetua known)) = 0
  /\ Script11.CPC (Script11.calc_all_metrics ∅ (of_type NonPerpetua known)) = 0.
Proof.
  cbv zeta. split.
  - eexists. eexists.
    split; [vm_compute; reflexivity|]. split; [vm_compute; reflexivity|].
    repeat split; vm_compute; reflexivity.
  - repeat split; vm_compute; reflexivity.
Qed.

(** ** Aggregating the aggregate *)

Lemma guarded_per_mille_compat (num num' den den' : Q) :
  num == num' -> den == den' ->
  (if Pandas.Qlt_bool 0 den then (num / den) * 1000 else 0)
  == (if Pandas.Qlt_bool 0 den' then (num' / den') * 1000 else 0).
Proof.
  intros Hn Hd. rewrite (Qlt_bool_compat 0 0 den den' (Qeq_refl 0) Hd).
  destruct (Pandas.Qlt_bool 0 den'); [|reflexivity].
  now rewrite Hn, Hd.
Qed.

(** One group: the totals row of [calc_all_metrics], summed again. *)
Lemma totals_row_reaggregated
  (columns columns' : gset string) (t : advertising_type) (subset : list record) :
  let m := Script11.calc_all_metrics columns subset in
  Script11.same_totals_and_ratios
    (Script11.calc_all_metrics columns' [Script11.totals_row t m]) m.
Proof.
  cbv zeta.
  unfold Script11.same_totals_and_ratios, Script11.calc_all_metrics,
    Script11.totals_row.
  cbn [Script11.Total_Spend Script11.Total_Sales Script11.Total_Clicks
       Script11.Total_Impressions Script11.Total_Orders
       Script11.ROAS Script11.ACOS Script11.CPC Script11.CVR Script11.CTR
       Script11.CPM Script11.CPA Script11.AOV
       Spend Sales Orders Clicks Impressions fmap list_fmap].
  repeat match goal with |- _ /\ _ => split end;
    try apply sum_singleton;
    try (apply guarded_quotient_compat; apply sum_singleton);
    apply guarded_per_mille_compat; apply sum_singleton.
Qed.

(** C7: take the output of the aggregator as a table with one row per
    cohort, each row carrying the five totals of its cohort, and run
    [calc_all_metrics] on the rows of each cohort again, without grouping the
    original records anew: for both cohorts the five totals come out the
    same, and with them the eight ratios. *)
Theorem reaggregation_is_idempotent
  (columns columns' : gset string) (df : list record) :
  let aggregate (t : advertising_type) (rows : list record) :=
    Script11.calc_all_metrics columns (of_type t rows) in
  let output :=
    [ Script11.totals_row Perpetua (aggregate Perpetua df);
      Script11.totals_row NonPerpetua (aggregate NonPerpetua df) ] in
  Script11.same_totals_and_ratios
    (Script11.calc_all_metrics columns' (of_type Perpetua output))
    (aggregate Perpetua df)
  /\ Script11.same_totals_and_ratios
       (Script11.calc_all_metrics columns' (of_type NonPerpetua output))
       (aggregate NonPerpetua df).
Proof.
  cbv zeta. split.
  - exact (totals_row_reaggregated columns columns' Perpetua (of_type Perpetua df)).
  - exact (totals_row_reaggregated columns columns' NonPerpetua
             (of_type NonPerpetua df)).
Qed.

(** ** Sum preservation *)





Lemma two_decimals_check (q : Q) :
  ((Qnum q * 100) mod Zpos (Qden q) = 0)%Z -> Pandas.two_decimals q.
Proof.
  intros H. exists ((Qnum q * 100) / Zpos (Qden q))%Z.
  apply Z.div_exact in H; [|discriminate].
  destruct q as [n d]. cbn [Qnum Qden] in *.
  unfold Qeq, Qdiv, Qmult, Qinv, inject_Z. cbn. lia.
Qed.



(** The check of [whole_numbers] on given rows. *)
Lemma whole_numbers_check (f : record -> Q) (rows : list record) :
  Forall (fun r => (Qnum (f r) mod Zpos (Qden (f r)) = 0)%Z) rows ->
  Pandas.Qlt_bool (Pandas.sum ((fun r => Qabs (f r)) <$> rows))
    (inject_Z (2 ^ 46)) = true ->
  whole_numbers f rows.
Proof.
  intros Hw Hb. split; [|now apply Qlt_bool_iff].
  intros r Hr. rewrite Forall_forall in Hw. specialize (Hw r Hr).
  exists (Qnum (f r) / Zpos (Qden (f r)))%Z.
  apply Z.div_exact in Hw; [|discriminate].
  destruct (f r) as [n d]. cbn [Qnum Qden] in *.
  unfold Qeq, inject_Z. cbn [Qnum Qden]. lia.
Qed.

(** The rows that are not Unknown are the rows of the two cohorts: each of
    them is in exactly one cohort. *)
Lemma cohorts_partition (df : list record) :
  known_only df ≡ₚ of_type Perpetua df ++ of_type NonPerpetua df.
Proof.
  unfold known_only, of_type. induction df as [|r df IH]; [reflexivity|].
  destruct (Advertising_Type r) eqn:E.
  - rewrite (filter_cons_True _ r df) by (rewrite E; reflexivity).
    rewrite (filter_cons_True _ r df) by (rewrite E; reflexivity).
    rewrite (filter_cons_False _ r df) by (rewrite E; discriminate).
    cbn [app]. now apply perm_skip.
  - rewrite (filter_cons_True _ r df) by (rewrite E; reflexivity).
    rewrite (filter_cons_False _ r df) by (rewrite E; discriminate).
    rewrite (filter_cons_True _ r df) by (rewrite E; reflexivity).
    rewrite <- Permutation_middle. now apply perm_skip.
  - rewrite !(filter_cons_False _ r df) by (rewrite E; cbn; congruence).
    exact IH.
Qed.




(** ** The two-record scenario *)

(** Two tagged rows, one per cohort, both dated, with different labels:
    nothing is filtered out and nothing is a duplicate. *)
Lemma two_rows_kept (t1 t2 : record) :
  Advertising_Type t1 = Perpetua -> Advertising_Type t2 = NonPerpetua ->
  is_Some (Date t1) -> is_Some (Date t2) ->
  Campaign_Name t1 <> Campaign_Name t2 ->
  Script11.drop_duplicates
    (filter (fun r => is_Some (Date r)) (known_only [t1; t2] ++ known_only []))
  = [t1; t2]
  /\ filter (fun r => is_Some (Date r)) (known_only [t1; t2]) = [t1; t2]
  /\ of_type Perpetua [t1; t2] = [t1]
  /\ of_type NonPerpetua [t1; t2] = [t2].
Proof.
  intros T1 T2 D1 D2 Hne.
  assert (known_only [t1; t2] = [t1; t2]) as Hk.
  { unfold known_only.
    rewrite !filter_cons_True by (rewrite ?T1, ?T2; reflexivity).
    reflexivity. }
  assert (filter (fun r => is_Some (Date r)) [t1; t2] = [t1; t2]) as Hd.
  { now rewrite !filter_cons_True by assumption. }
  repeat split.
  - rewrite Hk. change (known_only []) with (@nil record). rewrite app_nil_r, Hd.
    unfold Script11.drop_duplicates. cbn [Script11.drop_duplicates_from].
    rewrite bool_decide_eq_false_2 by apply not_elem_of_nil.
    rewrite bool_decide_eq_false_2; [reflexivity|].
    intros Hin. apply list_elem_of_singleton in Hin.
    unfold Script11.dedup_key in Hin. congruence.
  - now rewrite Hk.
  - unfold of_type.
    rewrite filter_cons_True by (rewrite T1; reflexivity).
    rewrite filter_cons_False by (rewrite T2; discriminate).
    reflexivity.
  - unfold of_type.
    rewrite filter_cons_False by (rewrite T1; discriminate).
    rewrite filter_cons_True by (rewrite T2; reflexivity).
    reflexivity.
Qed.

(** The guarded quotient of a one-row group. *)
Lemma guarded_quotient_value (num den n d : Q) :
  num == n -> den == d -> 0 < d ->
  (if Pandas.Qlt_bool 0 (Pandas.sum [den]) then Pandas.sum [num] / Pandas.sum [den] else 0)
  == n / d.
Proof.
  intros Hn Hd Hpos.
  rewrite (guarded_quotient_compat (Pandas.sum [num]) n (Pandas.sum [den]) d)
    by (rewrite sum_singleton; assumption).
  apply Qlt_bool_iff in Hpos. now rewrite Hpos.
Qed.

Lemma round_decimals (d : nat) (q : Q) (z : Z) :
  q == inject_Z z / inject_Z (10 ^ Z.of_nat d) -> Pandas.round d q == q.
Proof.
  intros Hz. unfold Pandas.round.
  assert (~ inject_Z (10 ^ Z.of_nat d) == 0) as Hscale.
  { change 0 with (inject_Z 0). rewrite inject_Z_injective.
    apply Z.pow_nonzero; lia. }
  rewrite (rint_integer (q * inject_Z (10 ^ Z.of_nat d)) z).
  - now rewrite Hz.
  - rewrite Hz. now field.
Qed.

Lemma is_value_compat (x : Pandas.float64) (v v' : Q) :
  v == v' -> Pandas.is_value x v -> Pandas.is_value x v'.
Proof.
  intros Hv. destruct x; cbn; try easy. intros H. now rewrite H.
Qed.

(** Script 1, report without ratio columns: the means of a one-row group. *)
Lemma script1_single_row_means to_numeric has_CTR (t : record) (spend sales : Q)
  (z_roas z_acos : Z) :
  Spend t == spend -> Sales t == sales -> 0 < spend -> 0 < sales ->
  sales / spend == inject_Z z_roas / 10000 ->
  spend / sales == inject_Z z_acos / 10000 ->
  let row := Script1.comparison_of to_numeric false false has_CTR [t] in
  Pandas.is_value (Script1.mean_ROAS row) (sales / spend)
  /\ Pandas.is_value (Script1.mean_ACOS row) (spend / sales).
Proof.
  intros Hs Hv Hspos Hvpos Hr Ha. cbv zeta.
  unfold Script1.comparison_of.
  cbn [Script1.mean_ROAS Script1.mean_ACOS fmap list_fmap].
  unfold Script1.row_ROAS, Script1.row_ACOS, Pandas.mean.
  rewrite !filter_cons_True by reflexivity. rewrite !filter_nil.
  cbn [foldr length Pandas.fadd Pandas.fdiv Pandas.fround Pandas.is_value].
  unfold Pandas.div.
  change (Qeq_bool (inject_Z (Z.of_nat 1)) 0) with false. cbv iota.
  cbn [Pandas.fround Pandas.is_value].
  assert (Pandas.Qlt_bool 0 (Spend t) = true) as ->
    by (apply Qlt_bool_iff; now rewrite Hs).
  assert (Pandas.Qlt_bool 0 (Sales t) = true) as ->
    by (apply Qlt_bool_iff; now rewrite Hv).
  assert (~ spend == 0) by (intros E; rewrite E in Hspos; discriminate).
  assert (~ sales == 0) by (intros E; rewrite E in Hvpos; discriminate).
  split.
  - rewrite (round_decimals 4 _ z_roas).
    + rewrite Hs, Hv. change (inject_Z (Z.of_nat 1)) with 1. now field.
    + rewrite <- Hr, Hs, Hv. change (inject_Z (Z.of_nat 1)) with 1. now field.
  - rewrite (round_decimals 4 _ z_acos).
    + rewrite Hs, Hv. change (inject_Z (Z.of_nat 1)) with 1. now field.
    + rewrite <- Ha, Hs, Hv. change (inject_Z (Z.of_nat 1)) with 1. now field.
Qed.

(** C8: two dated campaign rows, the first labelled with a managed
    identifier and carrying spend 100 and sales 250, the second labelled with
    a non-managed identifier and carrying spend 50 and sales 50.  The
    aggregators of scripts 11 and 10 report Managed ROAS 2.5, NonManaged
    ROAS 1.0 and Managed ACOS 0.40; so do the cohort means of script 1 when
    the report carries no ACOS and ROAS columns of its own. *)
Theorem two_record_scenario
  (perpetua_list all_asins_list : list sheet_row)
  (campaign_columns ad_product_columns : gset string)
  (to_numeric : string -> Pandas.float64) (has_CTR : bool)
  (r1 r2 : record) (name1 name2 a1 a2 : string) :
  Campaign_Name r1 = Some name1 -> Text.search_asin name1 = Some a1 ->
  a1 ∈ Script11.perpetua_asins perpetua_list ->
  Campaign_Name r2 = Some name2 -> Text.search_asin name2 = Some a2 ->
  a2 ∈ Script11.non_perpetua_asins perpetua_list all_asins_list ->
  is_Some (Date r1) -> is_Some (Date r2) ->
  Spend r1 == 100 -> Sales r1 == 250 -> Spend r2 == 50 -> Sales r2 == 50 ->
  (let p := Script11.perpetua perpetua_list all_asins_list [r1; r2] []
              campaign_columns ad_product_columns in
   let n := Script11.non_perpetua perpetua_list all_asins_list [r1; r2] []
              campaign_columns ad_product_columns in
   Script11.ROAS p == 2.5 /\ Script11.ROAS n == 1 /\ Script11.ACOS p == 0.4)
  /\ (let p := Script10.perpetua perpetua_list all_asins_list [r1; r2] in
      let n := Script10.non_perpetua perpetua_list all_asins_list [r1; r2] in
      Script10.ROAS p == 2.5 /\ Script10.ROAS n == 1 /\ Script10.ACOS p == 0.4)
  /\ (let comparison :=
        Script1.comparison perpetua_list all_asins_list [r1; r2]
          to_numeric false false has_CTR in
      exists p n : Script1.comparison_row,
        comparison Perpetua = Some p /\ comparison NonPerpetua = Some n
        /\ Pandas.is_value (Script1.mean_ROAS p) 2.5
        /\ Pandas.is_value (Script1.mean_ROAS n) 1
        /\ Pandas.is_value (Script1.mean_ACOS p) 0.4).
Proof.
  intros N1 E1 M1 N2 E2 M2 D1 D2 S1 V1 S2 V2.
  assert (Campaign_Name r1 <> Campaign_Name r2) as Hne.
  { rewrite N1, N2. intros [= ->]. rewrite E1 in E2. injection E2 as ->.
    unfold Script11.non_perpetua_asins in M2.
    apply elem_of_difference in M2 as [_ M2]. exact (M2 M1). }
  split; [|split].
  - (* script 11 *)
    cbv zeta. unfold Script11.perpetua, Script11.non_perpetua, Script11.combined,
      Script11.campaigns_known, Script11.ad_products_known.
    cbn [fmap list_fmap].
    set (t1 := Script11.tag_campaign perpetua_list all_asins_list r1).
    set (t2 := Script11.tag_campaign perpetua_list all_asins_list r2).
    assert (t1 = Script11.tag_campaign perpetua_list all_asins_list r1) as Ht1
      by reflexivity.
    assert (t2 = Script11.tag_campaign perpetua_list all_asins_list r2) as Ht2
      by reflexivity.
    unfold Script11.tag_campaign in Ht1, Ht2.
    rewrite N1, (script11_managed_label _ _ _ _ E1 M1) in Ht1.
    rewrite N2, (script11_non_managed_label _ _ _ _ E2 M2) in Ht2.
    assert (Advertising_Type t1 = Perpetua) as T1 by (rewrite Ht1; reflexivity).
    assert (Advertising_Type t2 = NonPerpetua) as T2
      by (rewrite Ht2; reflexivity).
    assert (is_Some (Date t1)) as D1' by (rewrite Ht1; exact D1).
    assert (is_Some (Date t2)) as D2' by (rewrite Ht2; exact D2).
    assert (Campaign_Name t1 <> Campaign_Name t2) as Hne'
      by (rewrite Ht1, Ht2; cbn; congruence).
    assert (Spend t1 == 100 /\ Sales t1 == 250) as [S1' V1']
      by (rewrite Ht1; split; assumption).
    assert (Spend t2 == 50 /\ Sales t2 == 50) as [S2' V2']
      by (rewrite Ht2; split; assumption).
    destruct (two_rows_kept t1 t2 T1 T2 D1' D2' Hne') as (Hc & _ & Hp & Hn).
    rewrite Hc, Hp, Hn.
    unfold Script11.calc_all_metrics.
    cbn [Script11.ROAS Script11.ACOS fmap list_fmap].
    repeat split.
    + now rewrite (guarded_quotient_value (Sales t1) (Spend t1) 250 100).
    + now rewrite (guarded_quotient_value (Sales t2) (Spend t2) 50 50).
    + now rewrite (guarded_quotient_value (Spend t1) (Sales t1) 100 250).
  - (* script 10 *)
    cbv zeta. unfold Script10.perpetua, Script10.non_perpetua, Script10.known.
    cbn [fmap list_fmap].
    set (t1 := Script10.tag perpetua_list all_asins_list r1).
    set (t2 := Script10.tag perpetua_list all_asins_list r2).
    assert (t1 = Script10.tag perpetua_list all_asins_list r1) as Ht1
      by reflexivity.
    assert (t2 = Script10.tag perpetua_list all_asins_list r2) as Ht2
      by reflexivity.
    unfold Script10.tag in Ht1, Ht2.
    rewrite N1, (script10_managed_label _ _ _ _ E1 M1) in Ht1.
    rewrite N2, (script10_non_managed_label _ _ _ _ E2 M2) in Ht2.
    assert (Advertising_Type t1 = Perpetua) as T1 by (rewrite Ht1; reflexivity).
    assert (Advertising_Type t2 = NonPerpetua) as T2
      by (rewrite Ht2; reflexivity).
    assert (is_Some (Date t1)) as D1' by (rewrite Ht1; exact D1).
    assert (is_Some (Date t2)) as D2' by (rewrite Ht2; exact D2).
    assert (Campaign_Name t1 <> Campaign_Name t2) as Hne'
      by (rewrite Ht1, Ht2; cbn; congruence).
    assert (Spend t1 == 100 /\ Sales t1 == 250) as [S1' V1']
      by (rewrite Ht1; split; assumption).
    assert (Spend t2 == 50 /\ Sales t2 == 50) as [S2' V2']
      by (rewrite Ht2; split; assumption).
    destruct (two_rows_kept t1 t2 T1 T2 D1' D2' Hne') as (_ & Hc & Hp & Hn).
    rewrite Hc, Hp, Hn.
    unfold Script10.calc_metrics.
    cbn [Script10.ROAS Script10.ACOS fmap list_fmap].
    repeat split.
    + now rewrite (guarded_quotient_value (Sales t1) (Spend t1) 250 100).
    + now rewrite (guarded_quotient_value (Sales t2) (Spend t2) 50 50).
    + now rewrite (guarded_quotient_value (Spend t1) (Sales t1) 100 250).
  - (* script 1 *)
    cbv zeta. unfold Script1.comparison, Script1.known_campaigns.
    cbn [fmap list_fmap].
    set (t1 := Script1.tag perpetua_list all_asins_list r1).
    set (t2 := Script1.tag perpetua_list all_asins_list r2).
    assert (Advertising_Type t1 = Perpetua) as T1.
    { subst t1. cbn. rewrite N1. cbn. rewrite E1.
      unfold Script1.classify_campaign. now rewrite bool_decide_eq_true_2. }
    assert (Advertising_Type t2 = NonPerpetua) as T2.
    { subst t2. cbn. rewrite N2. cbn. rewrite E2.
      unfold Script1.classify_campaign.
      rewrite bool_decide_eq_false_2.
      - now rewrite bool_decide_eq_true_2.
      - intros Hp. unfold Script11.non_perpetua_asins in M2.
        apply elem_of_difference in M2 as [_ M2]. exact (M2 Hp). }
    assert (of_type Perpetua [t1; t2] = [t1]
            /\ of_type NonPerpetua [t1; t2] = [t2]) as [Hp Hn].
    { unfold of_type. split.
      - rewrite filter_cons_True by (rewrite T1; reflexivity).
        rewrite filter_cons_False by (rewrite T2; discriminate). reflexivity.
      - rewrite filter_cons_False by (rewrite T1; discriminate).
        rewrite filter_cons_True by (rewrite T2; reflexivity). reflexivity. }
    assert (known_only [t1; t2] = [t1; t2]) as Hk.
    { unfold known_only.
      rewrite !filter_cons_True by (rewrite ?T1, ?T2; reflexivity).
      reflexivity. }
    rewrite Hk, Hp, Hn.
    exists (Script1.comparison_of to_numeric false false has_CTR [t1]).
    exists (Script1.comparison_of to_numeric false false has_CTR [t2]).
    split; [reflexivity|]. split; [reflexivity|].
    destruct (script1_single_row_means to_numeric has_CTR t1 100 250 25000 4000)
      as [R1 A1]; [exact S1 | exact V1 | reflexivity ..|].
    destruct (script1_single_row_means to_numeric has_CTR t2 50 50 10000 10000)
      as [R2 _]; [exact S2 | exact V2 | reflexivity ..|].
    repeat split.
    + now apply (is_value_compat _ (250 / 100)).
    + now apply (is_value_compat _ (50 / 50)).
    + now apply (is_value_compat _ (100 / 250)).
Qed.

Lemma two_record_scenario_witness :
  let perpetua_list := [ Examples.ref "NT1" "B000000001" ] in
  let all_asins_list :=
    [ Examples.ref "NT1" "B000000001"; Examples.ref "NT2" "B000000002" ] in
  let columns : gset string := {[ "Date"; "Campaign Name"; "Spend" ]} in
  let r1 := Examples.row "SP | B000000001 | auto" 100 250 5 40 1000 in
  let r2 := Examples.row "SP | B000000002 | auto" 50 50 1 20 400 in
  let p := Script11.perpetua perpetua_list all_asins_list [r1; r2] []
             columns ∅ in
  let n := Script11.non_perpetua perpetua_list all_asins_list [r1; r2] []
             columns ∅ in
  Script11.ROAS p == 2.5 /\ Script11.ROAS n == 1 /\ Script11.ACOS p == 0.4.
Proof.
  intros perpetua_list all_asins_list columns r1 r2.
  refine (proj1
    (two_record_scenario perpetua_list all_asins_list columns ∅
       Examples.to_numeric false r1 r2
       "SP | B000000001 | auto" "SP | B000000002 | auto"
       "B000000001" "B000000002" _ _ _ _ _ _ _ _ _ _ _ _)).
  - reflexivity.
  - vm_compute. reflexivity.
  - apply (bool_decide_unpack _). vm_compute. exact I.
  - reflexivity.
  - vm_compute. reflexivity.
  - apply (bool_decide_unpack _). vm_compute. exact I.
  - eexists. reflexivity.
  - eexists. reflexivity.
  - reflexivity.
  - reflexivity.
  - reflexivity.
  - reflexivity.
Defined.

(** ** The cleaning loop *)

Lemma fillna_not_nan (v : Q) (x : Pandas.float64) : Pandas.fillna v x <> Pandas.NaN.
Proof. destruct x; discriminate. Qed.

Lemma script1_clean_not_nan to_numeric (col : Pandas.column) (x : Pandas.float64) :
  x ∈ Script1.clean to_numeric col -> x <> Pandas.NaN.
Proof.
  unfold Script1.clean. intros H.
  apply list_elem_of_fmap in H as (y & -> & _). apply fillna_not_nan.
Qed.

Lemma script11_clean_not_nan to_numeric (col : Pandas.column) (x : Pandas.float64) :
  x ∈ Script11.clean to_numeric col -> x <> Pandas.NaN.
Proof.
  unfold Script11.clean. intros H.
  apply list_elem_of_fmap in H as (y & -> & _). apply fillna_not_nan.
Qed.

(** The loops over [numeric_cols] of scripts 1 and 11: a text cell that
    [pd.to_numeric] cannot read once the symbols are removed ([$], [%] and
    [,] in script 1; [$] and [,] in script 11) becomes 0; the loop yields a
    cell for every cell of the column, whatever the text, and none of them is
    NaN. *)
Theorem unparseable_cell_becomes_zero
  (to_numeric : string -> Pandas.float64)
  (cells : list (option string)) (i : nat) (cell : option string) :
  cells !! i = Some cell ->
  (to_numeric
     (Pandas.remove "," (Pandas.remove "%" (Pandas.remove "$" (Pandas.astype_str cell))))
   = Pandas.NaN ->
   Script1.clean to_numeric (Pandas.Object cells) !! i = Some (Pandas.Fin 0))
  /\ (to_numeric (Pandas.remove "," (Pandas.remove "$" (Pandas.astype_str cell)))
      = Pandas.NaN ->
      Script11.clean to_numeric (Pandas.Object cells) !! i = Some (Pandas.Fin 0))
  /\ is_Some (Script1.clean to_numeric (Pandas.Object cells) !! i)
  /\ is_Some (Script11.clean to_numeric (Pandas.Object cells) !! i)
  /\ length (Script1.clean to_numeric (Pandas.Object cells)) = length cells
  /\ length (Script11.clean to_numeric (Pandas.Object cells)) = length cells
  /\ (forall (col : Pandas.column) (x : Pandas.float64),
         x ∈ Script1.clean to_numeric col \/ x ∈ Script11.clean to_numeric col ->
         x <> Pandas.NaN).
Proof.
  intros Hi. unfold Script1.clean, Script11.clean.
  rewrite !list_lookup_fmap, Hi, !length_fmap. cbn [fmap option_fmap option_map].
  repeat match goal with |- _ /\ _ => split end.
  - now intros ->.
  - now intros ->.
  - eauto.
  - eauto.
  - reflexivity.
  - reflexivity.
  - intros col x [H|H].
    + eapply script1_clean_not_nan, H.
    + eapply script11_clean_not_nan, H.
Qed.

Lemma unparseable_cell_becomes_zero_witness :
  Script1.clean Examples.to_numeric
    (Pandas.Object [Some "$1,200.50"; Some "n/a"; None]) !! 1%nat
  = Some (Pandas.Fin 0).
Proof.
  refine (proj1
    (unparseable_cell_becomes_zero Examples.to_numeric
       [Some "$1,200.50"; Some "n/a"; None] 1 (Some "n/a") _) _).
  - reflexivity.
  - vm_compute. reflexivity.
Defined.

(** The percent columns.  Script 1 reads ACOS and CTR with [pd.to_numeric]
    and divides by 100 without [fillna]: a cell that does not parse is NaN
    in the processed frame, whatever the parser makes of other cells. *)
Lemma script1_percent_cell_nan
  (to_numeric : string -> Pandas.float64) (x : record) :
  (to_numeric (Pandas.remove "%" (Pandas.astype_str (Reported_ACOS x)))
   = Pandas.NaN ->
   Script1.row_ACOS to_numeric true x = Pandas.NaN
   /\ Pandas.is_value (Script2Cleaning.row_ACOS to_numeric true x) 0
   /\ Forall (fun v => Pandas.is_value v 0)
        (Script10Cleaning.percent_column to_numeric
           (Pandas.Object [Reported_ACOS x])))
  /\ (to_numeric (Pandas.remove "%" (Pandas.astype_str (Reported_CTR x)))
      = Pandas.NaN ->
      Script1.row_CTR to_numeric true x = Pandas.NaN
      /\ Forall (fun v => Pandas.is_value v 0)
           (Script10Cleaning.percent_column to_numeric
              (Pandas.Object [Reported_CTR x]))).
Proof.
  unfold Script1.row_ACOS, Script1.row_CTR, Script2Cleaning.row_ACOS,
    Script10Cleaning.percent_column.
  cbn [fmap list_fmap].
  split; intros ->; cbn; repeat split; repeat constructor; reflexivity.
Qed.

(** C9: a cell of a numeric column that does not parse is not always
    coerced to 0.  In script 1 a campaign whose ACOS and CTR cells hold a
    dash keeps NaN in both columns of the processed frame, as does a
    campaign whose ACOS cell is empty, and the mean ACOS of a cohort made of
    that campaign is NaN.  On the same cell the loop over [numeric_cols] of
    script 1 gives 0, script 1 gives ROAS 0, and scripts 2 and 10 give
    ACOS 0. *)
Theorem script1_percent_cell_stays_nan :
  let row (cell : option string) :=
    {| Date := Some 0%Z;
       Campaign_Name := Some "SP | B000000001 | auto"%string;
       Advertised_ASIN := None; ASIN := None; SKU := None;
       Advertising_Type := Perpetua;
       Spend := 10; Sales := 0; Orders := 0; Clicks := 3; Impressions := 100;
       Cost_Per_Click := 0;
       Reported_ACOS := cell; Reported_ROAS := cell; Reported_CTR := cell |} in
  let dash : option string := Some "-"%string in
  let x := row dash in
  Examples.to_numeric "-" = Pandas.NaN
  /\ Script1.row_ACOS Examples.to_numeric true x = Pandas.NaN
  /\ Script1.row_CTR Examples.to_numeric true x = Pandas.NaN
  /\ Script1.row_ACOS Examples.to_numeric true (row None) = Pandas.NaN
  /\ Script1.mean_ACOS
       (Script1.comparison_of Examples.to_numeric true true true [x])
     = Pandas.NaN
  /\ Script1.clean Examples.to_numeric (Pandas.Object [dash]) = [Pandas.Fin 0]
  /\ Script1.row_ROAS Examples.to_numeric true x = Pandas.Fin 0
  /\ Pandas.is_value (Script2Cleaning.row_ACOS Examples.to_numeric true x) 0
  /\ Forall (fun v => Pandas.is_value v 0)
       (Script10Cleaning.percent_column Examples.to_numeric
          (Pandas.Object [dash])).
Proof.
  cbv zeta.
  repeat match goal with |- _ /\ _ => split end;
    try (vm_compute; reflexivity).
  repeat constructor.
Qed.

(** * Further properties of the scripts *)

(** ** What [re.search] returns *)

Lemma append_empty_inv (a b : string) :
  a +:+ b = EmptyString -> a = EmptyString /\ b = EmptyString.
Proof. destruct a; [auto | discriminate]. Qed.

(** [search] returns the match of the anchored pattern at the first
    position that has one, and nothing when no position has one. *)
Lemma search_leftmost (here : string -> option string) (s : string) :
  match Text.search here s with
  | Some w =>
      exists pre t : string,
        s = pre +:+ t /\ here t = Some w
        /\ forall pre' rest : string,
             s = pre' +:+ rest ->
             (String.length pre' < String.length pre)%nat -> here rest = None
  | None => forall pre rest : string, s = pre +:+ rest -> here rest = None
  end.
Proof.
  induction s as [|c s IH]; cbn [Text.search].
  - destruct (here EmptyString) as [w|] eqn:E.
    + exists EmptyString, EmptyString. repeat split; auto.
      intros pre' rest _ Hlt. cbn in Hlt. lia.
    + intros pre rest H. symmetry in H.
      apply append_empty_inv in H as [_ ->]. exact E.
  - destruct (here (String c s)) as [w|] eqn:E.
    + exists EmptyString, (String c s). repeat split; auto.
      intros pre' rest _ Hlt. cbn in Hlt. lia.
    + destruct (Text.search here s) as [w|].
      * destruct IH as (pre & t & -> & Ht & Hleft).
        exists (String c pre), t. repeat split; auto.
        intros [|c' pre'] rest Heq Hlt.
        -- change (EmptyString +:+ rest) with rest in Heq. now rewrite <- Heq.
        -- change (String c' pre' +:+ rest) with (String c' (pre' +:+ rest)) in Heq.
           change (String c pre +:+ t) with (String c (pre +:+ t)) in Heq.
           injection Heq as _ Heq.
           apply (Hleft pre' rest Heq). cbn in Hlt. lia.
      * intros [|c' pre] rest Heq.
        -- change (EmptyString +:+ rest) with rest in Heq. now rewrite <- Heq.
        -- change (String c' pre +:+ rest) with (String c' (pre +:+ rest)) in Heq.
           injection Heq as _ Heq. eauto.
Qed.

Lemma match_upper_alnum_prefix n s w :
  Text.match_upper_alnum n s = Some w ->
  exists post, s = w +:+ post /\ Text.match_upper_alnum n w = Some w.
Proof.
  revert s w. induction n as [|n IH]; intros s w; cbn [Text.match_upper_alnum].
  - intros [= <-]. now exists s.
  - destruct s as [|c s]; [discriminate|].
    destruct (Text.is_upper_alnum c) eqn:Ec; [|discriminate].
    destruct (Text.match_upper_alnum n s) as [v|] eqn:E; [|discriminate].
    intros [= <-]. destruct (IH _ _ E) as (post & -> & Hv).
    exists post. split; [reflexivity|].
    cbn [Text.match_upper_alnum]. now rewrite Ec, Hv.
Qed.

Lemma match_asin_prefix s w :
  Text.match_asin s = Some w ->
  exists post, s = w +:+ post /\ Text.asin_shaped w = true.
Proof.
  unfold Text.asin_shaped, Text.match_asin.
  destruct s as [|c s]; [discriminate|].
  destruct (Ascii.eqb c "B") eqn:Ec; [|discriminate].
  destruct (Text.match_upper_alnum 9 s) as [v|] eqn:E; [|discriminate].
  intros [= <-]. destruct (match_upper_alnum_prefix _ _ _ E) as (post & -> & Hv).
  exists post. split; [reflexivity|].
  rewrite Ec, Hv. cbn [option_map]. apply String.eqb_refl.
Qed.

(** X1: the identifier that [extract_asin] / [extract_identifiers] /
    [extract_and_classify] take from a label is a substring of the label of
    exactly ten characters, [B] and nine of [A-Z0-9], and it is the leftmost
    such substring: the pattern matches at no earlier position.  When
    nothing is extracted the pattern matches at no position of the label. *)
Theorem extracted_asin_is_leftmost_match (label : string) :
  match Script1.extract_asin (Some label) with
  | Some w =>
      fst (Script10.extract_identifiers (Some label)) = Some w
      /\ exists pre post : string,
           label = pre +:+ w +:+ post
           /\ Text.asin_shaped w = true
           /\ String.length w = 10%nat
           /\ forall pre' rest : string,
                label = pre' +:+ rest ->
                (String.length pre' < String.length pre)%nat ->
                Text.match_asin rest = None
  | None =>
      fst (Script10.extract_identifiers (Some label)) = None
      /\ forall pre rest : string,
           label = pre +:+ rest -> Text.match_asin rest = None
  end.
Proof.
  cbn [Script1.extract_asin Script10.extract_identifiers fst].
  unfold Text.search_asin.
  pose proof (search_leftmost Text.match_asin label) as H.
  destruct (Text.search Text.match_asin label) as [w|].
  - split; [reflexivity|].
    destruct H as (pre & t & -> & Ht & Hleft).
    destruct (match_asin_prefix _ _ Ht) as (post & -> & Hshape).
    exists pre, post. repeat split; auto.
    eapply match_asin_length, Ht.
  - split; [reflexivity | exact H].
Qed.

Lemma span_digits_spec (s : string) :
  s = fst (Text.span_digits s) +:+ snd (Text.span_digits s)
  /\ all_of Text.is_digit (fst (Text.span_digits s)) = true
  /\ head_in Text.is_digit (snd (Text.span_digits s)) = false.
Proof.
  induction s as [|c s (IH1 & IH2 & IH3)]; [repeat split|].
  cbn [Text.span_digits]. destruct (Text.is_digit c) eqn:Ec.
  - destruct (Text.span_digits s) as [ds rest]. cbn [fst snd] in *.
    split; [|split].
    + change (String c ds +:+ rest) with (String c (ds +:+ rest)). congruence.
    + cbn [all_of]. now rewrite Ec, IH2.
    + exact IH3.
  - cbn [fst snd]. split; [reflexivity|]. split; [reflexivity|].
    cbn [head_in]. exact Ec.
Qed.

Lemma append_cons (x : ascii) (a b : string) :
  String x a +:+ b = String x (a +:+ b).
Proof. reflexivity. Qed.

Lemma append_nil_l (b : string) : EmptyString +:+ b = b.
Proof. reflexivity. Qed.

Lemma append_nil_r (a : string) : a +:+ EmptyString = a.
Proof. induction a as [|x a IH]; [reflexivity|]. now rewrite append_cons, IH. Qed.

Lemma append_assoc3 (a b c : string) : (a +:+ b) +:+ c = a +:+ (b +:+ c).
Proof.
  induction a as [|x a IH]; [reflexivity|]. now rewrite !append_cons, IH.
Qed.

Lemma match_sku_shape (t w : string) :
  Text.match_sku t = Some w ->
  exists (a b : ascii) (ds tail post : string),
    t = w +:+ post
    /\ w = String a (String b (ds +:+ tail))
    /\ Text.is_sku_prefix a b = true
    /\ ds <> EmptyString
    /\ all_of Text.is_digit ds = true
    /\ head_in Text.is_digit (tail +:+ post) = false
    /\ ((tail = EmptyString /\ head_in Text.is_upper post = false)
        \/ exists c, tail = String c EmptyString /\ Text.is_upper c = true).
Proof.
  unfold Text.match_sku.
  destruct t as [|a [|b t]]; try discriminate.
  destruct (Text.is_sku_prefix a b) eqn:Ep; [|discriminate].
  destruct (span_digits_spec t) as (Ht & Hds & Hrest).
  destruct (Text.span_digits t) as [ds rest]. cbn [fst snd] in *.
  destruct ds as [|d ds]; [discriminate|].
  intros [= <-].
  destruct rest as [|c rest].
  - exists a, b, (String d ds), EmptyString, EmptyString.
    repeat split; auto; try discriminate.
    rewrite Ht, !append_cons, !append_nil_r. reflexivity.
  - destruct (Text.is_upper c) eqn:Ec.
    + exists a, b, (String d ds), (String c EmptyString), rest.
      repeat split; eauto; try discriminate.
      rewrite Ht, !append_cons, !append_assoc3, !append_cons, append_nil_l.
      reflexivity.
    + exists a, b, (String d ds), EmptyString, (String c rest).
      repeat split; auto; try discriminate.
      rewrite Ht, !append_cons, !append_nil_r. reflexivity.
Qed.

(** X2: on a label of ASCII characters, the alias that
    [extract_identifiers] and [extract_and_classify] take from the label is
    a substring of it at the leftmost position where the pattern matches:
    NT, SD or PN, then all the digits that follow (at least one), then one
    capital letter when one follows the digits.  A lower-case letter or
    anything else after the digits is left out, and digits after the
    capital letter are left out too.  (On other labels [\d] also matches
    the decimal digits of other scripts, which [Text.is_digit] leaves
    out.) *)
Theorem extracted_sku_shape (label : string) :
  ascii_text label = true ->
  match snd (Script10.extract_identifiers (Some label)) with
  | Some w =>
      exists (pre post : string) (a b : ascii) (ds tail : string),
        label = pre +:+ w +:+ post
        /\ w = String a (String b (ds +:+ tail))
        /\ Text.is_sku_prefix a b = true
        /\ ds <> EmptyString
        /\ all_of Text.is_digit ds = true
        /\ head_in Text.is_digit (tail +:+ post) = false
        /\ ((tail = EmptyString /\ head_in Text.is_upper post = false)
            \/ exists c, tail = String c EmptyString /\ Text.is_upper c = true)
        /\ forall pre' rest : string,
             label = pre' +:+ rest ->
             (String.length pre' < String.length pre)%nat ->
             Text.match_sku rest = None
  | None =>
      forall pre rest : string, label = pre +:+ rest -> Text.match_sku rest = None
  end.
Proof.
  intros _.
  cbn [Script10.extract_identifiers snd]. unfold Text.search_sku.
  pose proof (search_leftmost Text.match_sku label) as H.
  destruct (Text.search Text.match_sku label) as [w|]; [|exact H].
  destruct H as (pre & t & -> & Ht & Hleft).
  destruct (match_sku_shape _ _ Ht) as (a & b & ds & tail & post & -> & H).
  exists pre, post, a, b, ds, tail. intuition.
Qed.

Lemma extracted_sku_shape_witness :
  exists pre post : string,
    "SP | NT12780A | auto"%string = pre +:+ "NT12780A" +:+ post.
Proof.
  assert (snd (Script10.extract_identifiers (Some "SP | NT12780A | auto"%string))
          = Some "NT12780A"%string) as E by (vm_compute; reflexivity).
  pose proof (extracted_sku_shape "SP | NT12780A | auto" eq_refl) as H.
  rewrite E in H.
  destruct H as (pre & post & _ & _ & _ & _ & Hsplit & _).
  exists pre, post. exact Hsplit.
Defined.

(** ** The dictionaries of the loader *)

(** A loop that assigns [d[k] = v] for every contributing row. *)
Lemma overwriting_loop (pair : sheet_row -> option (string * string))
  (rows : list sheet_row) (d : gmap string string) (k : string) :
  foldl (fun d row => match pair row with
                      | Some (k', v) => <[k' := v]> d
                      | None => d
                      end) d rows !! k
  = match last_entry pair k rows with
    | Some v => Some v
    | None => d !! k
    end.
Proof.
  unfold last_entry. induction rows as [|row rows IH] using rev_ind.
  - reflexivity.
  - rewrite foldl_app, rev_app_distr. cbn [foldl rev app first_entry].
    destruct (pair row) as [[k' v]|]; [|exact IH].
    destruct (String.eqb k' k) eqn:E.
    + apply String.eqb_eq in E. subst k'. apply lookup_insert_eq.
    + apply String.eqb_neq in E. rewrite lookup_insert_ne by exact E. exact IH.
Qed.

(** A loop that assigns [d[k] = v] only when [k not in d]. *)
Lemma guarded_loop (pair : sheet_row -> option (string * string))
  (rows : list sheet_row) (d : gmap string string) (k : string) :
  foldl (fun d row => match pair row with
                      | Some (k', v) =>
                          if bool_decide (k' ∈ dom d) then d else <[k' := v]> d
                      | None => d
                      end) d rows !! k
  = match d !! k with
    | Some v => Some v
    | None => first_entry pair k rows
    end.
Proof.
  revert d. induction rows as [|row rows IH]; intros d.
  - cbn. now destruct (d !! k).
  - cbn [foldl first_entry]. rewrite IH. clear IH.
    destruct (pair row) as [[k' v]|]; [|reflexivity].
    case_bool_decide as Hdom.
    + destruct (String.eqb k' k) eqn:E; [|reflexivity].
      apply String.eqb_eq in E. subst k'.
      apply elem_of_dom in Hdom as [v' Hv']. now rewrite Hv'.
    + destruct (String.eqb k' k) eqn:E.
      * apply String.eqb_eq in E. subst k'. rewrite lookup_insert_eq.
        apply not_elem_of_dom in Hdom. now rewrite Hdom.
      * apply String.eqb_neq in E. now rewrite lookup_insert_ne by exact E.
Qed.

Lemma script11_loops_split perpetua_list all_asins_list :
  Script11.mappings perpetua_list all_asins_list
  = (foldl (fun d row => match sheet_pair row with
                         | Some (k', v) =>
                             if bool_decide (k' ∈ dom d) then d else <[k' := v]> d
                         | None => d
                         end)
       (foldl (fun d row => match sheet_pair row with
                            | Some (k', v) => <[k' := v]> d
                            | None => d
                            end) ∅ perpetua_list) all_asins_list,
     foldl (fun d row => match sheet_pair_by_asin row with
                         | Some (k', v) =>
                             if bool_decide (k' ∈ dom d) then d else <[k' := v]> d
                         | None => d
                         end)
       (foldl (fun d row => match sheet_pair_by_asin row with
                            | Some (k', v) => <[k' := v]> d
                            | None => d
                            end) ∅ perpetua_list) all_asins_list).
Proof.
  unfold Script11.mappings.
  generalize (∅ : gmap string string) at 1 3.
  generalize (∅ : gmap string string).
  induction perpetua_list as [|row rows IH]; intros d2 d1.
  - cbn [foldl]. revert d1 d2.
    induction all_asins_list as [|row rows IH]; intros d1 d2; [reflexivity|].
    cbn [foldl]. rewrite <- IH. f_equal.
    unfold Script11.add_all_asins_row, sheet_pair_by_asin, sheet_pair.
    destruct (SKU_cell row), (ASIN_cell row); reflexivity.
  - cbn [foldl]. rewrite <- IH. f_equal.
    unfold Script11.add_perpetua_row, sheet_pair_by_asin, sheet_pair.
    destruct (SKU_cell row), (ASIN_cell row); reflexivity.
Qed.

Lemma same_loop {A B : Type} (f g : A -> B -> A) (rows : list B) (d : A) :
  (forall d row, f d row = g d row) -> foldl f d rows = foldl g d rows.
Proof.
  intros H. revert d. induction rows as [|row rows IH]; intros d; [reflexivity|].
  cbn [foldl]. now rewrite H, IH.
Qed.

Lemma script11_lookup
  (perpetua_list all_asins_list : list sheet_row) (sku asin : string) :
  Script11.sku_to_asin perpetua_list all_asins_list !! sku
  = match last_entry sheet_pair sku perpetua_list with
    | Some a => Some a
    | None => first_entry sheet_pair sku all_asins_list
    end
  /\ Script11.asin_to_sku perpetua_list all_asins_list !! asin
     = match last_entry sheet_pair_by_asin asin perpetua_list with
       | Some s => Some s
       | None => first_entry sheet_pair_by_asin asin all_asins_list
       end.
Proof.
  unfold Script11.sku_to_asin, Script11.asin_to_sku.
  rewrite script11_loops_split. cbn [fst snd].
  rewrite !guarded_loop, !overwriting_loop, !lookup_empty.
  split.
  - now destruct (last_entry sheet_pair sku perpetua_list).
  - now destruct (last_entry sheet_pair_by_asin asin perpetua_list).
Qed.

(** X3: script 11's two dictionaries, read off the sheets.  An alias
    resolves to the identifier of the last row of the managed sheet that
    carries it; when no managed row carries it, to the identifier of the
    first row of the universe sheet that carries it; when no row carries it,
    to nothing.  [asin_to_sku] is built the same way with the columns
    swapped.  Rows with a missing SKU or ASIN cell contribute nothing. *)
Theorem script11_dictionaries_by_sheet_order
  (perpetua_list all_asins_list : list sheet_row) (sku asin : string) :
  Script11.sku_to_asin perpetua_list all_asins_list !! sku
  = match last_entry sheet_pair sku perpetua_list with
    | Some a => Some a
    | None => first_entry sheet_pair sku all_asins_list
    end
  /\ Script11.asin_to_sku perpetua_list all_asins_list !! asin
     = match last_entry sheet_pair_by_asin asin perpetua_list with
       | Some s => Some s
       | None => first_entry sheet_pair_by_asin asin all_asins_list
       end.
Proof. apply script11_lookup. Qed.

Lemma script10_lookup
  (perpetua_df all_asins_df : list sheet_row) (sku : string) :
  Script10.sku_to_asin perpetua_df all_asins_df !! sku
  = match last_entry sheet_pair sku all_asins_df with
    | Some a => Some a
    | None => last_entry sheet_pair sku perpetua_df
    end.
Proof.
  unfold Script10.sku_to_asin.
  rewrite !(same_loop Script10.add_row
              (fun d row => match sheet_pair row with
                            | Some (k', v) => <[k' := v]> d
                            | None => d
                            end)).
  - rewrite !overwriting_loop, lookup_empty.
    now destruct (last_entry sheet_pair sku perpetua_df).
  - intros d row. unfold Script10.add_row, sheet_pair.
    destruct (SKU_cell row), (ASIN_cell row); reflexivity.
  - intros d row. unfold Script10.add_row, sheet_pair.
    destruct (SKU_cell row), (ASIN_cell row); reflexivity.
Qed.

(** X4: script 10's dictionary, read off the sheets.  Both loops assign
    unconditionally, so an alias resolves to the identifier of the last row
    of the universe sheet that carries it, and to a row of the managed sheet
    only when no universe row carries it. *)
Theorem script10_dictionary_by_sheet_order
  (perpetua_df all_asins_df : list sheet_row) (sku : string) :
  Script10.sku_to_asin perpetua_df all_asins_df !! sku
  = match last_entry sheet_pair sku all_asins_df with
    | Some a => Some a
    | None => last_entry sheet_pair sku perpetua_df
    end.
Proof. apply script10_lookup. Qed.

(** ** The cohort and the identifier a classifier returns *)

(** X5: script 11's classifier returns an identifier of the cohort it
    reports: with Perpetua an identifier of the managed set, with
    Non-Perpetua an identifier of the non-managed set (the extracted one, or
    the one the alias resolves to); with Unknown it returns the extracted
    identifier, if any, unchanged.  The alias returned is always the
    extracted one. *)
Theorem script11_identifier_belongs_to_cohort
  (perpetua_list all_asins_list : list sheet_row) (campaign_name : option string) :
  let '(asin, sku, t) :=
    Script11.extract_and_classify perpetua_list all_asins_list campaign_name in
  sku = campaign_name ≫= Text.search_sku
  /\ match t with
     | Perpetua =>
         exists a, asin = Some a /\ a ∈ Script11.perpetua_asins perpetua_list
     | NonPerpetua =>
         exists a, asin = Some a
                   /\ a ∈ Script11.non_perpetua_asins perpetua_list all_asins_list
     | Unknown => asin = campaign_name ≫= Text.search_asin
     end.
Proof.
  unfold Script11.extract_and_classify.
  destruct campaign_name as [name|]; cbn [mbind option_bind]; [|auto].
  rewrite truthy_search_asin, truthy_search_sku.
  destruct (Text.search_asin name) as [a|];
    destruct (Text.search_sku name) as [s|];
    repeat case_bool_decide;
    try destruct (Script11.sku_to_asin perpetua_list all_asins_list !! s)
      as [m|];
    repeat case_bool_decide; split; eauto.
Qed.

(** X6: script 10's classifier.  Non-Perpetua always comes with an
    identifier of the non-managed set.  Perpetua comes either with the
    extracted identifier, which is then in the managed set, or, when the
    extracted identifier is in neither set, from the alias being one of
    [perpetua_skus]; the identifier returned is then whatever [sku_to_asin]
    holds for the alias, managed or not, or nothing.  Unknown returns the
    extracted identifier unchanged. *)
Theorem script10_cohort_and_identifier
  (perpetua_df all_asins_df : list sheet_row) (campaign_name : option string) :
  let '(t, asin, sku) :=
    Script10.classify_campaign perpetua_df all_asins_df campaign_name in
  let extracted := campaign_name ≫= Text.search_asin in
  sku = campaign_name ≫= Text.search_sku
  /\ match t with
     | Perpetua =>
         (asin = extracted
          /\ exists a, asin = Some a /\ a ∈ Script10.perpetua_asins perpetua_df)
         \/ (exists s, sku = Some s
                       /\ s ∈ Script10.perpetua_skus perpetua_df
                       /\ asin = Script10.sku_to_asin perpetua_df all_asins_df !! s
                       /\ forall a, extracted = Some a ->
                            (a ∉ Script10.perpetua_asins perpetua_df)
                            /\ (a ∉ Script10.non_perpetua_asins
                                      perpetua_df all_asins_df))
     | NonPerpetua =>
         exists a, asin = Some a
                   /\ a ∈ Script10.non_perpetua_asins perpetua_df all_asins_df
     | Unknown => asin = extracted
     end.
Proof.
  unfold Script10.classify_campaign, Script10.extract_identifiers.
  destruct campaign_name as [name|]; cbn [mbind option_bind];
    [|cbn; auto].
  rewrite truthy_search_asin, truthy_search_sku.
  destruct (Text.search_asin name) as [a|];
    destruct (Text.search_sku name) as [s|];
    repeat case_bool_decide;
    try destruct (Script10.sku_to_asin perpetua_df all_asins_df !! s)
      as [m|] eqn:Em;
    repeat case_bool_decide; (split; [reflexivity|]);
    try (eauto; fail);
    first [ left; split; [reflexivity | eauto; fail]
          | right; exists s;
            split; [reflexivity | split; [assumption | split; [now rewrite Em|]]];
            intros ? Hx; first [discriminate Hx | injection Hx as <-; auto] ].
Qed.

(** X7: a label whose identifier is in neither set and whose alias is one
    of [perpetua_skus].  Script 10 reports Perpetua and returns the
    identifier of the last universe row that carries the alias, whichever
    set that identifier is in; script 11, on the same sheets, returns the
    identifier of the last managed row that carries the alias when that
    identifier is managed. *)
Theorem managed_alias_identifier_differs_between_scripts
  (perpetua_df all_asins_df : list sheet_row) (name s a a' : string) :
  Text.search_sku name = Some s ->
  (forall x, Text.search_asin name = Some x ->
             (x ∉ Script10.perpetua_asins perpetua_df)
             /\ (x ∉ Script10.non_perpetua_asins perpetua_df all_asins_df)) ->
  s ∈ Script10.perpetua_skus perpetua_df ->
  last_entry sheet_pair s all_asins_df = Some a ->
  last_entry sheet_pair s perpetua_df = Some a' ->
  a' ∈ Script11.perpetua_asins perpetua_df ->
  Script10.classify_campaign perpetua_df all_asins_df (Some name)
  = (Perpetua, Some a, Some s)
  /\ Script11.extract_and_classify perpetua_df all_asins_df (Some name)
     = (Some a', Some s, Perpetua).
Proof.
  intros Hs Hx Hskus Hu Hm Ha'. split.
  - unfold Script10.classify_campaign, Script10.extract_identifiers.
    rewrite truthy_search_asin, truthy_search_sku, Hs.
    rewrite (bool_decide_eq_true_2 _ Hskus).
    rewrite script10_lookup, Hu.
    destruct (Text.search_asin name) as [x|]; [|reflexivity].
    destruct (Hx x eq_refl) as [Hp Hn].
    now rewrite (bool_decide_eq_false_2 _ Hp), (bool_decide_eq_false_2 _ Hn).
  - unfold Script11.extract_and_classify.
    rewrite truthy_search_asin, truthy_search_sku, Hs.
    rewrite (proj1 (script11_lookup perpetua_df all_asins_df s s)), Hm.
    rewrite (bool_decide_eq_true_2 _ Ha').
    destruct (Text.search_asin name) as [x|]; [|reflexivity].
    destruct (Hx x eq_refl) as [Hp Hn].
    unfold Script11.perpetua_asins, Script11.non_perpetua_asins,
      Script11.all_asins.
    unfold Script10.perpetua_asins, Script10.non_perpetua_asins,
      Script10.all_asins in Hp, Hn.
    now rewrite (bool_decide_eq_false_2 _ Hp), (bool_decide_eq_false_2 _ Hn).
Qed.

Lemma managed_alias_identifier_differs_between_scripts_witness :
  let perpetua_df := [ Examples.ref "NT100A" "B000000001" ] in
  let all_asins_df :=
    [ Examples.ref "NT100A" "B000000002"; Examples.ref "SD7" "B000000001" ] in
  Script10.classify_campaign perpetua_df all_asins_df (Some "SP | NT100A | auto")
  = (Perpetua, Some "B000000002", Some "NT100A")
  /\ Script11.extract_and_classify perpetua_df all_asins_df
       (Some "SP | NT100A | auto")
     = (Some "B000000001", Some "NT100A", Perpetua).
Proof.
  intros perpetua_df all_asins_df.
  refine (managed_alias_identifier_differs_between_scripts perpetua_df
            all_asins_df "SP | NT100A | auto" "NT100A" "B000000002"
            "B000000001" _ _ _ _ _ _).
  - vm_compute. reflexivity.
  - intros x Hx. vm_compute in Hx. discriminate Hx.
  - apply (bool_decide_unpack _). vm_compute. exact I.
  - vm_compute. reflexivity.
  - vm_compute. reflexivity.
  - apply (bool_decide_unpack _). vm_compute. exact I.
Defined.

(** X8: the classifiers agree on the identifier route.  Whenever script 1
    puts a label in a cohort (its extracted identifier is in one of the two
    sets), scripts 10 and 11 put it in the same cohort and return that
    identifier; labels that scripts 10 or 11 leave Unknown are Unknown for
    script 1 too. *)
Theorem classifiers_agree_on_identifier_route
  (perpetua_df all_asins_df : list sheet_row) (label : string) :
  let t1 :=
    Script1.classify_campaign perpetua_df all_asins_df
      (Script1.extract_asin (Some label)) in
  let r10 := Script10.classify_campaign perpetua_df all_asins_df (Some label) in
  let r11 := Script11.extract_and_classify perpetua_df all_asins_df (Some label) in
  (t1 <> Unknown ->
   r10 = (t1, Text.search_asin label, Text.search_sku label)
   /\ r11 = (Text.search_asin label, Text.search_sku label, t1))
  /\ (r10.1.1 = Unknown -> t1 = Unknown)
  /\ (r11.2 = Unknown -> t1 = Unknown).
Proof.
  cbv zeta.
  assert (Script1.classify_campaign perpetua_df all_asins_df
            (Script1.extract_asin (Some label)) <> Unknown ->
          Script10.classify_campaign perpetua_df all_asins_df (Some label)
          = (Script1.classify_campaign perpetua_df all_asins_df
               (Script1.extract_asin (Some label)),
             Text.search_asin label, Text.search_sku label)
          /\ Script11.extract_and_classify perpetua_df all_asins_df (Some label)
             = (Text.search_asin label, Text.search_sku label,
                Script1.classify_campaign perpetua_df all_asins_df
                  (Script1.extract_asin (Some label)))) as H.
  { unfold Script1.classify_campaign, Script1.extract_asin,
      Script10.classify_campaign, Script10.extract_identifiers,
      Script11.extract_and_classify.
    rewrite truthy_search_asin.
    destruct (Text.search_asin label) as [a|]; [|congruence].
    change (Script10.perpetua_asins perpetua_df)
      with (Script1.perpetua_asins perpetua_df).
    change (Script11.perpetua_asins perpetua_df)
      with (Script1.perpetua_asins perpetua_df).
    change (Script10.non_perpetua_asins perpetua_df all_asins_df)
      with (Script1.non_perpetua_asins perpetua_df all_asins_df).
    change (Script11.non_perpetua_asins perpetua_df all_asins_df)
      with (Script1.non_perpetua_asins perpetua_df all_asins_df).
    repeat case_bool_decide; try congruence; auto. }
  split; [exact H|].
  destruct (Script1.classify_campaign perpetua_df all_asins_df
              (Script1.extract_asin (Some label))) eqn:E1;
    (split; [|]); try reflexivity; intros Hu;
    destruct H as [H10 H11]; try discriminate;
    rewrite ?H10, ?H11 in Hu; discriminate Hu.
Qed.

Lemma classifiers_agree_on_identifier_route_witness :
  let perpetua_df := [ Examples.ref "NT100A" "B000000001" ] in
  let all_asins_df := [ Examples.ref "SD7" "B000000002" ] in
  Script11.extract_and_classify perpetua_df all_asins_df
    (Some "SP | B000000002 | NT100A")
  = (Some "B000000002", Some "NT100A", NonPerpetua).
Proof.
  intros perpetua_df all_asins_df.
  refine (proj2 (proj1
    (classifiers_agree_on_identifier_route perpetua_df all_asins_df
       "SP | B000000002 | NT100A") _)).
  vm_compute. discriminate.
Defined.

(** ** [drop_duplicates] and the combined frame of script 11 *)

(** The rows kept after the keys in [seen] are the rows kept from scratch
    whose key is not in [extra], when [seen] holds the keys of [seen0] and
    of [extra]. *)
Lemma drop_duplicates_from_filter
  (df : list record) (seen seen0 extra : list _) :
  (forall k, k ∈ seen <-> k ∈ seen0 \/ k ∈ extra) ->
  Script11.drop_duplicates_from seen df
  = filter (fun r => Script11.dedup_key r ∉ extra)
      (Script11.drop_duplicates_from seen0 df).
Proof.
  revert seen seen0.
  induction df as [|r df IH]; intros seen seen0 Hs; [reflexivity|].
  cbn [Script11.drop_duplicates_from].
  destruct (decide (Script11.dedup_key r ∈ seen0)) as [H0|H0].
  - rewrite (bool_decide_eq_true_2 _ H0).
    rewrite (bool_decide_eq_true_2 (Script11.dedup_key r ∈ seen));
      [|apply Hs; auto].
    now apply IH.
  - rewrite (bool_decide_eq_false_2 _ H0).
    destruct (decide (Script11.dedup_key r ∈ extra)) as [He|He].
    + rewrite (bool_decide_eq_true_2 (Script11.dedup_key r ∈ seen));
        [|apply Hs; auto].
      rewrite filter_cons_False by auto.
      apply IH. intros k. rewrite Hs, elem_of_cons.
      split; [tauto|]. intros [[->|?]|?]; auto.
    + rewrite (bool_decide_eq_false_2 (Script11.dedup_key r ∈ seen));
        [|rewrite Hs; tauto].
      rewrite filter_cons_True by auto.
      f_equal. apply IH. intros k. rewrite !elem_of_cons, Hs. tauto.
Qed.

Lemma drop_duplicates_from_same_keys (df : list record) (seen seen' : list _) :
  (forall k, k ∈ seen <-> k ∈ seen') ->
  Script11.drop_duplicates_from seen df = Script11.drop_duplicates_from seen' df.
Proof.
  intros Hs.
  rewrite (drop_duplicates_from_filter df seen [] seen),
    (drop_duplicates_from_filter df seen' [] seen).
  - reflexivity.
  - intros k. rewrite <- Hs, elem_of_nil. tauto.
  - intros k. rewrite elem_of_nil. tauto.
Qed.

Lemma drop_duplicates_from_app (l1 l2 : list record) (seen : list _) :
  Script11.drop_duplicates_from seen (l1 ++ l2)
  = Script11.drop_duplicates_from seen l1
    ++ Script11.drop_duplicates_from ((Script11.dedup_key <$> l1) ++ seen) l2.
Proof.
  revert seen. induction l1 as [|r l1 IH]; intros seen; [reflexivity|].
  cbn [app fmap list_fmap Script11.drop_duplicates_from].
  case_bool_decide as Hr.
  - rewrite IH. f_equal. apply drop_duplicates_from_same_keys.
    intros k. rewrite elem_of_cons. split; [auto|].
    intros [->|?]; [|assumption]. apply elem_of_app. auto.
  - cbn [app]. f_equal. rewrite IH. f_equal.
    apply drop_duplicates_from_same_keys.
    intros k. rewrite !elem_of_cons, !elem_of_app, elem_of_cons. tauto.
Qed.

Lemma drop_duplicates_from_keys (df : list record) (seen : list _) :
  NoDup (Script11.dedup_key <$> Script11.drop_duplicates_from seen df)
  /\ (forall r, r ∈ Script11.drop_duplicates_from seen df ->
                r ∈ df /\ (Script11.dedup_key r ∉ seen)).
Proof.
  revert seen. induction df as [|r df IH]; intros seen.
  - split; [constructor|]. intros r Hr. now apply elem_of_nil in Hr.
  - cbn [Script11.drop_duplicates_from]. case_bool_decide as Hr.
    + destruct (IH seen) as [Hn Hin]. split; [assumption|].
      intros x Hx. destruct (Hin x Hx). rewrite elem_of_cons. auto.
    + destruct (IH (Script11.dedup_key r :: seen)) as [Hn Hin].
      split.
      * cbn [fmap list_fmap]. constructor; [|assumption].
        intros Hk. apply list_elem_of_fmap in Hk as (x & Hkx & Hx).
        destruct (Hin x Hx) as [_ Hnot]. apply Hnot.
        rewrite elem_of_cons. auto.
      * intros x Hx. apply elem_of_cons in Hx as [->|Hx].
        -- rewrite elem_of_cons. auto.
        -- destruct (Hin x Hx) as [Hxin Hnot].
           rewrite elem_of_cons in Hnot. rewrite elem_of_cons. auto.
Qed.

Lemma drop_duplicates_from_sublist (df : list record) (seen : list _) :
  sublist (Script11.drop_duplicates_from seen df) df.
Proof.
  revert seen. induction df as [|r df IH]; intros seen; [constructor|].
  cbn [Script11.drop_duplicates_from]. case_bool_decide.
  - apply sublist_cons. apply IH.
  - apply sublist_skip. apply IH.
Qed.

Lemma drop_duplicates_from_first (df : list record) (seen : list _) k :
  head (filter (fun r => Script11.dedup_key r = k)
          (Script11.drop_duplicates_from seen df))
  = if bool_decide (k ∈ seen) then None
    else head (filter (fun r => Script11.dedup_key r = k) df).
Proof.
  revert seen. induction df as [|r df IH]; intros seen.
  - cbn. now case_bool_decide.
  - cbn [Script11.drop_duplicates_from].
    destruct (decide (Script11.dedup_key r = k)) as [Hk|Hk].
    + rewrite (filter_cons_True _ r df) by assumption.
      case_bool_decide as Hr.
      * rewrite IH. rewrite <- Hk. now rewrite (bool_decide_eq_true_2 _ Hr).
      * rewrite filter_cons_True by assumption.
        rewrite <- Hk. now rewrite (bool_decide_eq_false_2 _ Hr).
    + rewrite (filter_cons_False _ r df) by assumption.
      case_bool_decide as Hr.
      * apply IH.
      * rewrite filter_cons_False by assumption. rewrite IH.
        destruct (decide (k ∈ seen)) as [Hs|Hs].
        -- rewrite (bool_decide_eq_true_2 _ Hs).
           rewrite (bool_decide_eq_true_2 (k ∈ Script11.dedup_key r :: seen));
             [reflexivity|].
           rewrite elem_of_cons. auto.
        -- rewrite (bool_decide_eq_false_2 _ Hs).
           rewrite (bool_decide_eq_false_2 (k ∈ Script11.dedup_key r :: seen));
             [reflexivity|].
           rewrite elem_of_cons. intros [->|?]; auto.
Qed.

Lemma drop_duplicates_from_fixed (df : list record) (seen : list _) :
  NoDup (Script11.dedup_key <$> df) ->
  (forall r, r ∈ df -> Script11.dedup_key r ∉ seen) ->
  Script11.drop_duplicates_from seen df = df.
Proof.
  revert seen. induction df as [|r df IH]; intros seen Hn Hs; [reflexivity|].
  cbn [Script11.drop_duplicates_from].
  cbn [fmap list_fmap] in Hn. apply NoDup_cons in Hn as [Hr Hn].
  rewrite (bool_decide_eq_false_2 (Script11.dedup_key r ∈ seen));
    [|apply Hs; rewrite elem_of_cons; auto].
  f_equal. apply IH; [assumption|].
  intros x Hx. rewrite elem_of_cons. intros [Hk|Hk].
  - apply Hr. rewrite <- Hk. apply list_elem_of_fmap. eauto.
  - apply (Hs x); [rewrite elem_of_cons; auto | assumption].
Qed.

(** X9: [drop_duplicates(subset=['Date', 'Campaign Name', 'Advertised ASIN'],
    keep='first')] keeps, for every key, exactly the first row of the frame
    that carries it: the result is a subsequence of the frame, no two of its
    rows share a key, and for each key its first row with that key is the
    first row of the frame with that key (none when the frame has none). *)
Theorem drop_duplicates_keeps_first_of_each_key (df : list record) :
  sublist (Script11.drop_duplicates df) df
  /\ NoDup (Script11.dedup_key <$> Script11.drop_duplicates df)
  /\ forall k,
       head (filter (fun r => Script11.dedup_key r = k)
               (Script11.drop_duplicates df))
       = head (filter (fun r => Script11.dedup_key r = k) df).
Proof.
  unfold Script11.drop_duplicates. split; [|split].
  - apply drop_duplicates_from_sublist.
  - apply drop_duplicates_from_keys.
  - intros k. rewrite drop_duplicates_from_first.
    rewrite (bool_decide_eq_false_2 (k ∈ [])); [reflexivity|].
    apply not_elem_of_nil.
Qed.

(** X10: [drop_duplicates] over a concatenation.  The rows of the first
    frame are deduplicated on their own; a row of the second frame is kept
    only when its key appears nowhere in the first frame (and it is the
    first of its key in the second).  Running [drop_duplicates] on its own
    result changes nothing. *)
Theorem drop_duplicates_prefers_first_frame (l1 l2 : list record) :
  Script11.drop_duplicates (l1 ++ l2)
  = Script11.drop_duplicates l1
    ++ filter (fun r => Script11.dedup_key r ∉ Script11.dedup_key <$> l1)
         (Script11.drop_duplicates l2)
  /\ Script11.drop_duplicates (Script11.drop_duplicates l1)
     = Script11.drop_duplicates l1.
Proof.
  unfold Script11.drop_duplicates. split.
  - rewrite drop_duplicates_from_app. f_equal.
    apply drop_duplicates_from_filter.
    intros k. rewrite elem_of_app, elem_of_nil. tauto.
  - apply drop_duplicates_from_fixed.
    + apply drop_duplicates_from_keys.
    + intros r _. apply not_elem_of_nil.
Qed.

Lemma drop_duplicates_covers (df : list record) (r : record) :
  r ∈ df ->
  exists r', r' ∈ Script11.drop_duplicates df
             /\ r' ∈ df
             /\ Script11.dedup_key r' = Script11.dedup_key r.
Proof.
  intros Hr.
  pose proof (drop_duplicates_from_first df [] (Script11.dedup_key r)) as Hh.
  rewrite (bool_decide_eq_false_2 (_ ∈ [])) in Hh by apply not_elem_of_nil.
  destruct (filter (fun x => Script11.dedup_key x = Script11.dedup_key r) df)
    as [|r' rest] eqn:Ef.
  - exfalso. apply (not_elem_of_nil r). rewrite <- Ef.
    apply list_elem_of_filter. auto.
  - cbn [head] in Hh. apply head_Some_elem_of in Hh.
    apply list_elem_of_filter in Hh as [Hk Hin].
    exists r'. split; [exact Hin|]. split; [|exact Hk].
    now apply (drop_duplicates_from_keys df []).
Qed.

Lemma filter_all {A} (P : A -> Prop) `{forall x, Decision (P x)} (l : list A) :
  (forall x, x ∈ l -> P x) -> filter P l = l.
Proof.
  induction l as [|x l IH]; intros Hl; [reflexivity|].
  rewrite filter_cons_True by (apply Hl; rewrite elem_of_cons; auto).
  f_equal. apply IH. intros y Hy. apply Hl. rewrite elem_of_cons. auto.
Qed.

Lemma known_only_elem (df : list record) (r : record) :
  r ∈ known_only df <-> r ∈ df /\ Advertising_Type r <> Unknown.
Proof.
  unfold known_only. rewrite list_elem_of_filter.
  destruct (Advertising_Type r); cbn; split; intros [? ?];
    split; auto; congruence.
Qed.

Lemma script11_combined_split
  (perpetua_list all_asins_list : list sheet_row)
  (campaigns ad_products : list record) :
  Script11.combined perpetua_list all_asins_list campaigns ad_products
  = Script11.drop_duplicates
      (filter (fun r => is_Some (Date r))
         (Script11.campaigns_known perpetua_list all_asins_list campaigns))
    ++ filter
         (fun r => Script11.dedup_key r ∉
            Script11.dedup_key <$>
              filter (fun r => is_Some (Date r))
                (Script11.campaigns_known perpetua_list all_asins_list campaigns))
         (Script11.drop_duplicates
            (filter (fun r => is_Some (Date r))
               (Script11.ad_products_known perpetua_list all_asins_list
                  ad_products))).
Proof.
  unfold Script11.combined, Script11.drop_duplicates.
  rewrite filter_app, drop_duplicates_from_app. f_equal.
  apply drop_duplicates_from_filter.
  intros k. rewrite elem_of_app, elem_of_nil. tauto.
Qed.

Lemma script11_combined_elem
  (perpetua_list all_asins_list : list sheet_row)
  (campaigns ad_products : list record) (r : record) :
  r ∈ Script11.combined perpetua_list all_asins_list campaigns ad_products ->
  (r ∈ Script11.campaigns_known perpetua_list all_asins_list campaigns
   \/ r ∈ Script11.ad_products_known perpetua_list all_asins_list ad_products)
  /\ is_Some (Date r).
Proof.
  unfold Script11.combined, Script11.drop_duplicates. intros Hr.
  apply (drop_duplicates_from_keys _ []) in Hr as [Hr _].
  apply list_elem_of_filter in Hr as [Hd Hr].
  apply elem_of_app in Hr. auto.
Qed.

(** X11: the combined frame of script 11.  Every row of [combined] is
    dated and tagged Perpetua or Non-Perpetua, and no two rows share the
    key (Date, Campaign Name, Advertised ASIN).  The campaign report is
    primary: for every dated row of [campaigns_known], [combined] holds a
    row of [campaigns_known] with the same key. *)
Theorem script11_combined_invariants
  (perpetua_list all_asins_list : list sheet_row)
  (campaigns ad_products : list record) :
  let combined :=
    Script11.combined perpetua_list all_asins_list campaigns ad_products in
  let campaigns_known :=
    Script11.campaigns_known perpetua_list all_asins_list campaigns in
  (forall r, r ∈ combined ->
     (Advertising_Type r = Perpetua \/ Advertising_Type r = NonPerpetua)
     /\ is_Some (Date r))
  /\ NoDup (Script11.dedup_key <$> combined)
  /\ (forall r, r ∈ campaigns_known -> is_Some (Date r) ->
        exists r', r' ∈ combined /\ r' ∈ campaigns_known
                   /\ Script11.dedup_key r' = Script11.dedup_key r).
Proof.
  cbv zeta. split; [|split].
  - intros r Hr. apply script11_combined_elem in Hr as [Hr Hd].
    split; [|exact Hd].
    assert (Advertising_Type r <> Unknown) as Hk.
    { destruct Hr as [Hr|Hr];
        [unfold Script11.campaigns_known in Hr
        |unfold Script11.ad_products_known in Hr];
        now apply known_only_elem in Hr. }
    destruct (Advertising_Type r); auto. congruence.
  - apply (drop_duplicates_from_keys _ []).
  - intros r Hr Hd. rewrite script11_combined_split.
    destruct (drop_duplicates_covers
                (filter (fun r => is_Some (Date r))
                   (Script11.campaigns_known perpetua_list all_asins_list
                      campaigns)) r) as (r' & Hin & Hr' & Hk).
    { apply list_elem_of_filter. auto. }
    exists r'. split; [apply elem_of_app; auto|].
    split; [|exact Hk]. now apply list_elem_of_filter in Hr' as [_ ?].
Qed.

(** X12: when the campaign report has no [Advertised ASIN] column (the
    cell is missing in every campaign row), no advertised-products row is
    ever dropped in favour of a campaign row: [combined] is the deduplicated
    campaign rows followed by the deduplicated advertised-products rows, so
    a campaign that is in both reports enters the totals once from each. *)
Theorem script11_reports_are_stacked
  (perpetua_list all_asins_list : list sheet_row)
  (campaigns ad_products : list record) :
  (forall r, r ∈ campaigns -> Advertised_ASIN r = None) ->
  Script11.combined perpetua_list all_asins_list campaigns ad_products
  = Script11.drop_duplicates
      (filter (fun r => is_Some (Date r))
         (Script11.campaigns_known perpetua_list all_asins_list campaigns))
    ++ Script11.drop_duplicates
         (filter (fun r => is_Some (Date r))
            (Script11.ad_products_known perpetua_list all_asins_list
               ad_products)).
Proof.
  intros Hc.
  rewrite script11_combined_split. f_equal. apply filter_all.
  intros r Hr Hk.
  apply (drop_duplicates_from_keys _ []) in Hr as [Hr _].
  apply list_elem_of_filter in Hr as [_ Hr].
  unfold Script11.ad_products_known in Hr.
  apply known_only_elem in Hr as [Hr Hu].
  apply list_elem_of_fmap in Hr as (r0 & -> & _).
  apply list_elem_of_fmap in Hk as (c & Hkc & Hcin).
  apply list_elem_of_filter in Hcin as [_ Hcin].
  unfold Script11.campaigns_known in Hcin.
  apply known_only_elem in Hcin as [Hcin _].
  apply list_elem_of_fmap in Hcin as (c0 & -> & Hc0).
  unfold Script11.dedup_key in Hkc.
  assert (Advertised_ASIN (Script11.tag_campaign perpetua_list all_asins_list c0)
          = None) as Hnone.
  { unfold Script11.tag_campaign.
    destruct (Script11.extract_and_classify _ _ _) as [[? ?] ?].
    cbn. now apply Hc. }
  rewrite Hnone in Hkc.
  unfold Script11.tag_ad_product in Hkc, Hu. cbn in Hkc, Hu.
  destruct (Advertised_ASIN r0); [discriminate Hkc | now apply Hu].
Qed.

Lemma script11_reports_are_stacked_witness :
  let perpetua_list := [ Examples.ref "NT1" "B000000001" ] in
  let campaign := Examples.row "SP | B000000001 | auto" 100 250 5 40 1000 in
  let ad_product :=
    {| Date := Some 0%Z; Campaign_Name := Some "SP | B000000001 | auto"%string;
       Advertised_ASIN := Some "B000000001"%string;
       ASIN := None; SKU := None; Advertising_Type := Unknown;
       Spend := 100; Sales := 250; Orders := 5; Clicks := 40;
       Impressions := 1000; Cost_Per_Click := 0;
       Reported_ACOS := None; Reported_ROAS := None; Reported_CTR := None |} in
  length (Script11.combined perpetua_list perpetua_list [campaign] [ad_product])
  = 2%nat.
Proof.
  intros perpetua_list campaign ad_product.
  rewrite (script11_reports_are_stacked perpetua_list perpetua_list
             [campaign] [ad_product]).
  - vm_compute. reflexivity.
  - intros r Hr. apply list_elem_of_singleton in Hr as ->. reflexivity.
Defined.

Lemma script11_combined_known
  (perpetua_list all_asins_list : list sheet_row)
  (campaigns ad_products : list record) :
  known_only
    (Script11.combined perpetua_list all_asins_list campaigns ad_products)
  = Script11.combined perpetua_list all_asins_list campaigns ad_products.
Proof.
  unfold known_only. apply filter_all. intros r Hr.
  apply script11_combined_elem in Hr as [[Hr|Hr] _];
    [unfold Script11.campaigns_known in Hr
    |unfold Script11.ad_products_known in Hr];
    apply known_only_elem in Hr as [_ Hu];
    destruct (Advertising_Type r); cbn; congruence.
Qed.

(** X13: the two cohorts exhaust [combined].  The rows of [combined] are,
    row for row, the rows of the two subsets that script 11 hands to
    [calc_all_metrics]: no row of the combined frame is left out of the
    comparison and none is counted in both cohorts.  When the five summed
    columns of [combined] hold whole numbers (so that the sums of the
    program are exact), the total reported for Perpetua plus the total
    reported for Non-Perpetua is the sum of the column over [combined]. *)
Theorem script11_cohorts_exhaust_combined
  (perpetua_list all_asins_list : list sheet_row)
  (campaigns ad_products : list record)
  (campaign_columns ad_product_columns : gset string) :
  let combined :=
    Script11.combined perpetua_list all_asins_list campaigns ad_products in
  let perpetua :=
    Script11.perpetua perpetua_list all_asins_list campaigns ad_products
      campaign_columns ad_product_columns in
  let non_perpetua :=
    Script11.non_perpetua perpetua_list all_asins_list campaigns ad_products
      campaign_columns ad_product_columns in
  combined ≡ₚ of_type Perpetua combined ++ of_type NonPerpetua combined
  /\ (whole_number_columns combined ->
      Script11.Total_Spend perpetua + Script11.Total_Spend non_perpetua
        == Pandas.sum (Spend <$> combined)
      /\ Script11.Total_Sales perpetua + Script11.Total_Sales non_perpetua
        == Pandas.sum (Sales <$> combined)
      /\ Script11.Total_Orders perpetua + Script11.Total_Orders non_perpetua
        == Pandas.sum (Orders <$> combined)
      /\ Script11.Total_Clicks perpetua + Script11.Total_Clicks non_perpetua
        == Pandas.sum (Clicks <$> combined)
      /\ Script11.Total_Impressions perpetua
         + Script11.Total_Impressions non_perpetua
        == Pandas.sum (Impressions <$> combined)).
Proof.
  cbv zeta.
  pose proof (script11_combined_known perpetua_list all_asins_list campaigns
                ad_products) as Hk.
  split.
  - rewrite <- Hk at 1. apply cohorts_partition.
  - intros _.
    unfold Script11.perpetua, Script11.non_perpetua, Script11.calc_all_metrics.
    cbn [Script11.Total_Spend Script11.Total_Sales Script11.Total_Orders
         Script11.Total_Clicks Script11.Total_Impressions].
    rewrite !sum_of_types, Hk. repeat split; reflexivity.
Qed.

Lemma script11_cohorts_exhaust_combined_witness :
  let perpetua_list := [ Examples.ref "NT1" "B000000001" ] in
  let all_asins_list :=
    [ Examples.ref "NT1" "B000000001"; Examples.ref "NT2" "B000000002" ] in
  let campaigns :=
    [ Examples.row "SP | B000000001 | auto" 100 250 5 40 1000;
      Examples.row "SP | B000000002 | auto" 50 50 1 20 400 ] in
  Script11.Total_Clicks
    (Script11.perpetua perpetua_list all_asins_list campaigns [] ∅ ∅)
  + Script11.Total_Clicks
      (Script11.non_perpetua perpetua_list all_asins_list campaigns [] ∅ ∅)
  == Pandas.sum
       (Clicks <$> Script11.combined perpetua_list all_asins_list campaigns []).
Proof.
  intros perpetua_list all_asins_list campaigns.
  refine (proj1 (proj2 (proj2 (proj2
    (proj2 (script11_cohorts_exhaust_combined perpetua_list all_asins_list
              campaigns [] ∅ ∅) _))))).
  assert (Script11.combined perpetua_list all_asins_list campaigns []
          = Script11.tag_campaign perpetua_list all_asins_list <$> campaigns)
    as -> by (vm_compute; reflexivity).
  unfold whole_number_columns.
  repeat match goal with |- _ /\ _ => split end;
    apply whole_numbers_check; repeat constructor; vm_compute; reflexivity.
Defined.

(** ** The ratios of [calc_all_metrics] *)

Lemma guard_cases (x : Q) :
  (Pandas.Qlt_bool 0 x = true /\ 0 < x)
  \/ (Pandas.Qlt_bool 0 x = false /\ x <= 0).
Proof.
  destruct (Pandas.Qlt_bool 0 x) eqn:E.
  - left. split; [reflexivity|]. now apply Qlt_bool_iff.
  - right. split; [reflexivity|]. apply Qnot_lt_le. intros H.
    apply Qlt_bool_iff in H. congruence.
Qed.

Lemma sum_Permutation (col col' : list Q) :
  col ≡ₚ col' -> Pandas.sum col == Pandas.sum col'.
Proof.
  unfold Pandas.sum.
  induction 1 as [|x l l' _ IH|x y l|l l' l'' _ IH1 _ IH2]; cbn [foldr].
  - reflexivity.
  - now rewrite IH.
  - ring.
  - now rewrite IH1.
Qed.

Lemma nunique_Permutation (col col' : list (option string)) :
  col ≡ₚ col' -> Pandas.nunique col = Pandas.nunique col'.
Proof.
  intros H. unfold Pandas.nunique. f_equal.
  apply list_to_set_perm_L. now apply omap_Permutation.
Qed.

(** X15: on rows whose five summed columns hold whole numbers (so that
    the sums of the program are exact), [calc_all_metrics] does not depend
    on the order of the rows it is given: on a permutation of the subset the
    two counts are the same, and the five totals, the eight ratios and the
    two per-ASIN figures are equal as numbers. *)
Theorem calc_all_metrics_row_order
  (columns : gset string) (subset subset' : list record) :
  whole_number_columns subset ->
  subset ≡ₚ subset' ->
  let m := Script11.calc_all_metrics columns subset in
  let m' := Script11.calc_all_metrics columns subset' in
  Script11.same_totals_and_ratios m' m
  /\ Script11.Unique_Campaigns m' = Script11.Unique_Campaigns m
  /\ Script11.Unique_ASINs m' = Script11.Unique_ASINs m
  /\ Script11.Spend_Per_ASIN m' == Script11.Spend_Per_ASIN m
  /\ Script11.Sales_Per_ASIN m' == Script11.Sales_Per_ASIN m.
Proof.
  intros _ Hp. cbv zeta.
  assert (forall f : record -> Q,
            Pandas.sum (f <$> subset') == Pandas.sum (f <$> subset)) as Hsum.
  { intros f. apply sum_Permutation. now apply fmap_Permutation. }
  assert (forall f : record -> option string,
            Pandas.nunique (f <$> subset') = Pandas.nunique (f <$> subset))
    as Hn.
  { intros f. apply nunique_Permutation. now apply fmap_Permutation. }
  unfold Script11.same_totals_and_ratios, Script11.calc_all_metrics.
  cbn [Script11.Total_Spend Script11.Total_Sales Script11.Total_Clicks
       Script11.Total_Impressions Script11.Total_Orders
       Script11.ROAS Script11.ACOS Script11.CPC Script11.CVR Script11.CTR
       Script11.CPM Script11.CPA Script11.AOV
       Script11.Unique_Campaigns Script11.Unique_ASINs
       Script11.Spend_Per_ASIN Script11.Sales_Per_ASIN].
  rewrite !Hn.
  repeat match goal with |- _ /\ _ => split end;
    try apply Hsum;
    try (apply guarded_quotient_compat; apply Hsum);
    try (apply guarded_per_mille_compat; apply Hsum);
    try reflexivity;
    match goal with
    | |- (if ?b then _ else _) == _ =>
        destruct b; [now rewrite Hsum | reflexivity]
    end.
Qed.

Lemma calc_all_metrics_row_order_witness :
  let r1 := Examples.row "SP | B000000001 | auto" 100 250 5 40 1000 in
  let r2 := Examples.row "SP | B000000002 | auto" 50 50 1 20 400 in
  Script11.ROAS (Script11.calc_all_metrics ∅ [r2; r1])
  == Script11.ROAS (Script11.calc_all_metrics ∅ [r1; r2]).
Proof.
  intros r1 r2.
  refine (proj1 (proj2 (proj2 (proj2 (proj2 (proj2 (proj1
    (calc_all_metrics_row_order ∅ [r1; r2] [r2; r1] _ _)))))))).
  - unfold whole_number_columns.
    repeat match goal with |- _ /\ _ => split end;
      apply whole_numbers_check; repeat constructor; vm_compute; reflexivity.
  - apply perm_swap.
Defined.

Lemma sum_nonneg (f : record -> Q) (subset : list record) :
  (forall r, r ∈ subset -> 0 <= f r) -> 0 <= Pandas.sum (f <$> subset).
Proof.
  unfold Pandas.sum. induction subset as [|r l IH]; intros H; cbn [fmap list_fmap foldr].
  - apply Qle_refl.
  - replace 0 with (0 + 0) by reflexivity. apply Qplus_le_compat.
    + apply H. rewrite elem_of_cons. auto.
    + apply IH. intros x Hx. apply H. rewrite elem_of_cons. auto.
Qed.

Lemma sum_le (f g : record -> Q) (subset : list record) :
  (forall r, r ∈ subset -> f r <= g r) ->
  Pandas.sum (f <$> subset) <= Pandas.sum (g <$> subset).
Proof.
  unfold Pandas.sum. induction subset as [|r l IH]; intros H; cbn [fmap list_fmap foldr].
  - apply Qle_refl.
  - apply Qplus_le_compat.
    + apply H. rewrite elem_of_cons. auto.
    + apply IH. intros x Hx. apply H. rewrite elem_of_cons. auto.
Qed.

Lemma guarded_quotient_nonneg (num den : Q) :
  0 <= num -> 0 <= (if Pandas.Qlt_bool 0 den then num / den else 0).
Proof.
  intros Hn. destruct (guard_cases den) as [[-> Hd]|[-> _]]; [|apply Qle_refl].
  apply Qle_shift_div_l; [exact Hd|]. now rewrite Qmult_0_l.
Qed.

Lemma guarded_quotient_le_1 (num den : Q) :
  num <= den -> (if Pandas.Qlt_bool 0 den then num / den else 0) <= 1.
Proof.
  intros Hn. destruct (guard_cases den) as [[-> Hd]|[-> _]]; [|discriminate].
  apply Qle_shift_div_r; [exact Hd|]. now rewrite Qmult_1_l.
Qed.

(** X16: the two rates of counts.  On rows whose orders, clicks and
    impressions are whole numbers that are not negative (so that the sums
    of the program are exact), the CTR of [calc_all_metrics] is at most 1
    when no row has more clicks than impressions, the CVR is at most 1 when
    no row has more orders than clicks, and neither is negative. *)
Theorem calc_all_metrics_ratio_bounds
  (columns : gset string) (subset : list record) :
  whole_numbers Orders subset -> whole_numbers Clicks subset ->
  whole_numbers Impressions subset ->
  (forall r, r ∈ subset -> 0 <= Orders r /\ 0 <= Clicks r) ->
  let m := Script11.calc_all_metrics columns subset in
  0 <= Script11.CTR m /\ 0 <= Script11.CVR m
  /\ ((forall r, r ∈ subset -> Clicks r <= Impressions r) ->
      Script11.CTR m <= 1)
  /\ ((forall r, r ∈ subset -> Orders r <= Clicks r) ->
      Script11.CVR m <= 1).
Proof.
  intros _ _ _ H. cbv zeta. unfold Script11.calc_all_metrics.
  cbn [Script11.CVR Script11.CTR].
  assert (0 <= Pandas.sum (Orders <$> subset)) as Horders
    by (apply sum_nonneg; intros r Hr; apply (H r Hr)).
  assert (0 <= Pandas.sum (Clicks <$> subset)) as Hclicks
    by (apply sum_nonneg; intros r Hr; apply (H r Hr)).
  repeat match goal with |- _ /\ _ => split end.
  - now apply guarded_quotient_nonneg.
  - now apply guarded_quotient_nonneg.
  - intros Hle. apply guarded_quotient_le_1. now apply sum_le.
  - intros Hle. apply guarded_quotient_le_1. now apply sum_le.
Qed.

Lemma calc_all_metrics_ratio_bounds_witness :
  let r1 := Examples.row "SP | B000000001 | auto" 100 250 5 40 1000 in
  let r2 := Examples.row "SP | B000000002 | auto" 50 50 1 20 400 in
  Script11.CTR (Script11.calc_all_metrics ∅ [r1; r2]) <= 1.
Proof.
  intros r1 r2.
  refine (proj1 (proj2 (proj2
            (calc_all_metrics_ratio_bounds ∅ [r1; r2] _ _ _ _))) _).
  - apply whole_numbers_check; repeat constructor; vm_compute; reflexivity.
  - apply whole_numbers_check; repeat constructor; vm_compute; reflexivity.
  - apply whole_numbers_check; repeat constructor; vm_compute; reflexivity.
  - intros r Hr. apply elem_of_cons in Hr as [->|Hr];
      [|apply list_elem_of_singleton in Hr as ->];
      cbn; split; discriminate.
  - intros r Hr. apply elem_of_cons in Hr as [->|Hr];
      [|apply list_elem_of_singleton in Hr as ->];
      cbn; discriminate.
Defined.

(** ** The daily frame *)

Lemma unique_from_spec (seen dates : list Z) :
  NoDup (Daily.unique_from seen dates)
  /\ forall d, d ∈ Daily.unique_from seen dates <-> d ∈ dates /\ (d ∉ seen).
Proof.
  revert seen. induction dates as [|x dates IH]; intros seen.
  - split; [constructor|]. intros d. cbn. rewrite elem_of_nil. tauto.
  - cbn [Daily.unique_from]. case_bool_decide as Hx.
    + destruct (IH seen) as [Hn Hd]. split; [exact Hn|].
      intros d. rewrite Hd, elem_of_cons. split; [tauto|].
      intros [[->|?] ?]; tauto.
    + destruct (IH (x :: seen)) as [Hn Hd]. split.
      * constructor; [|exact Hn]. rewrite Hd, elem_of_cons. tauto.
      * intros d. rewrite !elem_of_cons, Hd, elem_of_cons.
        destruct (decide (d = x)) as [->|]; tauto.
Qed.

Lemma sum_pointwise {A} (g h : A -> Q) (l : list A) :
  (forall x, x ∈ l -> g x == h x) ->
  Pandas.sum (g <$> l) == Pandas.sum (h <$> l).
Proof.
  unfold Pandas.sum. induction l as [|x l IH]; intros H; cbn [fmap list_fmap foldr].
  - reflexivity.
  - rewrite (H x) by (rewrite elem_of_cons; auto).
    rewrite IH; [reflexivity|].
    intros y Hy. apply H. rewrite elem_of_cons. auto.
Qed.

Lemma sum_plus {A} (g h : A -> Q) (l : list A) :
  Pandas.sum ((fun x => g x + h x) <$> l)
  == Pandas.sum (g <$> l) + Pandas.sum (h <$> l).
Proof.
  unfold Pandas.sum. induction l as [|x l IH]; cbn [fmap list_fmap foldr].
  - ring.
  - rewrite IH. ring.
Qed.

Lemma sum_indicator (d0 : Z) (x : Q) (dates : list Z) :
  NoDup dates ->
  Pandas.sum ((fun d => if bool_decide (d = d0) then x else 0) <$> dates)
  == if bool_decide (d0 ∈ dates) then x else 0.
Proof.
  unfold Pandas.sum. induction 1 as [|d dates Hd Hn IH]; cbn [fmap list_fmap foldr].
  - reflexivity.
  - rewrite IH. destruct (decide (d = d0)) as [E|E].
    + subst d. rewrite (bool_decide_eq_true_2 (d0 = d0)) by reflexivity.
      rewrite (bool_decide_eq_false_2 _ Hd).
      rewrite (bool_decide_eq_true_2 (d0 ∈ d0 :: dates))
        by (rewrite elem_of_cons; auto).
      ring.
    + rewrite (bool_decide_eq_false_2 _ E).
      destruct (decide (d0 ∈ dates)) as [Hin|Hin].
      * rewrite (bool_decide_eq_true_2 _ Hin).
        rewrite (bool_decide_eq_true_2 (d0 ∈ d :: dates))
          by (rewrite elem_of_cons; auto).
        ring.
      * rewrite (bool_decide_eq_false_2 _ Hin).
        rewrite (bool_decide_eq_false_2 (d0 ∈ d :: dates))
          by (rewrite elem_of_cons; intros [?|?]; auto).
        ring.
Qed.

Lemma sum_zeros {A} (l : list A) : Pandas.sum ((fun _ => 0) <$> l) == 0.
Proof.
  unfold Pandas.sum. induction l as [|x l IH]; cbn [fmap list_fmap foldr].
  - reflexivity.
  - rewrite IH. reflexivity.
Qed.

(** Summing a column group by group, over a list of dates that holds every
    date of the frame once, gives the sum of the column. *)
Lemma sum_by_date (f : record -> Q) (l : list record) (dates : list Z) :
  NoDup dates ->
  (forall r, r ∈ l -> exists d, Date r = Some d /\ d ∈ dates) ->
  Pandas.sum
    ((fun d => Pandas.sum (f <$> filter (fun r => Date r = Some d) l)) <$> dates)
  == Pandas.sum (f <$> l).
Proof.
  intros Hn. induction l as [|r l IH]; intros Hl.
  - rewrite (sum_pointwise _ (fun _ => 0)) by reflexivity.
    apply sum_zeros.
  - destruct (Hl r) as (d0 & Hd0 & Hin); [rewrite elem_of_cons; auto|].
    rewrite (sum_pointwise _
      (fun d => (if bool_decide (d = d0) then f r else 0)
                + Pandas.sum (f <$> filter (fun r => Date r = Some d) l))).
    + rewrite sum_plus, (sum_indicator d0 (f r) dates Hn).
      rewrite (bool_decide_eq_true_2 _ Hin), IH.
      * cbn [fmap list_fmap]. rewrite sum_cons. reflexivity.
      * intros x Hx. apply Hl. rewrite elem_of_cons. auto.
    + intros d _. destruct (decide (d = d0)) as [E|E].
      * subst d. rewrite (bool_decide_eq_true_2 (d0 = d0)) by reflexivity.
        rewrite filter_cons_True by exact Hd0.
        cbn [fmap list_fmap]. rewrite sum_cons. reflexivity.
      * rewrite (bool_decide_eq_false_2 _ E).
        rewrite filter_cons_False by congruence. ring.
Qed.

Lemma daily_cell (f : record -> Q) (g : Daily.daily_row -> Q)
  (df : list record) (date : Z) (t : advertising_type) :
  (forall rows, g (Daily.daily_of rows) = Pandas.sum (f <$> rows)) ->
  from_option g 0 (Daily.daily df date t)
  = Pandas.sum (f <$> filter (fun r => Date r = Some date) (of_type t df)).
Proof.
  intros Hg. unfold Daily.daily, Daily.group.
  destruct (filter _ (of_type t df)) as [|r rows]; [reflexivity|].
  cbn [from_option]. apply Hg.
Qed.

(** X18: the daily frame adds up to the cohort totals.  On a frame whose
    rows are all dated and whose five summed columns hold whole numbers (so
    that the sums of the program are exact), summing a column of [daily]
    over the rows of one cohort (one row per date of the frame on which the
    cohort has rows) gives the total that [calc_all_metrics] reports for
    that cohort; this holds for each of the five summed columns. *)
Theorem daily_sums_reconcile
  (columns : gset string) (df : list record) (t : advertising_type) :
  whole_number_columns df ->
  (forall r, r ∈ df -> is_Some (Date r)) ->
  let column (f : Daily.daily_row -> Q) :=
    Pandas.sum
      ((fun date => from_option f 0 (Daily.daily df date t))
         <$> Daily.unique_dates df) in
  let m := Script11.calc_all_metrics columns (of_type t df) in
  column Daily.Spend_sum == Script11.Total_Spend m
  /\ column Daily.Sales_sum == Script11.Total_Sales m
  /\ column Daily.Orders_sum == Script11.Total_Orders m
  /\ column Daily.Clicks_sum == Script11.Total_Clicks m
  /\ column Daily.Impressions_sum == Script11.Total_Impressions m.
Proof.
  intros _ Hd. cbv zeta.
  assert (forall (f : record -> Q) (g : Daily.daily_row -> Q),
            (forall rows, g (Daily.daily_of rows) = Pandas.sum (f <$> rows)) ->
            Pandas.sum
              ((fun date => from_option g 0 (Daily.daily df date t))
                 <$> Daily.unique_dates df)
            == Pandas.sum (f <$> of_type t df)) as H.
  { intros f g Hg.
    rewrite (sum_pointwise _
      (fun d => Pandas.sum
         (f <$> filter (fun r => Date r = Some d) (of_type t df)))).
    - destruct (unique_from_spec [] (omap Date df)) as [Hn Hin].
      apply sum_by_date; [exact Hn|].
      intros r Hr. unfold of_type in Hr.
      apply list_elem_of_filter in Hr as [_ Hr].
      destruct (Hd r Hr) as [d Hdate]. exists d. split; [exact Hdate|].
      unfold Daily.unique_dates. apply Hin. split; [|apply not_elem_of_nil].
      apply list_elem_of_omap. eauto.
    - intros d _. now rewrite (daily_cell f g). }
  unfold Script11.calc_all_metrics.
  cbn [Script11.Total_Spend Script11.Total_Sales Script11.Total_Clicks
       Script11.Total_Impressions Script11.Total_Orders].
  repeat match goal with |- _ /\ _ => split end; apply H; reflexivity.
Qed.

Lemma daily_sums_reconcile_witness :
  let perpetua_list := [ Examples.ref "NT1" "B000000001" ] in
  let df :=
    Script11.tag_campaign perpetua_list perpetua_list
      <$> [ Examples.row "SP | B000000001 | auto" 100 250 5 40 1000;
            Examples.row "SP | B000000001 | exact" 50 50 1 20 400 ] in
  Pandas.sum
    ((fun date => from_option Daily.Spend_sum 0 (Daily.daily df date Perpetua))
       <$> Daily.unique_dates df)
  == Script11.Total_Spend (Script11.calc_all_metrics ∅ (of_type Perpetua df)).
Proof.
  intros perpetua_list df.
  refine (proj1 (daily_sums_reconcile ∅ df Perpetua _ _)).
  - unfold whole_number_columns.
    repeat match goal with |- _ /\ _ => split end;
      apply whole_numbers_check; repeat constructor; vm_compute; reflexivity.
  - intros r Hr. apply elem_of_cons in Hr as [->|Hr];
      [|apply list_elem_of_singleton in Hr as ->]; eexists; reflexivity.
Defined.

(** ** The verdict column of the dashboard *)

Lemma Qeq_bool_false_iff (x y : Q) : Qeq_bool x y = false <-> ~ x == y.
Proof.
  split.
  - intros H. now apply Qeq_bool_neq.
  - intros H. destruct (Qeq_bool x y) eqn:E; [|reflexivity].
    apply Qeq_bool_iff in E. contradiction.
Qed.

Lemma Qlt_bool_false_iff (a b : Q) : Pandas.Qlt_bool a b = false <-> b <= a.
Proof.
  split.
  - intros H. apply Qnot_lt_le. intros Hlt. apply Qlt_bool_iff in Hlt. congruence.
  - intros H. destruct (Pandas.Qlt_bool a b) eqn:E; [|reflexivity].
    apply Qlt_bool_iff in E. exfalso. exact (Qlt_not_le _ _ E H).
Qed.

Lemma quotient_sign (d x : Q) :
  (0 < x -> (d / x < 0 <-> d < 0) /\ (0 < d / x <-> 0 < d))
  /\ (x < 0 -> (d / x < 0 <-> 0 < d) /\ (0 < d / x <-> d < 0)).
Proof.
  assert (forall a b : Q, 0 < b -> (a / b < 0 <-> a < 0) /\ (0 < a / b <-> 0 < a))
    as Hpos.
  { intros a b Hb. repeat split; intros H.
    - apply Qnot_le_lt. intros Hle. apply (Qlt_not_le _ _ H).
      apply Qle_shift_div_l; [exact Hb|]. lra.
    - apply Qlt_shift_div_r; [exact Hb|]. lra.
    - apply Qnot_le_lt. intros Hle. apply (Qlt_not_le _ _ H).
      apply Qle_shift_div_r; [exact Hb|]. lra.
    - apply Qlt_shift_div_l; [exact Hb|]. lra. }
  split; intros Hx; [now apply Hpos|].
  assert (d / x == (- d) / (- x)) as -> by (field; lra).
  destruct (Hpos (- d) (- x)) as [-> ->]; [lra|].
  split; split; lra.
Qed.

(** X19: the verdict of a metric row.  '% Diff' and 'Winner' are written
    together, and they are left empty exactly when the metric has no
    direction or the Non-Perpetua value is 0.  A tie is never a win for
    Perpetua.  With a positive Non-Perpetua value, Perpetua wins exactly
    when '% Diff' is negative for a lower-is-better metric and positive for
    a higher-is-better one; with a negative Non-Perpetua value the sign of
    '% Diff' is the reverse of the verdict. *)
Theorem metric_row_verdict
  (lower_better : option bool) (p_val np_val : Q) :
  let c := Dashboard.metric_cells lower_better p_val np_val in
  let favourable (pct : Q) :=
    match lower_better with
    | Some true => pct < 0
    | _ => 0 < pct
    end in
  (Dashboard.winner c = None <-> Dashboard.pct c = None)
  /\ (Dashboard.winner c = None <-> lower_better = None \/ np_val == 0)
  /\ (p_val == np_val ->
      Dashboard.winner c <> Some Dashboard.Perpetua_wins)
  /\ (forall pct, Dashboard.pct c = Some pct ->
        (0 < np_val ->
         (Dashboard.winner c = Some Dashboard.Perpetua_wins
          <-> favourable pct))
        /\ (np_val < 0 ->
            (Dashboard.winner c = Some Dashboard.Perpetua_wins
             <-> favourable (- pct)))).
Proof.
  cbv zeta. unfold Dashboard.metric_cells.
  destruct lower_better as [lower|].
  - destruct (Qeq_bool np_val 0) eqn:Ez; cbn [negb Dashboard.winner Dashboard.pct].
    + apply Qeq_bool_iff in Ez.
      repeat match goal with |- _ /\ _ => split | |- _ <-> _ => split end;
        try tauto; try congruence; try discriminate.
    + apply Qeq_bool_false_iff in Ez.
      split; [split; discriminate|].
      split; [split; [discriminate | intros [?|?]; [discriminate|contradiction]]|].
      split.
      * intros He.
        destruct lower;
          rewrite (proj2 (Qlt_bool_false_iff _ _)); try discriminate; lra.
      * intros pct [= <-].
        destruct (quotient_sign (p_val - np_val) np_val) as [Hpos Hneg].
        assert (- ((p_val - np_val) / np_val) == (np_val - p_val) / np_val)
          as Hopp by (field; exact Ez).
        destruct (quotient_sign (np_val - p_val) np_val) as [_ Hneg'].
        split; intros Hs.
        -- destruct (Hpos Hs) as [Hn Hp].
           destruct lower.
           ++ rewrite Hn.
              destruct (Pandas.Qlt_bool p_val np_val) eqn:E;
                [apply Qlt_bool_iff in E | apply Qlt_bool_false_iff in E];
                split; intros H; try reflexivity; try discriminate; lra.
           ++ rewrite Hp.
              destruct (Pandas.Qlt_bool np_val p_val) eqn:E;
                [apply Qlt_bool_iff in E | apply Qlt_bool_false_iff in E];
                split; intros H; try reflexivity; try discriminate; lra.
        -- destruct (Hneg' Hs) as [Hn' Hp'].
           destruct lower.
           ++ rewrite Hopp, Hn'.
              destruct (Pandas.Qlt_bool p_val np_val) eqn:E;
                [apply Qlt_bool_iff in E | apply Qlt_bool_false_iff in E];
                split; intros H; try reflexivity; try discriminate; lra.
           ++ rewrite Hopp, Hp'.
              destruct (Pandas.Qlt_bool np_val p_val) eqn:E;
                [apply Qlt_bool_iff in E | apply Qlt_bool_false_iff in E];
                split; intros H; try reflexivity; try discriminate; lra.
  - cbn [Dashboard.winner Dashboard.pct].
    repeat match goal with |- _ /\ _ => split | |- _ <-> _ => split end;
      try tauto; try congruence; try discriminate.
Qed.

Lemma metric_row_verdict_witness :
  Dashboard.winner (Dashboard.metric_cells (Some true) (1 # 4) (1 # 4))
  <> Some Dashboard.Perpetua_wins.
Proof.
  refine (proj1 (proj2 (proj2
            (metric_row_verdict (Some true) (1 # 4) (1 # 4)))) _).
  reflexivity.
Defined.



(** ** The summary of script 1 *)

(** X21: the percentage improvements of script 1 when the Non-Perpetua
    cohort has no clicks.  Its [Avg_CPC] and [Conversion_Rate] are then
    divisions by zero; the guard [> 0] lets an infinite baseline through,
    so 'CPC Improvement' is NaN when the cohort has spend and 0 otherwise,
    'Conversion Improvement' is NaN when the cohort has orders and 0
    otherwise, and neither gets the check mark. *)
Theorem script1_improvements_without_clicks
  (to_numeric : string -> Pandas.float64) (has_ACOS has_ROAS has_CTR : bool)
  (perpetua_rows non_perpetua_rows : list record) :
  let perpetua :=
    Script1.comparison_of to_numeric has_ACOS has_ROAS has_CTR perpetua_rows in
  let non_perpetua :=
    Script1.comparison_of to_numeric has_ACOS has_ROAS has_CTR
      non_perpetua_rows in
  let i := Script1Summary.improvements_of perpetua non_perpetua in
  Script1.Total_Clicks non_perpetua == 0 ->
  Script1Summary.CPC_Improvement i
  = (if Pandas.Qlt_bool 0 (Script1.Total_Spend non_perpetua)
     then Pandas.NaN else Pandas.Fin 0)
  /\ Script1Summary.Conversion_Improvement i
     = (if Pandas.Qlt_bool 0 (Script1.Total_Orders non_perpetua)
        then Pandas.NaN else Pandas.Fin 0)
  /\ Script1Summary.symbol (Script1Summary.CPC_Improvement i) = false
  /\ Script1Summary.symbol (Script1Summary.Conversion_Improvement i) = false.
Proof.
  cbv zeta. intros Hc.
  unfold Script1Summary.improvements_of.
  cbn [Script1Summary.CPC_Improvement Script1Summary.Conversion_Improvement].
  generalize (Script1.comparison_of to_numeric has_ACOS has_ROAS has_CTR
                perpetua_rows) as perpetua.
  intros perpetua.
  generalize (Script1.Avg_CPC perpetua) as x.
  generalize (Script1.Conversion_Rate perpetua) as y.
  intros y x. clear perpetua.
  unfold Script1.comparison_of in *.
  cbn [Script1.Avg_CPC Script1.Conversion_Rate Script1.Total_Clicks
       Script1.Total_Spend Script1.Total_Orders] in *.
  apply Qeq_bool_iff in Hc. unfold Pandas.div. rewrite Hc.
  generalize (Pandas.round 2 (Pandas.sum (Spend <$> non_perpetua_rows)))
    as spend.
  generalize (Pandas.round 2 (Pandas.sum (Orders <$> non_perpetua_rows)))
    as orders.
  intros orders spend.
  destruct (Pandas.Qlt_bool 0 spend); destruct (Pandas.Qlt_bool 0 orders);
    destruct (Pandas.Qlt_bool spend 0); destruct (Pandas.Qlt_bool orders 0);
    destruct x; destruct y; cbn; auto.
Qed.

Lemma script1_improvements_without_clicks_witness :
  let perpetua_rows := [ Examples.row "SP | B000000001 | auto" 100 250 5 40 1000 ] in
  let non_perpetua_rows := [ Examples.row "SP | B000000002 | auto" 5 0 0 0 300 ] in
  Script1Summary.CPC_Improvement
    (Script1Summary.improvements_of
       (Script1.comparison_of Examples.to_numeric false false false perpetua_rows)
       (Script1.comparison_of Examples.to_numeric false false false
          non_perpetua_rows))
  = Pandas.NaN.
Proof.
  intros perpetua_rows non_perpetua_rows.
  refine (proj1 (script1_improvements_without_clicks Examples.to_numeric
                   false false false perpetua_rows non_perpetua_rows _)).
  vm_compute. reflexivity.
Defined.

Lemma mean_skips_nan (col : list Pandas.float64) :
  Pandas.mean (Pandas.NaN :: col) = Pandas.mean col.
Proof. reflexivity. Qed.

(** X22: the ratio columns script 1 reads from the report are cleaned in
    two different ways.  A row whose reported ACOS (or CTR) does not parse
    keeps a NaN and is left out of the cohort mean: the mean is that of the
    other rows.  A row whose reported ROAS does not parse, or is missing,
    gets ROAS 0 and pulls the cohort mean towards 0. *)
Theorem script1_unparsed_ratio_cells
  (to_numeric : string -> Pandas.float64) (x : record) (group : list record) :
  (to_numeric (Pandas.remove "%" (Pandas.astype_str (Reported_ACOS x)))
   = Pandas.NaN ->
   forall has_ROAS has_CTR,
     Script1.mean_ACOS
       (Script1.comparison_of to_numeric true has_ROAS has_CTR (x :: group))
     = Script1.mean_ACOS
         (Script1.comparison_of to_numeric true has_ROAS has_CTR group))
  /\ (to_numeric (Pandas.remove "%" (Pandas.astype_str (Reported_CTR x)))
      = Pandas.NaN ->
      forall has_ACOS has_ROAS,
        Script1.mean_CTR
          (Script1.comparison_of to_numeric has_ACOS has_ROAS true (x :: group))
        = Script1.mean_CTR
            (Script1.comparison_of to_numeric has_ACOS has_ROAS true group))
  /\ (Script1.to_numeric_cell to_numeric (Reported_ROAS x) = Pandas.NaN ->
      forall has_ACOS has_CTR,
        Script1.mean_ROAS
          (Script1.comparison_of to_numeric has_ACOS true has_CTR (x :: group))
        = Pandas.fround 4
            (Pandas.mean
               (Pandas.Fin 0
                :: (Script1.row_ROAS to_numeric true <$> group)))).
Proof.
  unfold Script1.comparison_of, Script1.row_ACOS, Script1.row_CTR,
    Script1.row_ROAS.
  cbn [Script1.mean_ACOS Script1.mean_CTR Script1.mean_ROAS fmap list_fmap].
  split; [|split]; intros ->; intros; cbn [Pandas.fdiv Pandas.fillna];
    now rewrite ?mean_skips_nan.
Qed.

Lemma script1_unparsed_ratio_cells_witness :
  let x := Examples.row "SP | B000000001 | auto" 100 250 5 40 1000 in
  Script1.mean_ACOS
    (Script1.comparison_of Examples.to_numeric true false false [x])
  = Pandas.NaN.
Proof.
  intros x.
  refine (eq_trans
    (proj1 (script1_unparsed_ratio_cells Examples.to_numeric x []) _ false false)
    _).
  - vm_compute. reflexivity.
  - vm_compute. reflexivity.
Defined.

(** ** scripts/refresh_reports.py *)

Lemma refresh_loop {world : Type}
  (script_exists : world -> string -> bool)
  (run : world -> string -> Refresh.run_result * world)
  (scripts : list (string * string)) (st0 : Refresh.state world) :
  let st := foldl (Refresh.step world script_exists run) st0 scripts in
  exists new : list (string * Refresh.report),
    Refresh.printed st = Refresh.printed st0 ++ new
    /\ new.*1 = scripts.*1
    /\ Refresh.failed_scripts st
       = Refresh.failed_scripts st0
         ++ (filter (fun e => Refresh.completed e.2 = false) new).*1.
Proof.
  cbv zeta. revert st0. induction scripts as [|[script description] scripts IH];
    intros st0.
  - exists []. cbn. now rewrite !app_nil_r.
  - cbn [foldl].
    destruct (IH (Refresh.step world script_exists run st0
                    (script, description))) as (new & Hp & Hn & Hf).
    assert (exists rep,
              Refresh.printed (Refresh.step world script_exists run st0
                                 (script, description))
              = Refresh.printed st0 ++ [(script, rep)]
              /\ Refresh.failed_scripts
                   (Refresh.step world script_exists run st0
                      (script, description))
                 = Refresh.failed_scripts st0
                   ++ (filter (fun e => Refresh.completed e.2 = false)
                         [(script, rep)]).*1) as (rep & Hp1 & Hf1).
    { unfold Refresh.step.
      destruct (script_exists (Refresh.now st0) script); cbn [negb].
      - destruct (run (Refresh.now st0) script) as [[returncode| |] w].
        + destruct (returncode =? 0)%Z.
          * exists Refresh.Completed. cbn. now rewrite app_nil_r.
          * exists (Refresh.Failed returncode). cbn. auto.
        + exists Refresh.TimedOut. cbn. auto.
        + exists Refresh.Error. cbn. auto.
      - exists Refresh.NotFound. cbn. auto. }
    exists ((script, rep) :: new). rewrite Hp, Hp1, Hf, Hf1.
    split; [now rewrite <- app_assoc|].
    split; [cbn; now rewrite Hn|].
    rewrite <- app_assoc. f_equal.
    destruct rep; cbn; reflexivity.
Qed.

(** X23: the refresh pipeline.  Every script of the list is reported once,
    in the order of the list, whatever happened to the scripts before it:
    the loop never stops early.  The failed scripts are exactly those whose
    report is not 'completed successfully', in that order, and the exit
    status is 0 when every script completed and 1 otherwise.  The pipeline
    itself reports on scripts 1 to 4 and on no other. *)
Theorem refresh_reports_every_script {world : Type}
  (script_exists : world -> string -> bool)
  (run : world -> string -> Refresh.run_result * world)
  (scripts : list (string * string)) (w : world) :
  let st := Refresh.run_all world script_exists run scripts w in
  (Refresh.printed st).*1 = scripts.*1
  /\ Refresh.failed_scripts st
     = (filter (fun e => Refresh.completed e.2 = false) (Refresh.printed st)).*1
  /\ Refresh.exit_status st
     = (if bool_decide
             (Forall (fun e => Refresh.completed e.2 = true) (Refresh.printed st))
        then 0 else 1)%Z
  /\ (Refresh.printed (Refresh.refresh world script_exists run w)).*1
     = [ "1_process_campaign_data.py"; "2_asin_level_analysis.py";
         "3_generate_performance_report.py";
         "4_generate_excel_dashboard.py" ]%string.
Proof.
  cbv zeta. unfold Refresh.refresh, Refresh.run_all.
  assert (forall scripts,
            exists new,
              Refresh.printed
                (foldl (Refresh.step world script_exists run)
                   {| Refresh.now := w; Refresh.failed_scripts := [];
                      Refresh.printed := [] |} scripts) = new
              /\ new.*1 = scripts.*1
              /\ Refresh.failed_scripts
                   (foldl (Refresh.step world script_exists run)
                      {| Refresh.now := w; Refresh.failed_scripts := [];
                         Refresh.printed := [] |} scripts)
                 = (filter (fun e => Refresh.completed e.2 = false) new).*1)
    as Hall.
  { intros l.
    destruct (refresh_loop script_exists run l
                {| Refresh.now := w; Refresh.failed_scripts := [];
                   Refresh.printed := [] |}) as (new & Hp & Hn & Hf).
    cbn [Refresh.printed Refresh.failed_scripts app] in Hp, Hf. eauto. }
  destruct (Hall scripts) as (new & Hp & Hn & Hf).
  destruct (Hall Refresh.scripts_to_run) as (new' & Hp' & Hn' & _).
  rewrite Hp, Hp'.
  split; [exact Hn|]. split; [exact Hf|]. split; [|exact Hn'].
  unfold Refresh.exit_status. rewrite Hf. clear.
  induction new as [|[script rep] new IH].
  - reflexivity.
  - destruct (Refresh.completed rep) eqn:E.
    + rewrite filter_cons_False by (cbn; congruence).
      rewrite IH. repeat case_bool_decide; try reflexivity.
      * exfalso. match goal with H : ¬ Forall _ (_ :: _) |- _ => apply H end.
        constructor; assumption.
      * exfalso. match goal with H : Forall _ (_ :: _) |- _ =>
          apply Forall_cons in H as [_ H] end. contradiction.
    + rewrite filter_cons_True by (cbn; congruence).
      rewrite bool_decide_eq_false_2; [reflexivity|].
      intros H. apply Forall_cons in H as [H _]. cbn in H. congruence.
Qed.

(** ** Labels that script 11 leaves out *)

Lemma first_entry_Some (pair : sheet_row -> option (string * string))
  (k v : string) (rows : list sheet_row) :
  first_entry pair k rows = Some v ->
  exists row, row ∈ rows /\ pair row = Some (k, v).
Proof.
  induction rows as [|row rows IH]; [discriminate|].
  cbn [first_entry]. destruct (pair row) as [[k' v']|] eqn:Ep.
  - destruct (String.eqb k' k) eqn:Ek.
    + apply String.eqb_eq in Ek as ->. intros [= ->].
      exists row. rewrite elem_of_cons. auto.
    + intros H. destruct (IH H) as (r & Hr & Hp). exists r.
      rewrite elem_of_cons. auto.
  - intros H. destruct (IH H) as (r & Hr & Hp). exists r.
    rewrite elem_of_cons. auto.
Qed.

Lemma first_entry_None (pair : sheet_row -> option (string * string))
  (k : string) (rows : list sheet_row) :
  first_entry pair k rows = None
  <-> forall row v, row ∈ rows -> pair row <> Some (k, v).
Proof.
  induction rows as [|row rows IH].
  - split; [|reflexivity]. intros _ row v Hr. now apply elem_of_nil in Hr.
  - cbn [first_entry]. destruct (pair row) as [[k' v']|] eqn:Ep.
    + destruct (String.eqb k' k) eqn:Ek.
      * apply String.eqb_eq in Ek as ->. split; [discriminate|].
        intros H. exfalso. apply (H row v'); [rewrite elem_of_cons; auto|].
        exact Ep.
      * apply String.eqb_neq in Ek. rewrite IH. split.
        -- intros H r v Hr. apply elem_of_cons in Hr as [->|Hr];
             [congruence | now apply H].
        -- intros H r v Hr. apply H. rewrite elem_of_cons. auto.
    + rewrite IH. split.
      * intros H r v Hr. apply elem_of_cons in Hr as [->|Hr];
          [congruence | now apply H].
      * intros H r v Hr. apply H. rewrite elem_of_cons. auto.
Qed.

Lemma elem_of_rev {A} (x : A) (l : list A) : x ∈ rev l <-> x ∈ l.
Proof. rewrite !list_elem_of_In. symmetry. apply in_rev. Qed.

Lemma sheet_pair_in_set (rows : list sheet_row) (row : sheet_row) (s a : string) :
  row ∈ rows -> sheet_pair row = Some (s, a) ->
  a ∈ stripped_set ASIN_cell rows.
Proof.
  intros Hr. unfold sheet_pair, stripped_set.
  destruct (SKU_cell row) as [s0|]; [|discriminate].
  destruct (ASIN_cell row) as [a0|] eqn:Ea; [|discriminate].
  intros [= _ <-]. apply elem_of_list_to_set, list_elem_of_fmap.
  exists a0. split; [reflexivity|]. apply list_elem_of_omap. eauto.
Qed.

Lemma script11_resolved_in_sheets
  (perpetua_list all_asins_list : list sheet_row) (s a : string) :
  Script11.sku_to_asin perpetua_list all_asins_list !! s = Some a ->
  a ∈ Script11.perpetua_asins perpetua_list
  \/ a ∈ Script11.non_perpetua_asins perpetua_list all_asins_list.
Proof.
  rewrite (proj1 (script11_lookup perpetua_list all_asins_list s s)).
  unfold last_entry.
  destruct (first_entry sheet_pair s (rev perpetua_list)) as [a'|] eqn:Em.
  - intros [= ->]. left.
    apply first_entry_Some in Em as (row & Hr & Hp).
    apply (proj1 (elem_of_rev _ _)) in Hr.
    exact (sheet_pair_in_set perpetua_list row s a Hr Hp).
  - intros Hu. apply first_entry_Some in Hu as (row & Hr & Hp).
    pose proof (sheet_pair_in_set all_asins_list row s a Hr Hp) as Hin.
    destruct (decide (a ∈ Script11.perpetua_asins perpetua_list)); [auto|].
    right. unfold Script11.non_perpetua_asins, Script11.all_asins.
    apply elem_of_difference. auto.
Qed.

(** X24: which labels script 11 leaves Unknown.  Whatever [sku_to_asin]
    resolves an alias to is in one of the two ASIN sets, so the Unknown
    fall-through after a successful lookup is never taken: a label is
    Unknown exactly when its identifier (if it has one) is in neither sheet
    and its alias (if it has one) is not a key of [sku_to_asin]; and an
    alias is not a key exactly when no row of either sheet with both cells
    present carries it. *)
Theorem script11_unknown_labels
  (perpetua_list all_asins_list : list sheet_row) :
  (forall s a,
     Script11.sku_to_asin perpetua_list all_asins_list !! s = Some a ->
     a ∈ Script11.perpetua_asins perpetua_list
     \/ a ∈ Script11.non_perpetua_asins perpetua_list all_asins_list)
  /\ (forall name,
        (Script11.extract_and_classify perpetua_list all_asins_list
           (Some name)).2 = Unknown
        <-> (forall a, Text.search_asin name = Some a ->
               (a ∉ Script11.perpetua_asins perpetua_list)
               /\ (a ∉ Script11.all_asins all_asins_list))
            /\ (forall s, Text.search_sku name = Some s ->
                  Script11.sku_to_asin perpetua_list all_asins_list !! s
                  = None))
  /\ (forall s,
        Script11.sku_to_asin perpetua_list all_asins_list !! s = None
        <-> forall row a, row ∈ perpetua_list ++ all_asins_list ->
              sheet_pair row <> Some (s, a)).
Proof.
  split; [|split].
  - apply script11_resolved_in_sheets.
  - intros name. unfold Script11.extract_and_classify.
    rewrite truthy_search_asin, truthy_search_sku.
    assert (forall a,
              (a ∉ Script11.perpetua_asins perpetua_list)
              /\ (a ∉ Script11.all_asins all_asins_list)
              <-> (a ∉ Script11.perpetua_asins perpetua_list)
                  /\ (a ∉ Script11.non_perpetua_asins perpetua_list
                            all_asins_list)) as Hsets.
    { intros a. unfold Script11.non_perpetua_asins.
      rewrite elem_of_difference. tauto. }
    destruct (Text.search_asin name) as [a|];
      destruct (Text.search_sku name) as [s|];
      try (destruct (Script11.sku_to_asin perpetua_list all_asins_list !! s)
             as [m|] eqn:Em;
           [destruct (script11_resolved_in_sheets _ _ _ _ Em)|]);
      repeat case_bool_decide; cbn [snd];
      (split;
       [ intros Hu; try discriminate Hu;
         (split; [intros ? [= <-]; apply Hsets; auto
                 |intros ? [= <-]; auto]);
         try discriminate; try contradiction
       | intros [Ha Hs]; try reflexivity;
         try (destruct (proj1 (Hsets _) (Ha _ eq_refl)); contradiction);
         try (specialize (Hs _ eq_refl); congruence);
         try contradiction ]).
  - intros s.
    rewrite (proj1 (script11_lookup perpetua_list all_asins_list s s)).
    unfold last_entry. split.
    + destruct (first_entry sheet_pair s (rev perpetua_list)) eqn:Em;
        [discriminate|].
      intros Hu row a Hr. apply elem_of_app in Hr as [Hr|Hr].
      * apply (proj1 (first_entry_None _ _ _) Em). now apply (proj2 (elem_of_rev _ _)).
      * now apply (proj1 (first_entry_None _ _ _) Hu).
    + intros H.
      rewrite (proj2 (first_entry_None sheet_pair s (rev perpetua_list))).
      * apply first_entry_None. intros row a Hr. apply H.
        apply elem_of_app. auto.
      * intros row a Hr. apply H. apply (proj1 (elem_of_rev _ _)) in Hr.
        apply elem_of_app. auto.
Qed.

(** ** The comparison table of script 1 *)

Lemma named_rows_count (g : list record) :
  (forall r, r ∈ g -> is_Some (Campaign_Name r)) ->
  length (omap Campaign_Name g) = length g.
Proof.
  induction g as [|r g IH]; intros H; [reflexivity|].
  destruct (H r) as [n Hn]; [rewrite elem_of_cons; auto|].
  cbn [omap list_omap]. rewrite Hn. cbn [length]. f_equal.
  apply IH. intros x Hx. apply H. rewrite elem_of_cons. auto.
Qed.

Lemma cohort_lengths (df : list record) :
  (length (of_type Perpetua df) + length (of_type NonPerpetua df))%nat
  = length (known_only df).
Proof.
  unfold of_type, known_only. induction df as [|r df IH]; [reflexivity|].
  destruct (Advertising_Type r) eqn:E.
  - rewrite (filter_cons_True _ r df) by (rewrite E; reflexivity).
    rewrite (filter_cons_False _ r df) by (rewrite E; discriminate).
    rewrite (filter_cons_True _ r df) by (rewrite E; reflexivity).
    cbn [length]. lia.
  - rewrite (filter_cons_False _ r df) by (rewrite E; discriminate).
    rewrite (filter_cons_True _ r df) by (rewrite E; reflexivity).
    rewrite (filter_cons_True _ r df) by (rewrite E; reflexivity).
    cbn [length]. lia.
  - rewrite !(filter_cons_False _ r df) by (rewrite E; cbn; congruence).
    exact IH.
Qed.

(** X26: the record counts of script 1's comparison table.  Every known
    campaign has a name (its cohort comes from an identifier found in the
    name), so [Campaign_Records] of a cohort is the number of its rows, the
    two counts add up to the number of known campaigns, and that number is
    at most the number of rows of the report. *)
Theorem script1_campaign_records
  (perpetua_df all_asins_df : list sheet_row) (campaigns : list record)
  (to_numeric : string -> Pandas.float64) (has_ACOS has_ROAS has_CTR : bool) :
  let known := Script1.known_campaigns perpetua_df all_asins_df campaigns in
  let records t :=
    Script1.Campaign_Records
      (Script1.comparison_of to_numeric has_ACOS has_ROAS has_CTR
         (of_type t known)) in
  (forall t, records t = length (of_type t known))
  /\ (records Perpetua + records NonPerpetua = length known)%nat
  /\ (length known <= length campaigns)%nat.
Proof.
  cbv zeta.
  assert (forall t,
            Script1.Campaign_Records
              (Script1.comparison_of to_numeric has_ACOS has_ROAS has_CTR
                 (of_type t
                    (Script1.known_campaigns perpetua_df all_asins_df campaigns)))
            = length (of_type t
                (Script1.known_campaigns perpetua_df all_asins_df campaigns)))
    as Hrec.
  { intros t. unfold Script1.comparison_of. cbn [Script1.Campaign_Records].
    apply named_rows_count. intros r Hr.
    unfold of_type in Hr. apply list_elem_of_filter in Hr as [_ Hr].
    unfold Script1.known_campaigns in Hr.
    apply known_only_elem in Hr as [Hr Hu].
    apply list_elem_of_fmap in Hr as (r0 & -> & _).
    unfold Script1.tag in *. cbn in *.
    destruct (Campaign_Name r0); [eauto|]. now cbn in Hu. }
  split; [exact Hrec|]. split.
  - rewrite !Hrec, cohort_lengths.
    unfold Script1.known_campaigns. now rewrite known_only_idempotent.
  - unfold Script1.known_campaigns, known_only.
    etransitivity; [apply length_filter|]. now rewrite length_fmap.
Qed.

(** ** The pipeline of script 10 *)

(** X27: script 10 from the tagged report to the two cohorts.  Every row
    of [known] is dated and tagged Perpetua or Non-Perpetua, and the rows of
    [known] are, row for row, the rows of the two subsets handed to
    [calc_metrics].  When the five summed columns of [known] hold whole
    numbers (so that the sums of the program are exact), the totals of the
    two cohorts add up to the sums of the columns over [known]. *)
Theorem script10_cohorts_exhaust_known
  (perpetua_df all_asins_df : list sheet_row) (campaigns : list record) :
  let known := Script10.known perpetua_df all_asins_df campaigns in
  let perpetua := Script10.perpetua perpetua_df all_asins_df campaigns in
  let non_perpetua := Script10.non_perpetua perpetua_df all_asins_df campaigns in
  (forall r, r ∈ known ->
     (Advertising_Type r = Perpetua \/ Advertising_Type r = NonPerpetua)
     /\ is_Some (Date r))
  /\ known ≡ₚ of_type Perpetua known ++ of_type NonPerpetua known
  /\ (whole_number_columns known ->
      Script10.Total_Spend perpetua + Script10.Total_Spend non_perpetua
        == Pandas.sum (Spend <$> known)
      /\ Script10.Total_Sales perpetua + Script10.Total_Sales non_perpetua
        == Pandas.sum (Sales <$> known)
      /\ Script10.Total_Orders perpetua + Script10.Total_Orders non_perpetua
        == Pandas.sum (Orders <$> known)
      /\ Script10.Total_Clicks perpetua + Script10.Total_Clicks non_perpetua
        == Pandas.sum (Clicks <$> known)
      /\ Script10.Total_Impressions perpetua
         + Script10.Total_Impressions non_perpetua
        == Pandas.sum (Impressions <$> known)).
Proof.
  cbv zeta.
  assert (forall r,
            r ∈ Script10.known perpetua_df all_asins_df campaigns ->
            Advertising_Type r <> Unknown /\ is_Some (Date r)) as Hk.
  { intros r Hr. unfold Script10.known in Hr.
    apply list_elem_of_filter in Hr as [Hd Hr].
    apply known_only_elem in Hr as [_ Hu]. auto. }
  assert (known_only (Script10.known perpetua_df all_asins_df campaigns)
          = Script10.known perpetua_df all_asins_df campaigns) as Hfix.
  { unfold known_only at 1. apply filter_all. intros r Hr.
    destruct (Hk r Hr) as [Hu _].
    destruct (Advertising_Type r); cbn; congruence. }
  split; [|split].
  - intros r Hr. destruct (Hk r Hr) as [Hu Hd]. split; [|exact Hd].
    destruct (Advertising_Type r); auto. congruence.
  - rewrite <- Hfix at 1. apply cohorts_partition.
  - intros _.
    unfold Script10.perpetua, Script10.non_perpetua, Script10.calc_metrics.
    cbn [Script10.Total_Spend Script10.Total_Sales Script10.Total_Orders
         Script10.Total_Clicks Script10.Total_Impressions].
    rewrite !sum_of_types, Hfix. repeat split; reflexivity.
Qed.

Lemma script10_cohorts_exhaust_known_witness :
  let perpetua_df := [ Examples.ref "NT1" "B000000001" ] in
  let all_asins_df :=
    [ Examples.ref "NT1" "B000000001"; Examples.ref "NT2" "B000000002" ] in
  let campaigns :=
    [ Examples.row "SP | B000000001 | auto" 100 250 5 40 1000;
      Examples.row "SP | B000000002 | auto" 50 50 1 20 400 ] in
  Script10.Total_Clicks (Script10.perpetua perpetua_df all_asins_df campaigns)
  + Script10.Total_Clicks
      (Script10.non_perpetua perpetua_df all_asins_df campaigns)
  == Pandas.sum (Clicks <$> Script10.known perpetua_df all_asins_df campaigns).
Proof.
  intros perpetua_df all_asins_df campaigns.
  refine (proj1 (proj2 (proj2 (proj2
    (proj2 (proj2 (script10_cohorts_exhaust_known perpetua_df all_asins_df
                     campaigns)) _))))).
  assert (Script10.known perpetua_df all_asins_df campaigns
          = Script10.tag perpetua_df all_asins_df <$> campaigns)
    as -> by (vm_compute; reflexivity).
  unfold whole_number_columns.
  repeat match goal with |- _ /\ _ => split end;
    apply whole_numbers_check; repeat constructor; vm_compute; reflexivity.
Defined.
